(** * Databricks SQL middleware: execution client and request router

    A shallow embedding of
    [examples/azure-functions/python/databricks_client.py] and
    [examples/azure-functions/python/function_app.py].

    Python values that come out of [response.json()] or [req.get_json()]
    are JSON values; the code handles them dynamically (`.get`, `in`,
    subscripting, truthiness, `len`), so they are modelled as one
    untyped [json] type and every dynamic operation is a function that
    can raise.  A string is a sequence of code points below 256 (one
    [ascii] per character of a Python [str]); JSON numbers are integers. *)

From Stdlib Require Import ZArith List String Ascii Bool Lia DecimalString.
Import ListNotations.
Local Open Scope string_scope.
Local Open Scope Z_scope.

(* ===================================================================== *)
(** ** Python values and exceptions *)
(* ===================================================================== *)

(** A parsed JSON document.  [JNull] is Python's [None]; a [JObj] is a
    [dict] in insertion order, looked up by first match (the keys of a
    dict are distinct, so there is no second match to miss). *)
#[warnings="-register-all"]
Inductive json : Type :=
| JNull
| JBool (b : bool)
| JNum (n : Z)
| JStr (s : string)
| JArr (items : list json)
| JObj (fields : list (string * json)).

(** The exception classes the two files can meet.  All of them derive
    from [Exception]. *)
Inductive exn_class : Type :=
| ValueError | TypeError | KeyError | AttributeError
| HTTPStatusError | OtherException.

(** Exceptions raised by the interpreter or by a library rather than by a
    [raise] statement of the repository.  Their class is fixed; their
    text is the library's business (see [platform]). *)
Inductive fault : Type :=
| NotAStatementState (v : json)            (* StatementState(v) *)
| NoAttribute (v : json) (attr : string)   (* v.get / v.items on a non-dict *)
| NotAContainer (v : json)                 (* "k" in v *)
| NotIterable (v : json)                   (* for c in v *)
| NotSubscriptable (v : json)              (* v["k"] on None, bool, int *)
| BadIndex (v : json) (k : string)         (* v["k"] on a list or a str *)
| MissingKey (k : string)                  (* d["k"] *)
| NoLen (v : json)                         (* len(v) *)
| BadIntLiteral (s : option string)        (* int(s) *)
| BadStatus (code : Z) (url : string).     (* response.raise_for_status() *)

Inductive exn : Type :=
| Fault (f : fault)
| Raised (cls : exn_class) (msg : string).

Definition class_of_fault (f : fault) : exn_class :=
  match f with
  | NotAStatementState _ => ValueError
  | NoAttribute _ _ => AttributeError
  | NotAContainer _ | NotIterable _ | NotSubscriptable _
  | BadIndex _ _ | NoLen _ => TypeError
  | MissingKey _ => KeyError
  | BadIntLiteral (Some _) => ValueError
  | BadIntLiteral None => TypeError
  | BadStatus _ _ => HTTPStatusError
  end.

Definition class_of (e : exn) : exn_class :=
  match e with
  | Fault f => class_of_fault f
  | Raised cls _ => cls
  end.

Definition exn_class_eqb (a b : exn_class) : bool :=
  match a, b with
  | ValueError, ValueError | TypeError, TypeError | KeyError, KeyError
  | AttributeError, AttributeError | HTTPStatusError, HTTPStatusError
  | OtherException, OtherException => true
  | _, _ => false
  end.

(** A computation that returns or raises. *)
Definition result (A : Type) : Type := (exn + A)%type.

Definition rbind {A B : Type} (r : result A) (k : A -> result B) : result B :=
  match r with
  | inl e => inl e
  | inr a => k a
  end.

Declare Scope result_scope.
Delimit Scope result_scope with result.
Notation "'let?' x ':=' r 'in' k" := (rbind r (fun x => k))
  (at level 10, x name, r at level 100, k at level 200) : result_scope.

Definition raises {A : Type} (r : result A) : Prop := exists e, r = inl e.

(* --------------------------------------------------------------------- *)
(** *** Dynamic operations on values *)

(** [d.get(k)] on the fields of a dict. *)
Fixpoint lookup (k : string) (fields : list (string * json)) : option json :=
  match fields with
  | [] => None
  | (k', v) :: rest => if String.eqb k k' then Some v else lookup k rest
  end.

Definition has_key (k : string) (fields : list (string * json)) : bool :=
  match lookup k fields with Some _ => true | None => false end.

(** [v.get(k, default)]. *)
Definition py_get (v : json) (k : string) (default : json) : result json :=
  match v with
  | JObj fields =>
      inr (match lookup k fields with Some x => x | None => default end)
  | _ => inl (Fault (NoAttribute v "get"))
  end.

(** [v[k]] with a string key. *)
Definition py_getitem (v : json) (k : string) : result json :=
  match v with
  | JObj fields =>
      match lookup k fields with
      | Some x => inr x
      | None => inl (Fault (MissingKey k))
      end
  | JArr _ | JStr _ => inl (Fault (BadIndex v k))
  | _ => inl (Fault (NotSubscriptable v))
  end.

Fixpoint is_prefix (p s : string) : bool :=
  match p, s with
  | EmptyString, _ => true
  | String a p', String b s' => Ascii.eqb a b && is_prefix p' s'
  | String _ _, EmptyString => false
  end.

(** [sub in s] on two strings. *)
Fixpoint contains (sub s : string) : bool :=
  is_prefix sub s ||
  match s with
  | EmptyString => false
  | String _ s' => contains sub s'
  end.

(** [k in v] with a string [k]. *)
Definition py_in (k : string) (v : json) : result bool :=
  match v with
  | JObj fields => inr (has_key k fields)
  | JArr items =>
      inr (existsb (fun x => match x with
                             | JStr s => String.eqb k s
                             | _ => false
                             end) items)
  | JStr s => inr (contains k s)
  | _ => inl (Fault (NotAContainer v))
  end.

Fixpoint chars (s : string) : list json :=
  match s with
  | EmptyString => []
  | String c s' => JStr (String c EmptyString) :: chars s'
  end.

(** The sequence [for c in v] walks through. *)
Definition py_iter (v : json) : result (list json) :=
  match v with
  | JArr items => inr items
  | JObj fields => inr (map (fun kv => JStr (fst kv)) fields)
  | JStr s => inr (chars s)
  | _ => inl (Fault (NotIterable v))
  end.

(** Truth value of [v] in [if v:] and [not v]. *)
Definition truthy (v : json) : bool :=
  match v with
  | JNull => false
  | JBool b => b
  | JNum n => negb (n =? 0)
  | JStr s => negb (String.eqb s "")
  | JArr items => match items with [] => false | _ => true end
  | JObj fields => match fields with [] => false | _ => true end
  end.

(** [len(v)]. *)
Definition py_len (v : json) : result Z :=
  match v with
  | JStr s => inr (Z.of_nat (String.length s))
  | JArr items => inr (Z.of_nat (List.length items))
  | JObj fields => inr (Z.of_nat (List.length fields))
  | _ => inl (Fault (NoLen v))
  end.

Definition is_none (v : json) : bool :=
  match v with JNull => true | _ => false end.

(** A comprehension [[f(c) for c in xs]] whose body can raise: the first
    failing element aborts the whole list. *)
Fixpoint traverse {A B : Type} (f : A -> result B) (xs : list A)
  : result (list B) :=
  match xs with
  | [] => inr []
  | x :: rest =>
      match f x with
      | inl e => inl e
      | inr y =>
          match traverse f rest with
          | inl e => inl e
          | inr ys => inr (y :: ys)
          end
      end
  end.

(* ===================================================================== *)
(** ** databricks_client.py : the data model *)
(* ===================================================================== *)

Inductive StatementState : Type :=
| PENDING | RUNNING | SUCCEEDED | FAILED | CANCELED | CLOSED.

(** [state.value] *)
Definition state_value (s : StatementState) : string :=
  match s with
  | PENDING => "PENDING"
  | RUNNING => "RUNNING"
  | SUCCEEDED => "SUCCEEDED"
  | FAILED => "FAILED"
  | CANCELED => "CANCELED"
  | CLOSED => "CLOSED"
  end.

Definition all_states : list StatementState :=
  [PENDING; RUNNING; SUCCEEDED; FAILED; CANCELED; CLOSED].

Definition state_eqb (a b : StatementState) : bool :=
  String.eqb (state_value a) (state_value b).

(** [StatementState(v)]: the member whose value equals [v], else
    ValueError. *)
Definition StatementState_of (v : json) : result StatementState :=
  match v with
  | JStr s =>
      match find (fun m => String.eqb (state_value m) s) all_states with
      | Some m => inr m
      | None => inl (Fault (NotAStatementState v))
      end
  | _ => inl (Fault (NotAStatementState v))
  end.

(** The dataclass.  Optional fields hold [JNull] for [None]. *)
Record StatementResult : Type := mkStatementResult {
  statement_id : json;
  state : StatementState;
  total_chunk_count : json;
  total_row_count : json;
  columns : json;
  data : json;
  chunk_index : json;
  error_message : json
}.

(** One entry of the [columns] comprehension:
    [{"name": c["name"], "type": c.get("type_name", "string")}]. *)
Definition parse_column (c : json) : result json :=
  (let? name := py_getitem c "name" in
   let? type := py_get c "type_name" (JStr "string") in
   inr (JObj [("name", name); ("type", type)]))%result.

(** [DatabricksClient._parse_statement_response] *)
Definition _parse_statement_response (data : json) : result StatementResult :=
  (let? status := py_get data "status" (JObj []) in
   let? raw_state := py_get status "state" (JStr "PENDING") in
   let? state := StatementState_of raw_state in
   let? manifest := py_get data "manifest" (JObj []) in
   let? result := py_get data "result" (JObj []) in
   let? error_msg :=
     if state_eqb state FAILED then
       let? error := py_get status "error" (JObj []) in
       py_get error "message" (JStr "Unknown error")
     else inr JNull in
   let? has_schema := py_in "schema" manifest in
   let? columns :=
     if has_schema : bool then
       let? schema := py_getitem manifest "schema" in
       let? cols := py_get schema "columns" (JArr []) in
       let? cs := py_iter cols in
       let? parsed := traverse parse_column cs in
       inr (JArr parsed)
     else inr JNull in
   let? sid := py_get data "statement_id" (JStr "") in
   let? tcc := py_get manifest "total_chunk_count" JNull in
   let? trc := py_get manifest "total_row_count" JNull in
   let? rows := py_get result "data_array" JNull in
   let? cidx := py_get result "chunk_index" JNull in
   inr (mkStatementResult sid state tcc trc columns rows cidx error_msg))%result.

(* ===================================================================== *)
(** ** The process and its surroundings *)
(* ===================================================================== *)

Inductive http_method : Type := GET | POST.

(** One request on the pooled [httpx.AsyncClient]. *)
Record outbound : Type := mkOutbound {
  out_method : http_method;
  out_base_url : string;
  out_bearer : string;
  out_path : string;
  out_json : option json
}.

(** What comes back: a response with a status code and a body that
    [response.json()] decodes (or fails to decode), or an exception of the
    transport (connect error, timeout) raised by the request itself. *)
Inductive reply : Type :=
| Reply (status_code : Z) (body : result json)
| NoReply (e : exn).

(** Everything the two files take from outside: the environment
    variables, the remote service (its answer may depend on the requests
    sent before), the texts Python and httpx give to the exceptions and
    values they print, and what [httpx.AsyncClient(base_url=..., headers=
    ...)] does with a host and a token: [None] when it builds the pooled
    client, the exception it raises otherwise. *)
Record platform : Type := mkPlatform {
  environ : list (string * string);
  remote : list outbound -> outbound -> reply;
  str_fault : fault -> string;
  py_repr : json -> string;
  new_async_client : string -> string -> option exn
}.

(** [str(e)] *)
Definition str_exn (P : platform) (e : exn) : string :=
  match e with
  | Fault f => str_fault P f
  | Raised _ msg => msg
  end.

(** [str(v)]: a string is itself, anything else prints as its repr. *)
Definition py_str (P : platform) (v : json) : string :=
  match v with
  | JStr s => s
  | _ => py_repr P v
  end.

(** [str(n)] for an int. *)
Definition str_int (n : Z) : string := NilZero.string_of_int (Z.to_int n).

Record DatabricksClient : Type := mkClient {
  host : string;
  token : string;
  warehouse_id : string
}.

(** The mutable part: the module-level singleton [_client], the requests
    sent so far (oldest first) and the log. *)
Record process : Type := mkProcess {
  _client : option DatabricksClient;
  sent : list outbound;
  logged : list string
}.

Definition fresh_process : process := mkProcess None [] [].

(** Code that returns or raises and may change the process on the way;
    what it changed before raising stays changed. *)
Definition M (A : Type) : Type := process -> result A * process.

Definition ret {A : Type} (a : A) : M A := fun p => (inr a, p).
Definition raise {A : Type} (e : exn) : M A := fun p => (inl e, p).
Definition lift {A : Type} (r : result A) : M A := fun p => (r, p).

Definition bind {A B : Type} (m : M A) (k : A -> M B) : M B :=
  fun p =>
    match m p with
    | (inl e, p') => (inl e, p')
    | (inr a, p') => k a p'
    end.

(** [try: m  except Exception as e: h e] *)
Definition try_except {A : Type} (m : M A) (h : exn -> M A) : M A :=
  fun p =>
    match m p with
    | (inl e, p') => h e p'
    | (inr a, p') => (inr a, p')
    end.

Declare Scope m_scope.
Delimit Scope m_scope with m.
Notation "x <- m ;; k" := (bind m (fun x => k))
  (at level 61, m at next level, right associativity) : m_scope.
Notation "m ;;; k" := (bind m (fun _ => k))
  (at level 61, right associativity) : m_scope.

Definition log_exception (msg : string) : M unit :=
  fun p => (inr tt, mkProcess (_client p) (sent p) (logged p ++ [msg])).

(* --------------------------------------------------------------------- *)
(** *** Strings *)

(** [s.rstrip("/")] *)
Fixpoint rstrip_slash (s : string) : string :=
  match s with
  | EmptyString => EmptyString
  | String c s' =>
      match rstrip_slash s' with
      | EmptyString => if Ascii.eqb c "/" then EmptyString
                       else String c EmptyString
      | t => String c t
      end
  end.

(** Lower case of one character: A-Z, and the capital letters
    U+00C0..U+00DE other than the multiplication sign U+00D7. *)
Definition lower_char (c : ascii) : ascii :=
  let n := nat_of_ascii c in
  if ((Nat.leb 65 n && Nat.leb n 90)
      || (Nat.leb 192 n && Nat.leb n 222 && negb (Nat.eqb n 215)))%bool
  then ascii_of_nat (n + 32) else c.

(** [s.lower()] *)
Fixpoint lower (s : string) : string :=
  match s with
  | EmptyString => EmptyString
  | String c s' => String (lower_char c) (lower s')
  end.

(** Whitespace that [int] skips on both ends: tab to carriage return and
    the space, and of the other characters the two Unicode spaces below
    256, U+0085 and U+00A0.  The separators U+001C..U+001F are not
    skipped. *)
Definition is_space (c : ascii) : bool :=
  let n := nat_of_ascii c in
  ((Nat.leb 9 n && Nat.leb n 13) || Nat.eqb n 32
   || Nat.eqb n 133 || Nat.eqb n 160)%bool.

Fixpoint lstrip (s : string) : string :=
  match s with
  | String c s' => if is_space c then lstrip s' else s
  | EmptyString => EmptyString
  end.

Fixpoint rstrip (s : string) : string :=
  match s with
  | EmptyString => EmptyString
  | String c s' =>
      match rstrip s' with
      | EmptyString => if is_space c then EmptyString else String c EmptyString
      | t => String c t
      end
  end.

Definition digit_of (c : ascii) : option Z :=
  let n := nat_of_ascii c in
  if (Nat.leb 48 n && Nat.leb n 57)%bool then Some (Z.of_nat (n - 48)) else None.

(** Decimal digits with single underscores between them. *)
Fixpoint digits (acc : Z) (after_digit : bool) (s : string) : option Z :=
  match s with
  | EmptyString => if after_digit then Some acc else None
  | String c s' =>
      match digit_of c with
      | Some d => digits (10 * acc + d) true s'
      | None =>
          if (Ascii.eqb c "_" && after_digit)%bool then digits acc false s'
          else None
      end
  end.

(** The interpreter's default limit on the digits of a decimal literal
    ([sys.get_int_max_str_digits()]). *)
Definition int_max_str_digits : nat := 4300.

Fixpoint count_digits (s : string) : nat :=
  match s with
  | EmptyString => O
  | String c s' =>
      match digit_of c with
      | Some _ => S (count_digits s')
      | None => count_digits s'
      end
  end.

(** [int(s)] on a string: surrounding whitespace, an optional sign, then
    the digits, of which there are at most [int_max_str_digits]. *)
Definition int_of_string (s : string) : option Z :=
  let t := rstrip (lstrip s) in
  if Nat.leb (count_digits t) int_max_str_digits then
    match t with
    | String "-" ds => option_map Z.opp (digits 0 false ds)
    | String "+" ds => digits 0 false ds
    | ds => digits 0 false ds
    end
  else None.

(** [int(x)] where [x] is a string or [None]. *)
Definition py_int (x : option string) : result Z :=
  match x with
  | None => inl (Fault (BadIntLiteral None))
  | Some s =>
      match int_of_string s with
      | Some n => inr n
      | None => inl (Fault (BadIntLiteral (Some s)))
      end
  end.

(* ===================================================================== *)
(** ** databricks_client.py : the client *)
(* ===================================================================== *)

Section Client.
Variable P : platform.

(** [os.environ.get(name, "")] *)
Fixpoint environ_get (name : string) (env : list (string * string)) : string :=
  match env with
  | [] => ""
  | (k, v) :: rest => if String.eqb name k then v else environ_get name rest
  end.

(** [arg or os.environ.get(name, "")] *)
Definition arg_or_env (arg : option string) (name : string) : string :=
  match arg with
  | Some s => if String.eqb s "" then environ_get name (environ P) else s
  | None => environ_get name (environ P)
  end.

Definition missing_config_message : string :=
  "Missing Databricks config. Set DATABRICKS_HOST, DATABRICKS_TOKEN, "
  ++ "and DATABRICKS_WAREHOUSE_ID environment variables.".

(** [DatabricksClient.__init__] *)
Definition DatabricksClient_init (host token warehouse_id : option string)
  : result DatabricksClient :=
  let h := rstrip_slash (arg_or_env host "DATABRICKS_HOST") in
  let t := arg_or_env token "DATABRICKS_TOKEN" in
  let w := arg_or_env warehouse_id "DATABRICKS_WAREHOUSE_ID" in
  if forallb (fun s => negb (String.eqb s "")) [h; t; w]
  then match new_async_client P h t with
       | Some e => inl e
       | None => inr (mkClient h t w)
       end
  else inl (Raised ValueError missing_config_message).

(** [get_databricks_client]: the lazily created singleton. *)
Definition get_databricks_client : M DatabricksClient :=
  fun p =>
    match _client p with
    | Some c => (inr c, p)
    | None =>
        match DatabricksClient_init None None None with
        | inl e => (inl e, p)
        | inr c => (inr c, mkProcess (Some c) (sent p) (logged p))
        end
    end.

(** [await self._client.get(...)] / [.post(...)]: the request goes out,
    then the reply comes back or the transport raises. *)
Definition request (self : DatabricksClient) (m : http_method) (path : string)
    (payload : option json) : M (Z * result json) :=
  fun p =>
    let req := mkOutbound m (host self) (token self) path payload in
    let p' := mkProcess (_client p) (sent p ++ [req]) (logged p) in
    match remote P (sent p) req with
    | Reply code body => (inr (code, body), p')
    | NoReply e => (inl e, p')
    end.

(** [response.raise_for_status()]: httpx raises on anything but 2xx. *)
Definition raise_for_status (self : DatabricksClient) (path : string)
    (code : Z) : result unit :=
  if ((200 <=? code) && (code <=? 299))%bool then inr tt
  else inl (Fault (BadStatus code (host self ++ path))).

(** [[{"name": k, "value": str(v)} for k, v in parameters.items()]] *)
Definition parameter_list (parameters : json) : result json :=
  match parameters with
  | JObj fields =>
      inr (JArr (map (fun kv => JObj [("name", JStr (fst kv));
                                      ("value", JStr (py_str P (snd kv)))])
                     fields))
  | _ => inl (Fault (NoAttribute parameters "items"))
  end.

Definition statements_path : string := "/api/2.0/sql/statements".

(** [execute_statement] with the default [wait_timeout] and [format_]. *)
Definition execute_statement (self : DatabricksClient)
    (statement parameters : json) : M StatementResult :=
  (let payload :=
     [("warehouse_id", JStr (warehouse_id self));
      ("statement", statement);
      ("wait_timeout", JStr "50s");
      ("on_wait_timeout", JStr "CONTINUE");
      ("format", JStr "JSON_ARRAY")] in
   payload <- (if truthy parameters
               then ps <- lift (parameter_list parameters) ;;
                    ret (payload ++ [("parameters", ps)])%list
               else ret payload) ;;
   response <- request self POST statements_path (Some (JObj payload)) ;;
   lift (raise_for_status self statements_path (fst response)) ;;;
   data <- lift (snd response) ;;
   lift (_parse_statement_response data))%m.

(** [get_statement_status] *)
Definition get_statement_status (self : DatabricksClient)
    (statement_id : string) : M StatementResult :=
  (let path := statements_path ++ "/" ++ statement_id in
   response <- request self GET path None ;;
   lift (raise_for_status self path (fst response)) ;;;
   data <- lift (snd response) ;;
   lift (_parse_statement_response data))%m.

Definition chunk_path (statement_id : string) (chunk_index : Z) : string :=
  statements_path ++ "/" ++ statement_id ++ "/result/chunks/"
  ++ str_int chunk_index.

(** [get_chunk] *)
Definition get_chunk (self : DatabricksClient) (statement_id : string)
    (chunk_index : Z) : M StatementResult :=
  (let path := chunk_path statement_id chunk_index in
   response <- request self GET path None ;;
   lift (raise_for_status self path (fst response)) ;;;
   data <- lift (snd response) ;;
   cidx <- lift (py_get data "chunk_index" JNull) ;;
   rows <- lift (py_get data "data_array" JNull) ;;
   ret (mkStatementResult (JStr statement_id) SUCCEEDED JNull JNull JNull
          rows cidx JNull))%m.

Definition cancel_path (statement_id : string) : string :=
  statements_path ++ "/" ++ statement_id ++ "/cancel".

(** [cancel_statement] *)
Definition cancel_statement (self : DatabricksClient) (statement_id : string)
  : M bool :=
  (response <- request self POST (cancel_path statement_id) None ;;
   ret (fst response =? 200))%m.

End Client.

(* ===================================================================== *)
(** ** function_app.py : the router *)
(* ===================================================================== *)

Inductive HTTPStatus : Type :=
| OK | ACCEPTED | BAD_REQUEST | GONE | INTERNAL_SERVER_ERROR.

(** [status.value] *)
Definition status_value (s : HTTPStatus) : Z :=
  match s with
  | OK => 200
  | ACCEPTED => 202
  | BAD_REQUEST => 400
  | GONE => 410
  | INTERNAL_SERVER_ERROR => 500
  end.

Definition STATE_TO_HTTP : list (StatementState * HTTPStatus) :=
  [(PENDING, ACCEPTED);
   (RUNNING, ACCEPTED);
   (SUCCEEDED, OK);
   (FAILED, INTERNAL_SERVER_ERROR);
   (CANCELED, GONE);
   (CLOSED, GONE)].

(** [STATE_TO_HTTP.get(state, default)] *)
Definition state_to_http_get (s : StatementState) (default : HTTPStatus)
  : HTTPStatus :=
  match find (fun kv => state_eqb (fst kv) s) STATE_TO_HTTP with
  | Some kv => snd kv
  | None => default
  end.

(** The dict handed to [json.dumps] is kept as it is. *)
Record HttpResponse : Type := mkResponse {
  status_code : Z;
  body : json;
  mimetype : string
}.

(** What a handler reads of [func.HttpRequest]: the decoded body ([None]
    when [get_json] raises ValueError) and the route parameters. *)
Record HttpRequest : Type := mkRequest {
  req_json : option json;
  route_params : list (string * string)
}.

Definition json_response (data : list (string * json)) (status : HTTPStatus)
  : HttpResponse :=
  mkResponse (status_value status) (JObj data) "application/json".

Definition error_response (message : string) (status : HTTPStatus)
  : HttpResponse :=
  json_response [("error", JStr message)] status.

(** [route_params.get(name)] *)
Fixpoint route_get (name : string) (params : list (string * string))
  : option string :=
  match params with
  | [] => None
  | (k, v) :: rest => if String.eqb name k then Some v else route_get name rest
  end.

(** [d[k] = v] *)
Fixpoint set_item (k : string) (v : json) (d : list (string * json))
  : list (string * json) :=
  match d with
  | [] => [(k, v)]
  | (k', v') :: rest =>
      if String.eqb k k' then (k, v) :: rest else (k', v') :: set_item k v rest
  end.

(** [not x] for a route parameter. *)
Definition blank (x : option string) : bool :=
  match x with
  | None => true
  | Some s => String.eqb s ""
  end.

Section Router.
Variable P : platform.

(** The metadata fields shared by [execute_query] and [get_status]:
    the three [if] statements after the FAILED check. *)
Definition add_metadata (result : StatementResult)
    (response_data : list (string * json)) : list (string * json) :=
  let d1 := if negb (is_none (total_chunk_count result))
            then set_item "totalChunks" (total_chunk_count result) response_data
            else response_data in
  let d2 := if negb (is_none (total_row_count result))
            then set_item "totalRows" (total_row_count result) d1
            else d1 in
  if truthy (columns result)
  then set_item "columns" (columns result) d2
  else d2.

(** The body of the [try] block of [execute_query]. *)
Definition execute_query_try (statement parameters : json) : M HttpResponse :=
  (client <- get_databricks_client P ;;
   result <- execute_statement P client statement parameters ;;
   let http_status := state_to_http_get (state result) OK in
   let response_data :=
     [("statementId", statement_id result);
      ("state", JStr (state_value (state result)))] in
   if state_eqb (state result) FAILED then
     ret (json_response
            (set_item "error" (error_message result) response_data)
            INTERNAL_SERVER_ERROR)
   else
     let response_data := add_metadata result response_data in
     response_data <-
       (if (negb (is_none (data result))
            && state_eqb (state result) SUCCEEDED)%bool
        then
          n <- lift (py_len (data result)) ;;
          ret (set_item "firstChunk"
                 (JObj [("chunkIndex", JNum 0);
                        ("rowCount", JNum n);
                        ("data", data result)])
                 response_data)
        else ret response_data) ;;
     ret (json_response response_data http_status))%m.

(** [execute_query] *)
Definition execute_query (req : HttpRequest) : M HttpResponse :=
  match req_json req with
  | None => ret (error_response "Invalid JSON body" BAD_REQUEST)
  | Some body =>
      (statement <- lift (py_get body "statement" JNull) ;;
       if negb (truthy statement)
       then ret (error_response "Missing 'statement' field" BAD_REQUEST)
       else
         parameters <- lift (py_get body "parameters" JNull) ;;
         try_except (execute_query_try statement parameters)
           (fun e =>
              log_exception "Error executing query" ;;;
              ret (error_response (str_exn P e) INTERNAL_SERVER_ERROR)))%m
  end.

(** The body of the second [try] block of [get_chunk]. *)
Definition get_chunk_try (sid : string) (idx : Z) : M HttpResponse :=
  (client <- get_databricks_client P ;;
   result <- get_chunk P client sid idx ;;
   n <- (if truthy (data result) then lift (py_len (data result))
         else ret 0) ;;
   ret (json_response
          [("chunkIndex", chunk_index result);
           ("rowCount", JNum n);
           ("data", data result)]
          OK))%m.

(** The [except Exception] block of [get_chunk]. *)
Definition get_chunk_except (e : exn) : M HttpResponse :=
  (log_exception "Error fetching chunk" ;;;
   let error_msg := str_exn P e in
   if (contains "404" error_msg || contains "not found" (lower error_msg))%bool
   then ret (error_response
               "Statement not found or cache expired. Re-execute query."
               GONE)
   else ret (error_response error_msg INTERNAL_SERVER_ERROR))%m.

(** [get_chunk] of function_app.py *)
Definition get_chunk_handler (req : HttpRequest) : M HttpResponse :=
  let chunk_index_str := route_get "chunkIndex" (route_params req) in
  match route_get "statementId" (route_params req) with
  | None => ret (error_response "Missing statementId" BAD_REQUEST)
  | Some sid =>
      if String.eqb sid ""
      then ret (error_response "Missing statementId" BAD_REQUEST)
      else
        match py_int chunk_index_str with
        | inl e =>
            if (exn_class_eqb (class_of e) ValueError
                || exn_class_eqb (class_of e) TypeError)%bool
            then ret (error_response "Invalid chunkIndex" BAD_REQUEST)
            else raise e
        | inr idx =>
            try_except (get_chunk_try sid idx) get_chunk_except
        end
  end.

(** The body of the [try] block of [get_status]. *)
Definition get_status_try (sid : string) : M HttpResponse :=
  (client <- get_databricks_client P ;;
   result <- get_statement_status P client sid ;;
   let http_status := state_to_http_get (state result) OK in
   let response_data :=
     [("statementId", statement_id result);
      ("state", JStr (state_value (state result)))] in
   let response_data :=
     if state_eqb (state result) FAILED
     then set_item "error" (error_message result) response_data
     else response_data in
   ret (json_response (add_metadata result response_data) http_status))%m.

(** [get_status] *)
Definition get_status (req : HttpRequest) : M HttpResponse :=
  match route_get "statementId" (route_params req) with
  | None => ret (error_response "Missing statementId" BAD_REQUEST)
  | Some sid =>
      if String.eqb sid ""
      then ret (error_response "Missing statementId" BAD_REQUEST)
      else
        try_except (get_status_try sid)
          (fun e =>
             (log_exception "Error fetching status" ;;;
              ret (error_response (str_exn P e) INTERNAL_SERVER_ERROR))%m)
  end.

(** [cancel_query] *)
Definition cancel_query (req : HttpRequest) : M HttpResponse :=
  match route_get "statementId" (route_params req) with
  | None => ret (error_response "Missing statementId" BAD_REQUEST)
  | Some sid =>
      if String.eqb sid ""
      then ret (error_response "Missing statementId" BAD_REQUEST)
      else
        try_except
          (client <- get_databricks_client P ;;
           success <- cancel_statement P client sid ;;
           if success : bool
           then ret (json_response [("cancelled", JBool true)] OK)
           else ret (error_response "Failed to cancel" INTERNAL_SERVER_ERROR))%m
          (fun e =>
             (log_exception "Error cancelling query" ;;;
              ret (error_response (str_exn P e) INTERNAL_SERVER_ERROR))%m)
  end.

End Router.

(* ===================================================================== *)
(** ** Reading a response body *)
(* ===================================================================== *)

(** The value a body carries under a key, if it is an object that has
    the key. *)
Definition field (k : string) (v : json) : option json :=
  match v with
  | JObj fields => lookup k fields
  | _ => None
  end.

Definition field_or (k : string) (v default : json) : json :=
  match field k v with
  | Some x => x
  | None => default
  end.

(** [status], [manifest] and [result] of a body, [{}] when absent. *)
Definition status_of (data : json) : json := field_or "status" data (JObj []).
Definition manifest_of (data : json) : json := field_or "manifest" data (JObj []).
Definition result_of (data : json) : json := field_or "result" data (JObj []).

Definition is_obj (v : json) : bool :=
  match v with JObj _ => true | _ => false end.

Definition obj_or_absent (o : option json) : bool :=
  match o with
  | None => true
  | Some v => is_obj v
  end.

(** A column entry the comprehension accepts: an object with a name. *)
Definition is_column (c : json) : bool :=
  match c with
  | JObj fields => has_key "name" fields
  | _ => false
  end.

(** What the comprehension makes of an accepted column. *)
Definition column_of (c : json) : json :=
  JObj [("name", field_or "name" c JNull);
        ("type", field_or "type_name" c (JStr "string"))].

Definition schema_well_shaped (manifest : json) : bool :=
  match field "schema" manifest with
  | None => true
  | Some (JObj sf) =>
      match lookup "columns" sf with
      | None => true
      | Some (JArr cs) => forallb is_column cs
      | Some _ => false
      end
  | Some _ => false
  end.

(** A body whose present fields have the shape the service documents:
    objects where objects are expected, and a list of named columns. *)
Definition well_shaped (data : json) : bool :=
  is_obj data
  && obj_or_absent (field "status" data)
  && obj_or_absent (field "manifest" data)
  && obj_or_absent (field "result" data)
  && obj_or_absent (field "error" (status_of data))
  && schema_well_shaped (manifest_of data).

(** The columns a well-shaped body yields. *)
Definition columns_of (manifest : json) : json :=
  match field "schema" manifest with
  | Some schema =>
      match field_or "columns" schema (JArr []) with
      | JArr cs => JArr (map column_of cs)
      | _ => JNull
      end
  | None => JNull
  end.

(* --------------------------------------------------------------------- *)
(** *** Sample bodies and surroundings *)

(** A failed statement whose error object carries an explicit null. *)
Definition failed_null_message : json :=
  JObj [("status", JObj [("state", JStr "FAILED");
                         ("error", JObj [("message", JNull)])])].

(** A failed statement with no error object at all. *)
Definition failed_no_error : json :=
  JObj [("statement_id", JStr "s1");
        ("status", JObj [("state", JStr "FAILED")])].

(** A succeeded statement whose only column has a type but no name. *)
Definition unnamed_column : json :=
  JObj [("status", JObj [("state", JStr "SUCCEEDED")]);
        ("manifest",
         JObj [("schema",
                JObj [("columns", JArr [JObj [("type_name", JStr "INT")]])])])].

(** A body with no status and one untyped column. *)
Definition untyped_column : json :=
  JObj [("manifest",
         JObj [("schema", JObj [("columns", JArr [JObj [("name", JStr "id")]])]);
               ("total_chunk_count", JNum 1)])].

(** [{status:{state:"SUCCEEDED"}, result:{data_array:[[1]]}}] *)
Definition select_one_body : json :=
  JObj [("status", JObj [("state", JStr "SUCCEEDED")]);
        ("result", JObj [("data_array", JArr [JArr [JNum 1]])])].

Definition sample_environ : list (string * string) :=
  [("DATABRICKS_HOST", "https://dbx.example/");
   ("DATABRICKS_TOKEN", "secret");
   ("DATABRICKS_WAREHOUSE_ID", "wh1")].

(** A rendering of exception texts in the manner of httpx: the status
    code, then the URL. *)
Definition sample_text (f : fault) : string :=
  match f with
  | BadStatus code url => "status " ++ str_int code ++ " for url " ++ url
  | _ => "error"
  end.

(** Surroundings in which the configuration is [env] and the remote
    service gives the same reply to every request. *)
Definition sample_platform (env : list (string * string)) (r : reply)
  : platform :=
  mkPlatform env (fun _ _ => r) sample_text (fun _ => "?") (fun _ _ => None).

Definition sample_client : DatabricksClient :=
  mkClient "https://dbx.example" "secret" "wh1".

(** Inbound requests. *)
Definition execute_request (body : json) : HttpRequest :=
  mkRequest (Some body) [].

Definition chunk_request (sid idx : string) : HttpRequest :=
  mkRequest None [("statementId", sid); ("chunkIndex", idx)].

Definition statement_request (sid : string) : HttpRequest :=
  mkRequest None [("statementId", sid)].

(* --------------------------------------------------------------------- *)
(** *** One exchange with the remote service *)

(** What the three lines [response = await ...], [raise_for_status()],
    [response.json()] make of a reply to a request on [path]. *)
Definition decoded (self : DatabricksClient) (path : string) (r : reply)
  : result json :=
  match r with
  | NoReply e => inl e
  | Reply code body =>
      match raise_for_status self path code with
      | inl e => inl e
      | inr _ => body
      end
  end.

(** The process after one more request has been sent. *)
Definition after_request (p : process) (req : outbound) : process :=
  mkProcess (_client p) (sent p ++ [req]) (logged p).

Definition after_log (p : process) (msg : string) : process :=
  mkProcess (_client p) (sent p) (logged p ++ [msg]).

Definition poll_request (self : DatabricksClient) (sid : string) : outbound :=
  mkOutbound GET (host self) (token self) (statements_path ++ "/" ++ sid) None.

Definition fetch_request (self : DatabricksClient) (sid : string) (idx : Z)
  : outbound :=
  mkOutbound GET (host self) (token self) (chunk_path sid idx) None.

Definition cancel_request (self : DatabricksClient) (sid : string) : outbound :=
  mkOutbound POST (host self) (token self) (cancel_path sid) None.

(** The state-to-status table of the specification, written as a function. *)
Definition status_of_state (s : StatementState) : HTTPStatus :=
  match s with
  | PENDING | RUNNING => ACCEPTED
  | SUCCEEDED => OK
  | FAILED => INTERNAL_SERVER_ERROR
  | CANCELED | CLOSED => GONE
  end.

(** The keys of a response payload, in order. *)
Definition keys (v : json) : list string :=
  match v with
  | JObj fields => map fst fields
  | _ => []
  end.

(** A chunk reply with two rows, and one with neither rows nor index. *)
Definition chunk_body : json :=
  JObj [("chunk_index", JNum 2);
        ("data_array", JArr [JArr [JNum 1]; JArr [JNum 2]])].

Definition empty_chunk_body : json := JObj [("row_count", JNum 0)].

(** The Submit request for a statement sent without parameters. *)
Definition submit_request (self : DatabricksClient) (statement : json)
  : outbound :=
  mkOutbound POST (host self) (token self) statements_path
    (Some (JObj [("warehouse_id", JStr (warehouse_id self));
                 ("statement", statement);
                 ("wait_timeout", JStr "50s");
                 ("on_wait_timeout", JStr "CONTINUE");
                 ("format", JStr "JSON_ARRAY")])).

(** The [firstChunk] entry for inline rows. *)
Definition first_chunk (rows : list json) : json :=
  JObj [("chunkIndex", JNum 0);
        ("rowCount", JNum (Z.of_nat (List.length rows)));
        ("data", JArr rows)].

(** [data] has its declared type [list | None]. *)
Definition rows_or_none (v : json) : bool :=
  match v with
  | JNull | JArr _ => true
  | _ => false
  end.

Definition select_one_request : HttpRequest :=
  execute_request (JObj [("statement", JStr "SELECT 1")]).

Definition running_body : json :=
  JObj [("statement_id", JStr "s1");
        ("status", JObj [("state", JStr "RUNNING")])].

(** The state as a body carries it, before it is parsed. *)
Definition raw_state (doc : json) : option json := field "state" (status_of doc).

(** A state value that is none of the six enumerants. *)
Definition unrecognized (v : json) : Prop :=
  forall s, v <> JStr (state_value s).

Definition host_var : string := "DATABRICKS_HOST".
Definition token_var : string := "DATABRICKS_TOKEN".
Definition warehouse_var : string := "DATABRICKS_WAREHOUSE_ID".

(** Some required configuration value is absent (or empty) in the
    environment. *)
Definition config_missing (P : platform) : Prop :=
  rstrip_slash (environ_get host_var (environ P)) = ""
  \/ environ_get token_var (environ P) = ""
  \/ environ_get warehouse_var (environ P) = "".

Definition resubmit_message : string :=
  "Statement not found or cache expired. Re-execute query.".

(* --------------------------------------------------------------------- *)
(** *** Further vocabulary *)

Fixpoint ends_with_slash (s : string) : bool :=
  match s with
  | EmptyString => false
  | String c s' =>
      match s' with
      | EmptyString => Ascii.eqb c "/"
      | String _ _ => ends_with_slash s'
      end
  end.

(** [n] slashes. *)
Fixpoint slashes (n : nat) : string :=
  match n with
  | O => EmptyString
  | S n' => String "/" (slashes n')
  end.

(** The status codes [raise_for_status] lets through. *)
Definition is_success (code : Z) : bool := (200 <=? code) && (code <=? 299).

(** The Submit request whose payload ends with [extra]. *)
Definition submit_request_with (self : DatabricksClient) (statement : json)
    (extra : list (string * json)) : outbound :=
  mkOutbound POST (host self) (token self) statements_path
    (Some (JObj ([("warehouse_id", JStr (warehouse_id self));
                  ("statement", statement);
                  ("wait_timeout", JStr "50s");
                  ("on_wait_timeout", JStr "CONTINUE");
                  ("format", JStr "JSON_ARRAY")] ++ extra)%list)).

(** The entries [execute_statement] adds to the payload for
    [parameters]. *)
Definition parameters_entry (P : platform) (parameters : json)
  : result (list (string * json)) :=
  if truthy parameters
  then match parameter_list P parameters with
       | inl e => inl e
       | inr ps => inr [("parameters", ps)]
       end
  else inr [].

(** The four routes. *)
Inductive endpoint : Type := Execute | Status | Chunk | Cancel.

Definition handler (P : platform) (ep : endpoint) : HttpRequest -> M HttpResponse :=
  match ep with
  | Execute => execute_query P
  | Status => get_status P
  | Chunk => get_chunk_handler P
  | Cancel => cancel_query P
  end.

(** The line a route writes to the log when its [try] block raises. *)
Definition log_line (ep : endpoint) : string :=
  match ep with
  | Execute => "Error executing query"
  | Status => "Error fetching status"
  | Chunk => "Error fetching chunk"
  | Cancel => "Error cancelling query"
  end.

(** The payload both [execute_query] and [get_status] start from. *)
Definition base_payload (r : StatementResult) : list (string * json) :=
  [("statementId", statement_id r);
   ("state", JStr (state_value (state r)))].

(* --------------------------------------------------------------------- *)
(** *** The handlers in one shape *)

(** What a handler's [try] block makes of the value the client returned
    (it may still raise), and what its [except] block answers. *)
Definition status_payload (r : StatementResult) : list (string * json) :=
  add_metadata r
    (if state_eqb (state r) FAILED
     then set_item "error" (error_message r) (base_payload r)
     else base_payload r).

Definition status_answer (r : StatementResult) : result HttpResponse :=
  inr (json_response (status_payload r) (status_of_state (state r))).

Definition execute_answer (r : StatementResult) : result HttpResponse :=
  if state_eqb (state r) FAILED then
    inr (json_response (set_item "error" (error_message r) (base_payload r))
           INTERNAL_SERVER_ERROR)
  else if (negb (is_none (data r)) && state_eqb (state r) SUCCEEDED)%bool then
    match py_len (data r) with
    | inl e => inl e
    | inr n =>
        inr (json_response
               (set_item "firstChunk"
                  (JObj [("chunkIndex", JNum 0);
                         ("rowCount", JNum n);
                         ("data", data r)])
                  (add_metadata r (base_payload r)))
               (status_of_state (state r)))
    end
  else inr (json_response (add_metadata r (base_payload r))
              (status_of_state (state r))).

Definition chunk_answer (r : StatementResult) : result HttpResponse :=
  match (if truthy (data r) then py_len (data r) else inr 0) with
  | inl e => inl e
  | inr n =>
      inr (json_response [("chunkIndex", chunk_index r);
                          ("rowCount", JNum n);
                          ("data", data r)] OK)
  end.

Definition cancel_answer (success : bool) : result HttpResponse :=
  inr (if success
       then json_response [("cancelled", JBool true)] OK
       else error_response "Failed to cancel" INTERNAL_SERVER_ERROR).

Definition server_error (P : platform) (e : exn) : HttpResponse :=
  error_response (str_exn P e) INTERNAL_SERVER_ERROR.

Definition chunk_error (P : platform) (e : exn) : HttpResponse :=
  if (contains "404" (str_exn P e)
      || contains "not found" (lower (str_exn P e)))%bool
  then error_response resubmit_message GONE
  else server_error P e.

(** The common shape of the four [try]/[except] blocks: get the client,
    run one client operation, build the answer; on any exception log one
    line and answer with [on_error]. *)
Definition guarded {A : Type} (P : platform) (op : DatabricksClient -> M A)
    (answer : A -> result HttpResponse) (on_error : exn -> HttpResponse)
    (line : string) : M HttpResponse :=
  try_except
    (bind (get_databricks_client P)
       (fun c => bind (op c) (fun a => lift (answer a))))
    (fun e => bind (log_exception line) (fun _ => ret (on_error e))).

(** How asking for the client may change the process: not at all, or by
    setting the singleton that was unset. *)
Definition client_step (P : platform) (p p1 : process) : Prop :=
  sent p1 = sent p /\ logged p1 = logged p
  /\ (_client p1 = _client p
      \/ (_client p = None
          /\ exists c, DatabricksClient_init P None None None = inr c
                       /\ _client p1 = Some c)).

(** How a client operation may change the process: not at all, or by one
    more request sent. *)
Definition op_step (p1 p2 : process) : Prop :=
  p2 = p1 \/ exists q, p2 = after_request p1 q.

(** What one inbound request may do to the process. *)
Definition footprint (P : platform) (ep : endpoint) (p p' : process) : Prop :=
  (exists reqs, sent p' = (sent p ++ reqs)%list
                /\ (List.length reqs <= 1)%nat)
  /\ (logged p' = logged p \/ logged p' = (logged p ++ [log_line ep])%list)
  /\ (_client p' = _client p
      \/ (_client p = None
          /\ exists c, DatabricksClient_init P None None None = inr c
                       /\ _client p' = Some c)).

(** The three kinds of answer: refused at validation, failed in the
    [try] block, or built from the client's value. *)
Inductive outcome {A : Type} (P : platform) (op : DatabricksClient -> M A)
    (answer : A -> result HttpResponse) (on_error : exn -> HttpResponse)
    (line : string) (p : process) (resp : HttpResponse) (p' : process)
  : Prop :=
| no_client (e : exn) :
    get_databricks_client P p = (inl e, p) ->
    resp = on_error e -> p' = after_log p line ->
    outcome P op answer on_error line p resp p'
| op_raised (c : DatabricksClient) (p1 p2 : process) (e : exn) :
    get_databricks_client P p = (inr c, p1) ->
    op c p1 = (inl e, p2) ->
    resp = on_error e -> p' = after_log p2 line ->
    outcome P op answer on_error line p resp p'
| answer_raised (c : DatabricksClient) (p1 p2 : process) (a : A) (e : exn) :
    get_databricks_client P p = (inr c, p1) ->
    op c p1 = (inr a, p2) ->
    answer a = inl e ->
    resp = on_error e -> p' = after_log p2 line ->
    outcome P op answer on_error line p resp p'
| answered (c : DatabricksClient) (p1 p2 : process) (a : A) :
    get_databricks_client P p = (inr c, p1) ->
    op c p1 = (inr a, p2) ->
    answer a = inr resp -> p' = p2 ->
    outcome P op answer on_error line p resp p'.

(** What every answer of the router looks like: JSON, an object, one of
    five status codes, and an [error] field whenever the code is 400 or
    500. *)
Definition well_formed_response (resp : HttpResponse) : Prop :=
  mimetype resp = "application/json"
  /\ is_obj (body resp) = true
  /\ In (status_code resp) [200; 202; 400; 410; 500]
  /\ (status_code resp = 400 \/ status_code resp = 500 ->
      exists v, field "error" (body resp) = Some v).

(** A body whose containers have the documented shape, whatever its
    columns are. *)
Definition envelope_well_shaped (data : json) : bool :=
  is_obj data
  && obj_or_absent (field "status" data)
  && obj_or_absent (field "manifest" data)
  && obj_or_absent (field "result" data)
  && obj_or_absent (field "error" (status_of data)).

(** The manifest has a schema whose columns are a list of objects of
    which at least one has no [name]. *)
Definition has_unnamed_column (manifest : json) : bool :=
  match field "schema" manifest with
  | Some (JObj sf) =>
      match lookup "columns" sf with
      | Some (JArr cs) => forallb is_obj cs && negb (forallb is_column cs)
      | _ => false
      end
  | _ => false
  end.

(** A 200 reply to a chunk request whose body is [null]. *)
Definition null_body_reply : reply := Reply 200 (inr JNull).

(* --------------------------------------------------------------------- *)
(** *** Basic facts *)

(** The samples, run. *)
Example parse_succeeded :
  _parse_statement_response
    (JObj [("status", JObj [("state", JStr "SUCCEEDED")]);
           ("result", JObj [("data_array", JArr [JArr [JNum 1]])])])
  = inr (mkStatementResult (JStr "") SUCCEEDED JNull JNull JNull
           (JArr [JArr [JNum 1]]) JNull JNull).
Proof. reflexivity. Qed.

Example int_examples :
  int_of_string "12" = Some 12 /\ int_of_string "-1" = Some (-1) /\
  int_of_string " +1_0 " = Some 10 /\ int_of_string "1__0" = None /\
  int_of_string "" = None /\ int_of_string "1.5" = None /\
  int_of_string "- 1" = None /\ int_of_string "abc" = None /\
  str_int (-12) = "-12" /\ str_int 0 = "0".
Proof. repeat split; reflexivity. Qed.

Example int_whitespace :
  int_of_string (String (ascii_of_nat 28) "1") = None
  /\ int_of_string (String (ascii_of_nat 31) "1") = None
  /\ int_of_string (String (ascii_of_nat 11) "1") = Some 1
  /\ int_of_string (String (ascii_of_nat 160) "7") = Some 7
  /\ int_of_string ("7" ++ String (ascii_of_nat 133) "") = Some 7
  /\ int_of_string "1 2" = None /\ int_of_string "007" = Some 7
  /\ int_of_string "_1" = None /\ int_of_string "1_" = None
  /\ int_of_string "+" = None /\ int_of_string "  " = None.
Proof. repeat split; reflexivity. Qed.

Example empty_chunk_answer :
  fst (get_chunk_handler
         (sample_platform sample_environ (Reply 200 (inr empty_chunk_body)))
         (chunk_request "s1" "0") fresh_process)
  = inr (mkResponse 200
           (JObj [("chunkIndex", JNull); ("rowCount", JNum 0); ("data", JNull)])
           "application/json").
Proof. reflexivity. Qed.

Example lower_and_contains :
  lower "Not Found: 7" = "not found: 7"
  /\ contains "not found" (lower "Statement NOT FOUND") = true
  /\ contains "404" "status 500" = false
  /\ rstrip_slash "https://h//" = "https://h"
  /\ rstrip_slash "/" = "".
Proof. repeat split; reflexivity. Qed.

Lemma rbind_inr {A B : Type} (r : result A) (k : A -> result B) (b : B) :
  rbind r k = inr b -> exists a, r = inr a /\ k a = inr b.
Proof.
  destruct r as [e | a]; simpl; intros H; [discriminate | eauto].
Qed.

Ltac rinv H :=
  let a := fresh "v" in
  let Ha := fresh "Hv" in
  apply rbind_inr in H; destruct H as (a & Ha & H).

Lemma py_get_inr (v : json) (k : string) (d x : json) :
  py_get v k d = inr x -> is_obj v = true /\ x = field_or k v d.
Proof.
  destruct v; simpl; try discriminate.
  intros H; injection H as <-. split; reflexivity.
Qed.

Lemma py_get_obj (v : json) (k : string) (d : json) :
  is_obj v = true -> py_get v k d = inr (field_or k v d).
Proof. destruct v; simpl; try discriminate; reflexivity. Qed.

Lemma state_eqb_eq (a b : StatementState) : state_eqb a b = true <-> a = b.
Proof. destruct a, b; split; intros H; try reflexivity; discriminate. Qed.

Lemma state_eqb_refl (a : StatementState) : state_eqb a a = true.
Proof. apply state_eqb_eq; reflexivity. Qed.

Lemma StatementState_of_value (s : StatementState) :
  StatementState_of (JStr (state_value s)) = inr s.
Proof. destruct s; reflexivity. Qed.

Lemma StatementState_of_inr (v : json) (s : StatementState) :
  StatementState_of v = inr s -> v = JStr (state_value s).
Proof.
  destruct v as [| | | str | |]; try discriminate.
  unfold StatementState_of.
  destruct (find (fun m => String.eqb (state_value m) str) all_states)
    as [m |] eqn:Hf; [| discriminate].
  intros H; injection H as <-.
  apply find_some in Hf. destruct Hf as [_ Hf].
  apply String.eqb_eq in Hf. now rewrite Hf.
Qed.

Lemma StatementState_of_inl (v : json) (e : exn) :
  StatementState_of v = inl e -> e = Fault (NotAStatementState v).
Proof.
  destruct v as [| | | str | |];
    try (intros H; injection H as <-; reflexivity).
  unfold StatementState_of.
  destruct (find (fun m => String.eqb (state_value m) str) all_states);
    [discriminate |].
  intros H; injection H as <-; reflexivity.
Qed.

Lemma lookup_set_item_same (k : string) (v : json) (d : list (string * json)) :
  lookup k (set_item k v d) = Some v.
Proof.
  induction d as [| [k' v'] d IH]; simpl.
  - now rewrite String.eqb_refl.
  - destruct (String.eqb k k') eqn:E; simpl.
    + now rewrite String.eqb_refl.
    + now rewrite E.
Qed.

Lemma lookup_set_item_other (k k' : string) (v : json)
    (d : list (string * json)) :
  k <> k' -> lookup k (set_item k' v d) = lookup k d.
Proof.
  intros Hne. apply String.eqb_neq in Hne.
  induction d as [| [k0 v0] d IH]; simpl.
  - now rewrite Hne.
  - destruct (String.eqb k' k0) eqn:E; simpl.
    + apply String.eqb_eq in E; subst k0. now rewrite Hne.
    + now rewrite IH.
Qed.

Lemma traverse_columns (cs : list json) :
  forallb is_column cs = true ->
  traverse parse_column cs = inr (map column_of cs).
Proof.
  induction cs as [| c cs IH]; simpl; [reflexivity |].
  intros H. apply andb_true_iff in H. destruct H as [Hc Hcs].
  rewrite (IH Hcs).
  destruct c; simpl in Hc; try discriminate.
  unfold has_key in Hc. unfold parse_column, column_of, field_or. simpl.
  destruct (lookup "name" fields); [reflexivity | discriminate].
Qed.

(** What normalization returns, whenever it returns: every field in terms
    of the body. *)
Lemma parse_inr (doc : json) (r : StatementResult) :
  _parse_statement_response doc = inr r ->
  StatementState_of (field_or "state" (status_of doc) (JStr "PENDING"))
    = inr (state r)
  /\ statement_id r = field_or "statement_id" doc (JStr "")
  /\ total_chunk_count r = field_or "total_chunk_count" (manifest_of doc) JNull
  /\ total_row_count r = field_or "total_row_count" (manifest_of doc) JNull
  /\ data r = field_or "data_array" (result_of doc) JNull
  /\ chunk_index r = field_or "chunk_index" (result_of doc) JNull
  /\ error_message r =
       if state_eqb (state r) FAILED
       then field_or "message" (field_or "error" (status_of doc) (JObj []))
              (JStr "Unknown error")
       else JNull.
Proof.
  unfold _parse_statement_response. intros H.
  rinv H. rinv H. rinv H. rinv H. rinv H. rinv H. rinv H. rinv H.
  rinv H. rinv H. rinv H. rinv H. rinv H.
  injection H as <-. simpl.
  apply py_get_inr in Hv. destruct Hv as [_ ->].
  apply py_get_inr in Hv0. destruct Hv0 as [_ ->].
  apply py_get_inr in Hv2. destruct Hv2 as [_ ->].
  apply py_get_inr in Hv3. destruct Hv3 as [_ ->].
  apply py_get_inr in Hv7. destruct Hv7 as [_ ->].
  apply py_get_inr in Hv8. destruct Hv8 as [_ ->].
  apply py_get_inr in Hv9. destruct Hv9 as [_ ->].
  apply py_get_inr in Hv10. destruct Hv10 as [_ ->].
  apply py_get_inr in Hv11. destruct Hv11 as [_ ->].
  repeat split; try reflexivity; try assumption.
  destruct (state_eqb v1 FAILED).
  - rinv Hv4. apply py_get_inr in Hv. destruct Hv as [_ ->].
    apply py_get_inr in Hv4. destruct Hv4 as [_ ->]. reflexivity.
  - now injection Hv4 as <-.
Qed.

Lemma obj_or_absent_field_or (k : string) (v : json) :
  obj_or_absent (field k v) = true -> is_obj (field_or k v (JObj [])) = true.
Proof.
  unfold field_or. destruct (field k v); simpl; [trivial | reflexivity].
Qed.

Lemma columns_well_shaped (manifest : json) :
  is_obj manifest = true ->
  schema_well_shaped manifest = true ->
  exists has_schema : bool,
    py_in "schema" manifest = inr has_schema
    /\ (if has_schema then
          let? schema := py_getitem manifest "schema" in
          let? cols := py_get schema "columns" (JArr []) in
          let? cs := py_iter cols in
          let? parsed := traverse parse_column cs in
          inr (JArr parsed)
        else inr JNull)%result = inr (columns_of manifest).
Proof.
  destruct manifest as [| | | | | mf]; try discriminate. intros _.
  unfold schema_well_shaped, columns_of, field_or. simpl. unfold has_key.
  destruct (lookup "schema" mf) as [schema |]; simpl;
    [| intros _; exists false; split; reflexivity].
  intros H. exists true. split; [reflexivity |].
  destruct schema as [| | | | | sf]; try discriminate. simpl.
  destruct (lookup "columns" sf) as [cols |]; simpl; [| reflexivity].
  destruct cols as [| | | | cs |]; try discriminate. simpl.
  now rewrite (traverse_columns cs H).
Qed.

(** On a well-shaped body normalization is decided by the state alone,
    and every field of the result is read off the body. *)
Lemma parse_well_shaped (doc : json) :
  well_shaped doc = true ->
  _parse_statement_response doc =
    match StatementState_of (field_or "state" (status_of doc) (JStr "PENDING"))
    with
    | inl e => inl e
    | inr st =>
        inr (mkStatementResult
               (field_or "statement_id" doc (JStr ""))
               st
               (field_or "total_chunk_count" (manifest_of doc) JNull)
               (field_or "total_row_count" (manifest_of doc) JNull)
               (columns_of (manifest_of doc))
               (field_or "data_array" (result_of doc) JNull)
               (field_or "chunk_index" (result_of doc) JNull)
               (if state_eqb st FAILED
                then field_or "message"
                       (field_or "error" (status_of doc) (JObj []))
                       (JStr "Unknown error")
                else JNull))
    end.
Proof.
  unfold well_shaped. intros H.
  repeat (apply andb_true_iff in H; destruct H as [H ?]).
  rename H into Hobj.
  match goal with
  | Hs : obj_or_absent (field "status" doc) = true,
    Hm : obj_or_absent (field "manifest" doc) = true,
    Hr : obj_or_absent (field "result" doc) = true,
    He : obj_or_absent (field "error" (status_of doc)) = true |- _ =>
      apply obj_or_absent_field_or in Hs, Hm, Hr, He;
      fold (status_of doc) in Hs; fold (manifest_of doc) in Hm;
      fold (result_of doc) in Hr
  end.
  unfold _parse_statement_response.
  rewrite (py_get_obj doc "status" _ Hobj). simpl rbind.
  fold (status_of doc).
  rewrite (py_get_obj (status_of doc) "state" _ H4). simpl rbind.
  destruct (StatementState_of _) as [e | st]; simpl rbind; [reflexivity |].
  rewrite (py_get_obj doc "manifest" _ Hobj),
          (py_get_obj doc "result" _ Hobj). simpl rbind.
  fold (manifest_of doc) (result_of doc).
  assert (Herr :
    (if state_eqb st FAILED
     then (let? error := py_get (status_of doc) "error" (JObj []) in
           py_get error "message" (JStr "Unknown error"))%result
     else inr JNull)
    = inr (if state_eqb st FAILED
           then field_or "message"
                  (field_or "error" (status_of doc) (JObj []))
                  (JStr "Unknown error")
           else JNull)).
  { destruct (state_eqb st FAILED); [| reflexivity].
    rewrite (py_get_obj (status_of doc) "error" _ H4). simpl rbind.
    now rewrite py_get_obj. }
  rewrite Herr. simpl rbind.
  destruct (columns_well_shaped (manifest_of doc) H3 H0) as (b & Hin & Hcols).
  rewrite Hin. simpl rbind. rewrite Hcols. simpl rbind.
  rewrite (py_get_obj doc "statement_id" _ Hobj),
          !(py_get_obj (manifest_of doc) _ _ H3),
          !(py_get_obj (result_of doc) _ _ H2).
  reflexivity.
Qed.

(** The error message of a result, read off the body. *)
Lemma error_message_of_failed_core (doc : json) (r : StatementResult) :
  _parse_statement_response doc = inr r ->
  (error_message r <> JNull -> state r = FAILED)
  /\ (state r <> FAILED -> error_message r = JNull)
  /\ (state r = FAILED ->
      error_message r =
        field_or "message" (field_or "error" (status_of doc) (JObj []))
          (JStr "Unknown error"))
  /\ (state r = FAILED -> field "error" (status_of doc) = None ->
      error_message r = JStr "Unknown error")
  /\ (state r = FAILED ->
      forall err m, field "error" (status_of doc) = Some err ->
                    field "message" err = Some m -> m <> JNull ->
                    error_message r <> JNull).
Proof.
  intros H. apply parse_inr in H.
  destruct H as (_ & _ & _ & _ & _ & _ & Hmsg).
  assert (Hfailed : state r = FAILED ->
            error_message r =
              field_or "message" (field_or "error" (status_of doc) (JObj []))
                (JStr "Unknown error")).
  { intros Hs. rewrite Hmsg, Hs. reflexivity. }
  assert (Hother : state r <> FAILED -> error_message r = JNull).
  { intros Hs. rewrite Hmsg.
    destruct (state_eqb (state r) FAILED) eqn:E; [| reflexivity].
    apply state_eqb_eq in E. contradiction. }
  split; [| split; [| split; [| split]]].
  - intros Hmsg'. destruct (state r); try reflexivity;
      exfalso; apply Hmsg'; apply Hother; discriminate.
  - exact Hother.
  - exact Hfailed.
  - intros Hs Hn. rewrite (Hfailed Hs). unfold field_or at 2.
    rewrite Hn. reflexivity.
  - intros Hs err m He Hm Hnn. rewrite (Hfailed Hs). unfold field_or.
    rewrite He, Hm. exact Hnn.
Qed.

(* ===================================================================== *)
(** ** Normalization: the error message *)
(* ===================================================================== *)

(** C1, as stated, fails: a FAILED response whose error object carries
    [message: null] is normalized to a result with state FAILED and a
    null [error_message], so "non-null iff FAILED" does not hold there. *)
Lemma failed_null_message_breaks_iff :
  exists r,
    _parse_statement_response failed_null_message = inr r
    /\ ~ (error_message r <> JNull <-> state r = FAILED).
Proof.
  eexists. split; [reflexivity |]. simpl.
  intros [_ H]. apply (H eq_refl). reflexivity.
Qed.

(** C1 (amended): for every result of normalizing a Submit or Poll
    response, [error_message] is non-null only if the state is FAILED;
    when the state is FAILED it is the value the response carries at
    [status.error.message], and the placeholder "Unknown error" when the
    error object (or its message) is absent; when the state is not FAILED
    it is null. *)
Theorem error_message_of_failed (doc : json) (r : StatementResult) :
  _parse_statement_response doc = inr r ->
  (error_message r <> JNull -> state r = FAILED)
  /\ (state r <> FAILED -> error_message r = JNull)
  /\ (state r = FAILED ->
      error_message r =
        field_or "message" (field_or "error" (status_of doc) (JObj []))
          (JStr "Unknown error"))
  /\ (state r = FAILED -> field "error" (status_of doc) = None ->
      error_message r = JStr "Unknown error")
  /\ (state r = FAILED ->
      forall err m, field "error" (status_of doc) = Some err ->
                    field "message" err = Some m -> m <> JNull ->
                    error_message r <> JNull).
Proof. exact (error_message_of_failed_core doc r). Qed.

Lemma error_message_of_failed_witness :
  exists r,
    _parse_statement_response failed_no_error = inr r
    /\ state r = FAILED
    /\ error_message r = JStr "Unknown error".
Proof.
  eexists. split; [reflexivity |]. split; [reflexivity |].
  refine (proj1 (proj2 (proj2 (proj2
           (error_message_of_failed failed_no_error _ eq_refl)))) _ _);
    reflexivity.
Defined.

(* ===================================================================== *)
(** ** Normalization: where it returns and where it raises *)
(* ===================================================================== *)

(** C3, as stated, fails: a body whose state is present and is one of the
    six enumerants, but whose column has no [name], makes normalization
    raise KeyError; so it does not raise only on the state. *)
Lemma unnamed_column_raises :
  _parse_statement_response unnamed_column = inl (Fault (MissingKey "name"))
  /\ ~ (field "state" (status_of unnamed_column) = None
        \/ raises (StatementState_of
                     (field_or "state" (status_of unnamed_column)
                        (JStr "PENDING")))).
Proof.
  split; [reflexivity |].
  intros [H | [e H]]; discriminate.
Qed.

(* ===================================================================== *)
(** ** The client operations, run *)
(* ===================================================================== *)

Section ClientRuns.
Variable P : platform.
Variable self : DatabricksClient.

Lemma get_statement_status_run (sid : string) (p : process) :
  get_statement_status P self sid p =
    (rbind (decoded self (statements_path ++ "/" ++ sid)
              (remote P (sent p) (poll_request self sid)))
       _parse_statement_response,
     after_request p (poll_request self sid)).
Proof.
  unfold get_statement_status, bind, request, lift, decoded.
  fold (poll_request self sid).
  destruct (remote P (sent p) (poll_request self sid)) as [code body | e];
    simpl; [| reflexivity].
  destruct (raise_for_status self _ code); simpl; [reflexivity |].
  destruct body; reflexivity.
Qed.

Lemma get_chunk_run (sid : string) (idx : Z) (p : process) :
  get_chunk P self sid idx p =
    ((let? doc := decoded self (chunk_path sid idx)
                    (remote P (sent p) (fetch_request self sid idx)) in
      let? cidx := py_get doc "chunk_index" JNull in
      let? rows := py_get doc "data_array" JNull in
      inr (mkStatementResult (JStr sid) SUCCEEDED JNull JNull JNull
             rows cidx JNull))%result,
     after_request p (fetch_request self sid idx)).
Proof.
  unfold get_chunk, bind, request, lift, decoded, ret.
  fold (fetch_request self sid idx).
  destruct (remote P (sent p) (fetch_request self sid idx)) as [code body | e];
    simpl; [| reflexivity].
  destruct (raise_for_status self _ code); simpl; [reflexivity |].
  destruct body as [e | doc]; simpl; [reflexivity |].
  destruct (py_get doc "chunk_index" JNull); simpl; [reflexivity |].
  destruct (py_get doc "data_array" JNull); reflexivity.
Qed.

Lemma cancel_statement_run (sid : string) (p : process) :
  cancel_statement P self sid p =
    (match remote P (sent p) (cancel_request self sid) with
     | Reply code _ => inr (code =? 200)
     | NoReply e => inl e
     end,
     after_request p (cancel_request self sid)).
Proof.
  unfold cancel_statement, bind, request, ret.
  fold (cancel_request self sid).
  destruct (remote P (sent p) (cancel_request self sid)); reflexivity.
Qed.

End ClientRuns.

(** Asking for the client sends nothing and logs nothing. *)
Lemma get_databricks_client_quiet (P : platform) (p p' : process)
    (r : result DatabricksClient) :
  get_databricks_client P p = (r, p') ->
  sent p' = sent p /\ logged p' = logged p.
Proof.
  unfold get_databricks_client.
  destruct (_client p); [intros H; injection H as <- <-; auto |].
  destruct (DatabricksClient_init P None None None);
    intros H; injection H as <- <-; auto.
Qed.

Lemma status_of_state_table (s : StatementState) (d : HTTPStatus) :
  state_to_http_get s d = status_of_state s.
Proof. destruct s; reflexivity. Qed.

(* ===================================================================== *)
(** ** Chunk fetch *)
(* ===================================================================== *)

(** The three fields of a chunk response. *)
Lemma get_chunk_try_inr (P : platform) (sid : string) (idx : Z)
    (p p' : process) (resp : HttpResponse) :
  get_chunk_try P sid idx p = (inr resp, p') ->
  exists c p1 r n,
    get_databricks_client P p = (inr c, p1)
    /\ get_chunk P c sid idx p1 = (inr r, p')
    /\ (if truthy (data r) then py_len (data r) else inr 0) = inr n
    /\ resp = json_response [("chunkIndex", chunk_index r);
                             ("rowCount", JNum n);
                             ("data", data r)] OK.
Proof.
  unfold get_chunk_try, bind.
  destruct (get_databricks_client P p) as [[e | c] p1]; [discriminate |].
  destruct (get_chunk P c sid idx p1) as [[e | r] p2] eqn:Hrun;
    [discriminate |].
  intros H. exists c, p1, r.
  destruct (truthy (data r)).
  - unfold lift in H. destruct (py_len (data r)) as [e | n];
      [discriminate |].
    unfold ret in H. injection H as <- <-. exists n. auto.
  - unfold ret in H. injection H as <- <-. exists 0. auto.
Qed.

Lemma get_chunk_except_keys (P : platform) (e : exn) (p : process) :
  exists resp,
    get_chunk_except P e p = (inr resp, after_log p "Error fetching chunk")
    /\ keys (body resp) = ["error"]
    /\ (status_code resp = 410 \/ status_code resp = 500).
Proof.
  unfold get_chunk_except, bind, log_exception, ret.
  destruct (contains "404" (str_exn P e)
            || contains "not found" (lower (str_exn P e)))%bool;
    eexists; (split; [reflexivity |]); simpl; auto.
Qed.

(** The success path of the chunk handler. *)
Lemma get_chunk_handler_ok (P : platform) (req : HttpRequest)
    (p p1 p2 : process) (sid : string) (idx : Z) (c : DatabricksClient)
    (r : StatementResult) (n : Z) :
  route_get "statementId" (route_params req) = Some sid ->
  String.eqb sid "" = false ->
  py_int (route_get "chunkIndex" (route_params req)) = inr idx ->
  get_databricks_client P p = (inr c, p1) ->
  get_chunk P c sid idx p1 = (inr r, p2) ->
  (if truthy (data r) then py_len (data r) else inr 0) = inr n ->
  get_chunk_handler P req p =
    (inr (json_response [("chunkIndex", chunk_index r);
                         ("rowCount", JNum n);
                         ("data", data r)] OK), p2).
Proof.
  intros Hsid Hne Hidx Hc Hrun Hn. unfold get_chunk_handler.
  rewrite Hsid, Hne, Hidx. unfold try_except, get_chunk_try, bind.
  rewrite Hc, Hrun.
  destruct (truthy (data r)).
  - unfold lift. rewrite Hn. reflexivity.
  - injection Hn as <-. reflexivity.
Qed.

(** C6, as stated, fails: the result of a FetchChunk that returns does
    not carry the chunk index that was asked for.  Asked for chunk 7, a
    reply that says [chunk_index: 2] gives a result with [chunk_index] 2,
    and a reply without [chunk_index] and [data_array] gives a result in
    which both are null. *)
Lemma fetched_chunk_index_is_the_reply_s :
  (exists r p',
     get_chunk (sample_platform sample_environ (Reply 200 (inr chunk_body)))
       sample_client "s1" 7 fresh_process = (inr r, p')
     /\ chunk_index r = JNum 2 /\ chunk_index r <> JNum 7)
  /\ (exists r p',
        get_chunk (sample_platform sample_environ
                     (Reply 200 (inr empty_chunk_body)))
          sample_client "s1" 7 fresh_process = (inr r, p')
        /\ chunk_index r = JNull /\ data r = JNull).
Proof.
  split; eexists; eexists; (split; [reflexivity |]); simpl; split;
    try reflexivity; discriminate.
Qed.

(** C6 (amended): a FetchChunk call that returns has sent exactly one
    request, the one for chunk [idx] of statement [sid], and its result has
    state SUCCEEDED, the [chunk_index] and the [data] of that reply (each
    null when the reply has none; the index asked for is not copied), the
    statement id asked for, and no columns, counts or error message.  Every response of the chunk handler carries
    either the three fields [chunkIndex], [rowCount], [data] (always so
    when it answers 200) or the single field [error]: never [columns] or
    [totalChunks]. *)
Theorem fetch_chunk_only_chunk_fields (P : platform) :
  (forall self sid idx p r p',
     get_chunk P self sid idx p = (inr r, p') ->
     state r = SUCCEEDED
     /\ statement_id r = JStr sid
     /\ columns r = JNull
     /\ total_chunk_count r = JNull
     /\ total_row_count r = JNull
     /\ error_message r = JNull
     /\ p' = after_request p (fetch_request self sid idx)
     /\ exists doc,
          decoded self (chunk_path sid idx)
            (remote P (sent p) (fetch_request self sid idx)) = inr doc
          /\ chunk_index r = field_or "chunk_index" doc JNull
          /\ data r = field_or "data_array" doc JNull)
  /\ (forall req p resp p',
        get_chunk_handler P req p = (inr resp, p') ->
        (status_code resp = 200 ->
         keys (body resp) = ["chunkIndex"; "rowCount"; "data"])
        /\ (keys (body resp) = ["chunkIndex"; "rowCount"; "data"]
            \/ keys (body resp) = ["error"])
        /\ ~ In "columns" (keys (body resp))
        /\ ~ In "totalChunks" (keys (body resp))).
Proof.
  split.
  - intros self sid idx p r p' H. rewrite get_chunk_run in H.
    injection H as H <-.
    rinv H. rinv H. rinv H. injection H as <-. simpl.
    apply py_get_inr in Hv0, Hv1.
    destruct Hv0 as [_ ->], Hv1 as [_ ->].
    repeat split; try reflexivity.
    exists v. auto.
  - intros req p resp p' H.
    assert (Hkeys :
      (keys (body resp) = ["chunkIndex"; "rowCount"; "data"]
       /\ status_code resp = 200)
      \/ (keys (body resp) = ["error"] /\ status_code resp <> 200)).
    { unfold get_chunk_handler in H.
      destruct (route_get "statementId" (route_params req)) as [sid |];
        [| injection H as <- <-; right; split; [reflexivity | discriminate]].
      destruct (String.eqb sid "");
        [injection H as <- <-; right; split; [reflexivity | discriminate] |].
      destruct (py_int (route_get "chunkIndex" (route_params req)))
        as [e | idx].
      - destruct (exn_class_eqb (class_of e) ValueError
                  || exn_class_eqb (class_of e) TypeError)%bool;
          [| discriminate].
        injection H as <- <-. right; split; [reflexivity | discriminate].
      - unfold try_except in H.
        destruct (get_chunk_try P sid idx p) as [[e | resp'] p1] eqn:Htry.
        + destruct (get_chunk_except_keys P e p1) as (resp1 & Hr & Hk & Hc).
          rewrite Hr in H. injection H as <- <-.
          right. split; [exact Hk |]. destruct Hc as [-> | ->]; discriminate.
        + injection H as <- <-.
          apply get_chunk_try_inr in Htry.
          destruct Htry as (c & p0 & r & n & _ & _ & _ & ->).
          left. split; reflexivity. }
    destruct Hkeys as [[Hk Hc] | [Hk Hc]]; rewrite Hk.
    + repeat split; auto; simpl; intros [F | [F | [F | []]]]; discriminate.
    + repeat split; auto; try contradiction;
        simpl; intros [F | []]; discriminate.
Qed.

Lemma fetch_chunk_only_chunk_fields_witness :
  exists resp p',
    get_chunk_handler (sample_platform sample_environ
                         (Reply 200 (inr chunk_body)))
      (chunk_request "s1" "2") fresh_process = (inr resp, p')
    /\ keys (body resp) = ["chunkIndex"; "rowCount"; "data"].
Proof.
  eexists. eexists. split; [reflexivity |].
  refine (proj1 (proj2 (fetch_chunk_only_chunk_fields
                          (sample_platform sample_environ
                             (Reply 200 (inr chunk_body))))
                   (chunk_request "s1" "2") fresh_process _ _ eq_refl)
            eq_refl).
Defined.

(* ===================================================================== *)
(** ** Execute and Status *)
(* ===================================================================== *)

Lemma bind_inr {A B : Type} (m : M A) (k : A -> M B) (p p' : process)
    (a : A) :
  m p = (inr a, p') -> bind m k p = k a p'.
Proof. intros H. unfold bind. now rewrite H. Qed.

Lemma bind_inl {A B : Type} (m : M A) (k : A -> M B) (p p' : process)
    (e : exn) :
  m p = (inl e, p') -> bind m k p = (inl e, p').
Proof. intros H. unfold bind. now rewrite H. Qed.

Lemma bind_lift_inr {A B : Type} (r : result A) (k : A -> M B) (p : process)
    (a : A) :
  r = inr a -> bind (lift r) k p = k a p.
Proof. intros ->. reflexivity. Qed.

Lemma execute_statement_run (P : platform) (self : DatabricksClient)
    (statement parameters : json) (p : process) :
  truthy parameters = false ->
  execute_statement P self statement parameters p =
    (rbind (decoded self statements_path
              (remote P (sent p) (submit_request self statement)))
       _parse_statement_response,
     after_request p (submit_request self statement)).
Proof.
  intros Hp. unfold execute_statement, bind. rewrite Hp.
  unfold ret, request, lift, decoded. fold (submit_request self statement).
  destruct (remote P (sent p) (submit_request self statement))
    as [code body | e]; simpl; [| reflexivity].
  destruct (raise_for_status self _ code); simpl; [reflexivity |].
  destruct body; reflexivity.
Qed.

Lemma add_metadata_other (k : string) (r : StatementResult)
    (d : list (string * json)) :
  k <> "totalChunks" -> k <> "totalRows" -> k <> "columns" ->
  lookup k (add_metadata r d) = lookup k d.
Proof.
  intros H1 H2 H3. unfold add_metadata.
  destruct (negb (is_none (total_chunk_count r)));
    destruct (negb (is_none (total_row_count r)));
    destruct (truthy (columns r));
    repeat rewrite lookup_set_item_other by assumption; reflexivity.
Qed.

(** The payload [get_status] builds from a result. *)
Lemma get_status_ok (P : platform) (req : HttpRequest) (p p1 p2 : process)
    (sid : string) (c : DatabricksClient) (r : StatementResult) :
  route_get "statementId" (route_params req) = Some sid ->
  sid <> "" ->
  get_databricks_client P p = (inr c, p1) ->
  get_statement_status P c sid p1 = (inr r, p2) ->
  exists payload,
    get_status P req p
    = (inr (mkResponse (status_value (status_of_state (state r)))
              (JObj payload) "application/json"), p2)
    /\ lookup "statementId" payload = Some (statement_id r)
    /\ lookup "state" payload = Some (JStr (state_value (state r)))
    /\ (state r = FAILED -> lookup "error" payload = Some (error_message r)).
Proof.
  intros Hsid Hne Hc Hrun. apply String.eqb_neq in Hne.
  unfold get_status. rewrite Hsid, Hne.
  unfold try_except, get_status_try, bind. rewrite Hc, Hrun.
  unfold ret, json_response. rewrite status_of_state_table.
  eexists. split; [reflexivity |].
  split; [| split].
  - rewrite add_metadata_other by discriminate.
    destruct (state_eqb (state r) FAILED); reflexivity.
  - rewrite add_metadata_other by discriminate.
    destruct (state_eqb (state r) FAILED); reflexivity.
  - intros Hs. rewrite add_metadata_other by discriminate.
    rewrite Hs. reflexivity.
Qed.

(** The payload [execute_query] builds from a result whose [data] is a
    list of rows or [None]. *)
Lemma execute_query_ok (P : platform) (req : HttpRequest) (p p1 p2 : process)
    (fields : list (string * json)) (statement : json)
    (c : DatabricksClient) (r : StatementResult) :
  req_json req = Some (JObj fields) ->
  lookup "statement" fields = Some statement ->
  truthy statement = true ->
  get_databricks_client P p = (inr c, p1) ->
  execute_statement P c statement (field_or "parameters" (JObj fields) JNull) p1
    = (inr r, p2) ->
  rows_or_none (data r) = true ->
  exists payload,
    execute_query P req p
    = (inr (mkResponse (status_value (status_of_state (state r)))
              (JObj payload) "application/json"), p2)
    /\ lookup "statementId" payload = Some (statement_id r)
    /\ lookup "state" payload = Some (JStr (state_value (state r)))
    /\ (state r = FAILED -> lookup "error" payload = Some (error_message r))
    /\ (state r = SUCCEEDED ->
        forall rows, data r = JArr rows ->
                     lookup "firstChunk" payload = Some (first_chunk rows)).
Proof.
  intros Hbody Hst Htruthy Hc Hrun Hrows.
  unfold execute_query. rewrite Hbody.
  rewrite bind_lift_inr with (a := statement)
    by (simpl; now rewrite Hst).
  rewrite Htruthy. cbn [negb].
  rewrite bind_lift_inr
    with (a := field_or "parameters" (JObj fields) JNull) by reflexivity.
  unfold try_except, execute_query_try.
  rewrite (bind_inr _ _ _ _ _ Hc), (bind_inr _ _ _ _ _ Hrun).
  destruct (state_eqb (state r) FAILED) eqn:Ef.
  - apply state_eqb_eq in Ef. unfold ret, json_response. rewrite Ef.
    eexists. split; [reflexivity |]. simpl.
    repeat split; try reflexivity. discriminate.
  - assert (Hnf : state r <> FAILED).
    { intros Hs. rewrite Hs in Ef. discriminate. }
    rewrite status_of_state_table.
    destruct (data r) as [| | | | rows |] eqn:Hd; try discriminate.
    + simpl. unfold ret, json_response.
      eexists. split; [reflexivity |].
      rewrite !add_metadata_other by discriminate. simpl.
      repeat split; try reflexivity; [contradiction | discriminate].
    + simpl negb. rewrite andb_true_l.
      destruct (state_eqb (state r) SUCCEEDED) eqn:Es.
      * unfold lift, ret, json_response. simpl py_len. cbv iota beta.
        eexists. split; [reflexivity |].
        rewrite !lookup_set_item_other by discriminate.
        rewrite !add_metadata_other by discriminate. simpl.
        repeat split; try reflexivity; [contradiction |].
        intros _ rows' Hr. injection Hr as <-.
        apply lookup_set_item_same.
      * unfold ret, json_response.
        eexists. split; [reflexivity |].
        rewrite !add_metadata_other by discriminate. simpl.
        repeat split; try reflexivity; [contradiction |].
        intros Hs. rewrite Hs in Es. discriminate.
Qed.

Lemma unrecognized_raises (v : json) :
  unrecognized v -> StatementState_of v = inl (Fault (NotAStatementState v)).
Proof.
  intros Hv. destruct (StatementState_of v) as [e | s] eqn:E.
  - now rewrite (StatementState_of_inl v e E).
  - apply StatementState_of_inr in E. now apply Hv in E.
Qed.

Lemma parse_unrecognized (doc v : json) :
  is_obj doc = true ->
  obj_or_absent (field "status" doc) = true ->
  raw_state doc = Some v ->
  unrecognized v ->
  _parse_statement_response doc = inl (Fault (NotAStatementState v)).
Proof.
  intros Hobj Hstatus Hraw Hv. unfold _parse_statement_response.
  rewrite (py_get_obj doc "status" _ Hobj). simpl rbind.
  fold (status_of doc).
  rewrite (py_get_obj (status_of doc) "state" _
             (obj_or_absent_field_or "status" doc Hstatus)).
  simpl rbind. unfold field_or. unfold raw_state in Hraw. rewrite Hraw.
  now rewrite (unrecognized_raises v Hv).
Qed.

(** Whatever the client raises during a Poll, [get_status] logs it and
    answers 500 with its text. *)
Lemma get_status_raised (P : platform) (req : HttpRequest) (p p1 p2 : process)
    (sid : string) (c : DatabricksClient) (e : exn) :
  route_get "statementId" (route_params req) = Some sid ->
  sid <> "" ->
  get_databricks_client P p = (inr c, p1) ->
  get_statement_status P c sid p1 = (inl e, p2) ->
  get_status P req p
  = (inr (error_response (str_exn P e) INTERNAL_SERVER_ERROR),
     after_log p2 "Error fetching status").
Proof.
  intros Hsid Hne Hc Hrun. apply String.eqb_neq in Hne.
  unfold get_status. rewrite Hsid, Hne.
  unfold try_except, get_status_try.
  rewrite (bind_inr _ _ _ _ _ Hc), (bind_inl _ _ _ _ _ Hrun).
  reflexivity.
Qed.

(** C2: the table is total over the six states with the values 202, 202,
    200, 500, 410, 410, so the default of the lookup is never taken; both
    handlers that report a state answer with the table's status for the
    state of the client's result, put the state in the payload and, for
    FAILED, the error message; and a state string that is not one of the
    six makes normalization raise the enumeration's ValueError, which the
    router answers with 500 and the error text instead of a state. *)
Theorem state_to_status_table (P : platform) :
  map (fun s => status_value (state_to_http_get s OK)) all_states
    = [202; 202; 200; 500; 410; 410]
  /\ (forall s d, state_to_http_get s d = status_of_state s)
  /\ (forall req p p1 p2 sid c r,
        route_get "statementId" (route_params req) = Some sid ->
        sid <> "" ->
        get_databricks_client P p = (inr c, p1) ->
        get_statement_status P c sid p1 = (inr r, p2) ->
        exists payload,
          get_status P req p
          = (inr (mkResponse (status_value (status_of_state (state r)))
                    (JObj payload) "application/json"), p2)
          /\ lookup "state" payload = Some (JStr (state_value (state r)))
          /\ (state r = FAILED ->
              lookup "error" payload = Some (error_message r)))
  /\ (forall req p p1 p2 fields statement c r,
        req_json req = Some (JObj fields) ->
        lookup "statement" fields = Some statement ->
        truthy statement = true ->
        get_databricks_client P p = (inr c, p1) ->
        execute_statement P c statement
          (field_or "parameters" (JObj fields) JNull) p1 = (inr r, p2) ->
        rows_or_none (data r) = true ->
        exists payload,
          execute_query P req p
          = (inr (mkResponse (status_value (status_of_state (state r)))
                    (JObj payload) "application/json"), p2)
          /\ lookup "state" payload = Some (JStr (state_value (state r)))
          /\ (state r = FAILED ->
              lookup "error" payload = Some (error_message r)))
  /\ (forall doc v,
        is_obj doc = true ->
        obj_or_absent (field "status" doc) = true ->
        raw_state doc = Some v ->
        unrecognized v ->
        _parse_statement_response doc = inl (Fault (NotAStatementState v)))
  /\ (forall req p p1 sid c doc v,
        route_get "statementId" (route_params req) = Some sid ->
        sid <> "" ->
        get_databricks_client P p = (inr c, p1) ->
        decoded c (statements_path ++ "/" ++ sid)
          (remote P (sent p1) (poll_request c sid)) = inr doc ->
        is_obj doc = true ->
        obj_or_absent (field "status" doc) = true ->
        raw_state doc = Some v ->
        unrecognized v ->
        get_status P req p
        = (inr (error_response (str_fault P (NotAStatementState v))
                  INTERNAL_SERVER_ERROR),
           after_log (after_request p1 (poll_request c sid))
             "Error fetching status")).
Proof.
  split; [reflexivity |].
  split; [exact status_of_state_table |].
  split; [| split; [| split]].
  - intros req p p1 p2 sid c r Hsid Hne Hc Hrun.
    destruct (get_status_ok P req p p1 p2 sid c r Hsid Hne Hc Hrun)
      as (payload & Heq & _ & Hstate & Herr).
    exists payload. auto.
  - intros req p p1 p2 fields statement c r Hb Hs Ht Hc Hrun Hrows.
    destruct (execute_query_ok P req p p1 p2 fields statement c r
                Hb Hs Ht Hc Hrun Hrows)
      as (payload & Heq & _ & Hstate & Herr & _).
    exists payload. auto.
  - exact parse_unrecognized.
  - intros req p p1 sid c doc v Hsid Hne Hc Hdoc Hobj Hstatus Hraw Hv.
    apply (get_status_raised P req p p1 _ sid c
             (Fault (NotAStatementState v)) Hsid Hne Hc).
    rewrite get_statement_status_run, Hdoc. simpl rbind.
    now rewrite (parse_unrecognized doc v Hobj Hstatus Hraw Hv).
Qed.

Lemma state_to_status_table_witness :
  exists payload,
    get_status (sample_platform sample_environ (Reply 200 (inr running_body)))
      (statement_request "s1") fresh_process
    = (inr (mkResponse 202 (JObj payload) "application/json"),
       after_request (mkProcess (Some sample_client) [] [])
         (poll_request sample_client "s1"))
    /\ lookup "state" payload = Some (JStr "RUNNING")
    /\ (RUNNING = FAILED -> lookup "error" payload = Some JNull).
Proof.
  refine (proj1 (proj2 (proj2 (state_to_status_table
            (sample_platform sample_environ (Reply 200 (inr running_body))))))
            (statement_request "s1") fresh_process
            (mkProcess (Some sample_client) [] []) _ "s1" sample_client
            (mkStatementResult (JStr "s1") RUNNING JNull JNull JNull JNull
               JNull JNull)
            eq_refl _ eq_refl eq_refl).
  discriminate.
Defined.

Lemma select_one_scenario (P : platform) (p p1 : process)
    (c : DatabricksClient) :
  get_databricks_client P p = (inr c, p1) ->
  remote P (sent p1) (submit_request c (JStr "SELECT 1"))
    = Reply 200 (inr select_one_body) ->
  execute_query P select_one_request p
  = (inr (mkResponse 200
            (JObj [("statementId", JStr "");
                   ("state", JStr "SUCCEEDED");
                   ("firstChunk",
                    JObj [("chunkIndex", JNum 0);
                          ("rowCount", JNum 1);
                          ("data", JArr [JArr [JNum 1]])])])
            "application/json"),
     after_request p1 (submit_request c (JStr "SELECT 1"))).
Proof.
  intros Hc Hremote.
  unfold execute_query, select_one_request, execute_request.
  cbn [req_json].
  rewrite bind_lift_inr with (a := JStr "SELECT 1") by reflexivity.
  change (truthy (JStr "SELECT 1")) with true. cbn [negb].
  rewrite bind_lift_inr with (a := JNull) by reflexivity.
  unfold try_except, execute_query_try.
  rewrite (bind_inr _ _ _ _ _ Hc).
  unfold bind at 1.
  rewrite execute_statement_run by reflexivity.
  rewrite Hremote. reflexivity.
Qed.

(** C7: when Submit returns a SUCCEEDED result with inline rows, the
    Execute response is a 200 whose payload has the statement id, the
    state and a [firstChunk] with [chunkIndex] 0, [rowCount] the number of
    rows and the rows themselves; and Execute with
    [{statement: "SELECT 1"}] against a remote answering
    [{status:{state:"SUCCEEDED"}, result:{data_array:[[1]]}}] yields
    exactly [{statementId, state:"SUCCEEDED",
    firstChunk:{chunkIndex:0, rowCount:1, data:[[1]]}}]. *)
Theorem first_chunk_embedded (P : platform) :
  (forall req p p1 p2 fields statement c r rows,
     req_json req = Some (JObj fields) ->
     lookup "statement" fields = Some statement ->
     truthy statement = true ->
     get_databricks_client P p = (inr c, p1) ->
     execute_statement P c statement
       (field_or "parameters" (JObj fields) JNull) p1 = (inr r, p2) ->
     state r = SUCCEEDED ->
     data r = JArr rows ->
     exists payload,
       execute_query P req p
       = (inr (mkResponse 200 (JObj payload) "application/json"), p2)
       /\ lookup "statementId" payload = Some (statement_id r)
       /\ lookup "state" payload = Some (JStr "SUCCEEDED")
       /\ lookup "firstChunk" payload
          = Some (JObj [("chunkIndex", JNum 0);
                        ("rowCount", JNum (Z.of_nat (List.length rows)));
                        ("data", JArr rows)]))
  /\ (forall p p1 c,
        get_databricks_client P p = (inr c, p1) ->
        remote P (sent p1) (submit_request c (JStr "SELECT 1"))
          = Reply 200 (inr select_one_body) ->
        execute_query P select_one_request p
        = (inr (mkResponse 200
                  (JObj [("statementId", JStr "");
                         ("state", JStr "SUCCEEDED");
                         ("firstChunk",
                          JObj [("chunkIndex", JNum 0);
                                ("rowCount", JNum 1);
                                ("data", JArr [JArr [JNum 1]])])])
                  "application/json"),
           after_request p1 (submit_request c (JStr "SELECT 1")))).
Proof.
  split.
  - intros req p p1 p2 fields statement c r rows Hb Hs Ht Hc Hrun Hst Hd.
    assert (Hrows : rows_or_none (data r) = true) by now rewrite Hd.
    destruct (execute_query_ok P req p p1 p2 fields statement c r
                Hb Hs Ht Hc Hrun Hrows)
      as (payload & Heq & Hid & Hstate & _ & Hfirst).
    exists payload. rewrite Hst in Heq, Hstate.
    repeat split; try assumption.
    apply (Hfirst Hst rows Hd).
  - intros p p1 c. apply select_one_scenario.
Qed.

Lemma first_chunk_embedded_witness :
  execute_query (sample_platform sample_environ
                   (Reply 200 (inr select_one_body)))
    select_one_request fresh_process
  = (inr (mkResponse 200
            (JObj [("statementId", JStr "");
                   ("state", JStr "SUCCEEDED");
                   ("firstChunk",
                    JObj [("chunkIndex", JNum 0);
                          ("rowCount", JNum 1);
                          ("data", JArr [JArr [JNum 1]])])])
            "application/json"),
     after_request (mkProcess (Some sample_client) [] [])
       (submit_request sample_client (JStr "SELECT 1"))).
Proof.
  exact (proj2 (first_chunk_embedded
                  (sample_platform sample_environ
                     (Reply 200 (inr select_one_body))))
           fresh_process (mkProcess (Some sample_client) [] []) sample_client
           eq_refl eq_refl).
Defined.

(* ===================================================================== *)
(** ** Validation *)
(* ===================================================================== *)

(** C4, as stated, fails: the chunk index "-1" does not parse as a
    non-negative integer, yet the chunk handler does not answer 400; it
    asks the client, which sends the request for chunk -1. *)
Lemma negative_chunk_index_reaches_remote :
  py_int (Some "-1") = inr (-1)
  /\ get_chunk_handler (sample_platform sample_environ
                          (Reply 200 (inr chunk_body)))
       (chunk_request "s1" "-1") fresh_process
     = (inr (mkResponse 200
               (JObj [("chunkIndex", JNum 2);
                      ("rowCount", JNum 2);
                      ("data", JArr [JArr [JNum 1]; JArr [JNum 2]])])
               "application/json"),
        mkProcess (Some sample_client)
          [mkOutbound GET "https://dbx.example" "secret"
             "/api/2.0/sql/statements/s1/result/chunks/-1" None]
          []).
Proof. split; reflexivity. Qed.

(** C4 (amended): an Execute request whose body is not JSON, or is an
    object without a truthy [statement], and a Chunk request whose
    [statementId] is missing or empty or whose [chunkIndex] is missing or
    is not accepted by [int] (which accepts negative integers), is
    answered 400 at once: the process is left as it was, so no client was
    created and no request was sent. *)
Theorem invalid_request_is_rejected (P : platform) (p : process) :
  status_value BAD_REQUEST = 400
  /\ (forall req,
        req_json req = None ->
        execute_query P req p
        = (inr (error_response "Invalid JSON body" BAD_REQUEST), p))
  /\ (forall req fields,
        req_json req = Some (JObj fields) ->
        truthy (field_or "statement" (JObj fields) JNull) = false ->
        execute_query P req p
        = (inr (error_response "Missing 'statement' field" BAD_REQUEST), p))
  /\ (forall req,
        blank (route_get "statementId" (route_params req)) = true ->
        get_chunk_handler P req p
        = (inr (error_response "Missing statementId" BAD_REQUEST), p))
  /\ (forall req e,
        blank (route_get "statementId" (route_params req)) = false ->
        py_int (route_get "chunkIndex" (route_params req)) = inl e ->
        get_chunk_handler P req p
        = (inr (error_response "Invalid chunkIndex" BAD_REQUEST), p)).
Proof.
  split; [reflexivity |].
  split; [| split; [| split]].
  - intros req Hnone. unfold execute_query. now rewrite Hnone.
  - intros req fields Hbody Hfalsy. unfold execute_query. rewrite Hbody.
    rewrite bind_lift_inr
      with (a := field_or "statement" (JObj fields) JNull) by reflexivity.
    now rewrite Hfalsy.
  - intros req Hblank. unfold get_chunk_handler.
    destruct (route_get "statementId" (route_params req)) as [sid |];
      [| reflexivity].
    simpl in Hblank. now rewrite Hblank.
  - intros req e Hblank Hint. unfold get_chunk_handler.
    destruct (route_get "statementId" (route_params req)) as [sid |];
      [| discriminate].
    simpl in Hblank. rewrite Hblank, Hint.
    unfold py_int in Hint.
    destruct (route_get "chunkIndex" (route_params req)) as [s |].
    + destruct (int_of_string s); [discriminate |].
      injection Hint as <-. reflexivity.
    + injection Hint as <-. reflexivity.
Qed.

Lemma invalid_request_is_rejected_witness :
  execute_query (sample_platform sample_environ (Reply 200 (inr chunk_body)))
    (execute_request (JObj [("statement", JStr "")])) fresh_process
  = (inr (error_response "Missing 'statement' field" BAD_REQUEST),
     fresh_process)
  /\ get_chunk_handler
       (sample_platform sample_environ (Reply 200 (inr chunk_body)))
       (chunk_request "s1" "1.5") fresh_process
     = (inr (error_response "Invalid chunkIndex" BAD_REQUEST), fresh_process).
Proof.
  pose proof (invalid_request_is_rejected
                (sample_platform sample_environ (Reply 200 (inr chunk_body)))
                fresh_process) as (_ & _ & Hexec & _ & Hchunk).
  split.
  - exact (Hexec (execute_request (JObj [("statement", JStr "")])) _
             eq_refl eq_refl).
  - exact (Hchunk (chunk_request "s1" "1.5") _ eq_refl eq_refl).
Defined.

(* ===================================================================== *)
(** ** Cancel *)
(* ===================================================================== *)

(** C8, as stated, fails: when the remote answers the cancel request with
    500, the client returns false without raising, but the router reports
    it as a 500 whose payload is [{"error": "Failed to cancel"}]; no
    [cancelled] field is sent. *)
Lemma cancel_refused_is_server_error :
  cancel_statement (sample_platform sample_environ (Reply 500 (inr (JObj []))))
    sample_client "s1" (mkProcess (Some sample_client) [] [])
  = (inr false,
     after_request (mkProcess (Some sample_client) [] [])
       (cancel_request sample_client "s1"))
  /\ exists resp p',
       cancel_query (sample_platform sample_environ
                       (Reply 500 (inr (JObj []))))
         (statement_request "s1") fresh_process = (inr resp, p')
       /\ status_code resp = 500
       /\ body resp = JObj [("error", JStr "Failed to cancel")]
       /\ field "cancelled" (body resp) = None.
Proof.
  split; [reflexivity |].
  eexists. eexists. split; [reflexivity |]. repeat split.
Qed.

(* ===================================================================== *)
(** ** Configuration *)
(* ===================================================================== *)

Lemma init_missing (P : platform) :
  config_missing P ->
  DatabricksClient_init P None None None
  = inl (Raised ValueError missing_config_message).
Proof.
  unfold config_missing, DatabricksClient_init, arg_or_env,
    host_var, token_var, warehouse_var.
  intros [H | [H | H]]; rewrite H; simpl.
  - reflexivity.
  - destruct (negb (String.eqb _ "")); reflexivity.
  - destruct (negb (String.eqb _ "")); simpl;
      [destruct (negb (String.eqb _ "")) |]; reflexivity.
Qed.

Lemma get_client_missing (P : platform) (p : process) :
  config_missing P ->
  _client p = None ->
  get_databricks_client P p
  = (inl (Raised ValueError missing_config_message), p).
Proof.
  intros Hm Hnone. unfold get_databricks_client.
  now rewrite Hnone, (init_missing P Hm).
Qed.

(** C9, as stated, fails: with an empty environment nothing fails at
    startup; the first Execute request is served, and it is answered with
    a 500 whose payload carries the missing-configuration message. *)
Lemma missing_config_answered_per_request :
  execute_query (sample_platform [] (Reply 200 (inr select_one_body)))
    select_one_request fresh_process
  = (inr (mkResponse 500
            (JObj [("error",
                    JStr ("Missing Databricks config. Set DATABRICKS_HOST, "
                          ++ "DATABRICKS_TOKEN, and DATABRICKS_WAREHOUSE_ID "
                          ++ "environment variables."))])
            "application/json"),
     mkProcess None [] ["Error executing query"]).
Proof. reflexivity. Qed.

(** C9 (amended): if any required configuration value (host, token or
    warehouse id) is absent, constructing the client raises ValueError
    with the missing-configuration message; the client is constructed on
    first use inside each handler's [try] block, so every request that
    passes validation is answered 500 with that message, is logged, sends
    nothing to the remote service, and leaves the singleton unset. *)
Theorem missing_config_is_reported_per_request (P : platform) (p : process) :
  config_missing P ->
  _client p = None ->
  DatabricksClient_init P None None None
    = inl (Raised ValueError missing_config_message)
  /\ (forall req fields statement,
        req_json req = Some (JObj fields) ->
        lookup "statement" fields = Some statement ->
        truthy statement = true ->
        execute_query P req p
        = (inr (error_response missing_config_message INTERNAL_SERVER_ERROR),
           after_log p "Error executing query"))
  /\ (forall req sid,
        route_get "statementId" (route_params req) = Some sid ->
        sid <> "" ->
        get_status P req p
        = (inr (error_response missing_config_message INTERNAL_SERVER_ERROR),
           after_log p "Error fetching status")
        /\ cancel_query P req p
           = (inr (error_response missing_config_message
                     INTERNAL_SERVER_ERROR),
              after_log p "Error cancelling query")
        /\ forall idx,
             py_int (route_get "chunkIndex" (route_params req)) = inr idx ->
             get_chunk_handler P req p
             = (inr (error_response missing_config_message
                       INTERNAL_SERVER_ERROR),
                after_log p "Error fetching chunk")).
Proof.
  intros Hm Hnone.
  pose proof (get_client_missing P p Hm Hnone) as Hc.
  split; [exact (init_missing P Hm) |]. split.
  - intros req fields statement Hbody Hst Ht.
    unfold execute_query. rewrite Hbody.
    rewrite bind_lift_inr with (a := statement)
      by (simpl; now rewrite Hst).
    rewrite Ht. cbn [negb].
    rewrite bind_lift_inr
      with (a := field_or "parameters" (JObj fields) JNull) by reflexivity.
    unfold try_except, execute_query_try.
    rewrite (bind_inl _ _ _ _ _ Hc). reflexivity.
  - intros req sid Hsid Hne. apply String.eqb_neq in Hne.
    split; [| split].
    + unfold get_status. rewrite Hsid, Hne.
      unfold try_except, get_status_try.
      rewrite (bind_inl _ _ _ _ _ Hc). reflexivity.
    + unfold cancel_query. rewrite Hsid, Hne. unfold try_except.
      rewrite (bind_inl _ _ _ _ _ Hc). reflexivity.
    + intros idx Hidx. unfold get_chunk_handler.
      rewrite Hsid, Hne, Hidx. unfold try_except, get_chunk_try.
      rewrite (bind_inl _ _ _ _ _ Hc). reflexivity.
Qed.

Lemma missing_config_is_reported_per_request_witness :
  get_status (sample_platform [("DATABRICKS_HOST", "/")]
                (Reply 200 (inr running_body)))
    (statement_request "s1") fresh_process
  = (inr (error_response missing_config_message INTERNAL_SERVER_ERROR),
     after_log fresh_process "Error fetching status").
Proof.
  refine (proj1 (proj2 (proj2 (missing_config_is_reported_per_request
            (sample_platform [("DATABRICKS_HOST", "/")]
               (Reply 200 (inr running_body)))
            fresh_process _ eq_refl))
            (statement_request "s1") "s1" eq_refl _)).
  - left. reflexivity.
  - discriminate.
Defined.

(* ===================================================================== *)
(** ** Not found *)
(* ===================================================================== *)

(** What the chunk handler makes of an exception of the client. *)
Lemma get_chunk_handler_raised (P : platform) (req : HttpRequest)
    (p p1 p2 : process) (sid : string) (idx : Z) (c : DatabricksClient)
    (e : exn) :
  route_get "statementId" (route_params req) = Some sid ->
  sid <> "" ->
  py_int (route_get "chunkIndex" (route_params req)) = inr idx ->
  get_databricks_client P p = (inr c, p1) ->
  get_chunk P c sid idx p1 = (inl e, p2) ->
  get_chunk_handler P req p = get_chunk_except P e p2.
Proof.
  intros Hsid Hne Hidx Hc Hrun. apply String.eqb_neq in Hne.
  unfold get_chunk_handler. rewrite Hsid, Hne, Hidx.
  unfold try_except, get_chunk_try.
  rewrite (bind_inr _ _ _ _ _ Hc), (bind_inl _ _ _ _ _ Hrun).
  reflexivity.
Qed.

Lemma get_chunk_except_gone (P : platform) (e : exn) (p : process) :
  contains "404" (str_exn P e) = true ->
  get_chunk_except P e p
  = (inr (error_response resubmit_message GONE),
     after_log p "Error fetching chunk").
Proof.
  intros H. unfold get_chunk_except, bind, log_exception.
  rewrite H. reflexivity.
Qed.

(** C5 (the code departs from it): a Poll that the remote service answers
    with 404 is not mapped to "gone": [get_status] answers 500 with the
    raw text of the HTTP error, as for any other failure.  The chunk
    handler does what the claim says: when the text of the error names
    the status code 404 it answers 410 with the message that tells the
    caller to re-execute, after exactly one request. *)
Theorem poll_not_found_is_server_error (P : platform) :
  (forall req p p1 sid c b,
     route_get "statementId" (route_params req) = Some sid ->
     sid <> "" ->
     get_databricks_client P p = (inr c, p1) ->
     remote P (sent p1) (poll_request c sid) = Reply 404 b ->
     get_status P req p
     = (inr (mkResponse 500
               (JObj [("error",
                       JStr (str_fault P
                               (BadStatus 404
                                  (host c ++ statements_path ++ "/" ++ sid))))])
               "application/json"),
        after_log (after_request p1 (poll_request c sid))
          "Error fetching status"))
  /\ (forall req p p1 sid idx c b,
        route_get "statementId" (route_params req) = Some sid ->
        sid <> "" ->
        py_int (route_get "chunkIndex" (route_params req)) = inr idx ->
        get_databricks_client P p = (inr c, p1) ->
        remote P (sent p1) (fetch_request c sid idx) = Reply 404 b ->
        contains "404"
          (str_fault P (BadStatus 404 (host c ++ chunk_path sid idx))) = true ->
        get_chunk_handler P req p
        = (inr (mkResponse 410 (JObj [("error", JStr resubmit_message)])
                  "application/json"),
           after_log (after_request p1 (fetch_request c sid idx))
             "Error fetching chunk")).
Proof.
  split.
  - intros req p p1 sid c b Hsid Hne Hc Hr.
    apply (get_status_raised P req p p1 _ sid c
             (Fault (BadStatus 404 (host c ++ statements_path ++ "/" ++ sid)))
             Hsid Hne Hc).
    rewrite get_statement_status_run, Hr. reflexivity.
  - intros req p p1 sid idx c b Hsid Hne Hidx Hc Hr Htext.
    rewrite (get_chunk_handler_raised P req p p1
               (after_request p1 (fetch_request c sid idx)) sid idx c
               (Fault (BadStatus 404 (host c ++ chunk_path sid idx)))
               Hsid Hne Hidx Hc).
    + apply get_chunk_except_gone. exact Htext.
    + rewrite get_chunk_run, Hr. reflexivity.
Qed.

Lemma poll_not_found_is_server_error_witness :
  get_status (sample_platform sample_environ (Reply 404 (inr (JObj []))))
    (statement_request "s1") fresh_process
  = (inr (mkResponse 500
            (JObj [("error",
                    JStr ("status 404 for url https://dbx.example"
                          ++ "/api/2.0/sql/statements/s1"))])
            "application/json"),
     after_log (after_request (mkProcess (Some sample_client) [] [])
                  (poll_request sample_client "s1"))
       "Error fetching status")
  /\ get_chunk_handler
       (sample_platform sample_environ (Reply 404 (inr (JObj []))))
       (chunk_request "s1" "0") fresh_process
     = (inr (mkResponse 410 (JObj [("error", JStr resubmit_message)])
               "application/json"),
        after_log (after_request (mkProcess (Some sample_client) [] [])
                     (fetch_request sample_client "s1" 0))
          "Error fetching chunk").
Proof.
  pose proof (poll_not_found_is_server_error
                (sample_platform sample_environ (Reply 404 (inr (JObj [])))))
    as [Hpoll Hchunk].
  split.
  - refine (Hpoll (statement_request "s1") fresh_process
              (mkProcess (Some sample_client) [] []) "s1" sample_client
              (inr (JObj [])) eq_refl _ eq_refl eq_refl).
    discriminate.
  - refine (Hchunk (chunk_request "s1" "0") fresh_process
              (mkProcess (Some sample_client) [] []) "s1" 0 sample_client
              (inr (JObj [])) eq_refl _ eq_refl eq_refl eq_refl eq_refl).
    discriminate.
Defined.

(* ===================================================================== *)
(** ** The client object *)
(* ===================================================================== *)

Lemma rstrip_slash_no_trailing (s : string) :
  ends_with_slash (rstrip_slash s) = false.
Proof.
  induction s as [| c s IH]; simpl; [reflexivity |].
  destruct (rstrip_slash s) as [| a t] eqn:E.
  - destruct (Ascii.eqb c "/") eqn:Ec; simpl; [reflexivity | exact Ec].
  - exact IH.
Qed.

Lemma rstrip_slash_decompose (s : string) :
  exists n, s = rstrip_slash s ++ slashes n.
Proof.
  induction s as [| c s [n IH]]; simpl.
  - exists O. reflexivity.
  - destruct (rstrip_slash s) as [| a t] eqn:E.
    + destruct (Ascii.eqb c "/") eqn:Ec.
      * apply Ascii.eqb_eq in Ec. subst c.
        exists (S n). simpl. now rewrite IH at 1.
      * exists n. simpl. now rewrite IH at 1.
    + exists n. simpl. now rewrite IH at 1.
Qed.

Lemma forallb_nonempty3 (a b c : string) :
  forallb (fun s => negb (String.eqb s "")) [a; b; c] = true ->
  a <> "" /\ b <> "" /\ c <> "".
Proof.
  simpl. intros H.
  apply andb_true_iff in H. destruct H as [Ha H].
  apply andb_true_iff in H. destruct H as [Hb H].
  apply andb_true_iff in H. destruct H as [Hc _].
  apply negb_true_iff in Ha, Hb, Hc.
  apply String.eqb_neq in Ha, Hb, Hc. auto.
Qed.

(** X1: when the constructor returns, the client's host is the configured
    host with all trailing slashes (and nothing else) removed, it does not
    end in a slash, host, token and warehouse id are all non-empty, and
    the pooled HTTP client was built for that host and token; when it
    raises, either a value is missing and it raises the ValueError with
    the missing-configuration message, or all three are there and it
    raises what building the HTTP client raised. *)
Theorem client_init_shape (P : platform) (h t w : option string) :
  (forall c,
     DatabricksClient_init P h t w = inr c ->
     host c = rstrip_slash (arg_or_env P h host_var)
     /\ token c = arg_or_env P t token_var
     /\ warehouse_id c = arg_or_env P w warehouse_var
     /\ ends_with_slash (host c) = false
     /\ (exists n, arg_or_env P h host_var = host c ++ slashes n)
     /\ host c <> "" /\ token c <> "" /\ warehouse_id c <> ""
     /\ new_async_client P (host c) (token c) = None)
  /\ (forall e,
        DatabricksClient_init P h t w = inl e ->
        (e = Raised ValueError missing_config_message
         /\ (rstrip_slash (arg_or_env P h host_var) = ""
             \/ arg_or_env P t token_var = ""
             \/ arg_or_env P w warehouse_var = ""))
        \/ (new_async_client P (rstrip_slash (arg_or_env P h host_var))
              (arg_or_env P t token_var) = Some e
            /\ rstrip_slash (arg_or_env P h host_var) <> ""
            /\ arg_or_env P t token_var <> ""
            /\ arg_or_env P w warehouse_var <> "")).
Proof.
  unfold DatabricksClient_init, host_var, token_var, warehouse_var. split.
  - intros c H.
    destruct (forallb _ _) eqn:Hall; [| discriminate].
    destruct (new_async_client P _ _) eqn:Hnew; [discriminate |].
    injection H as <-. simpl.
    apply forallb_nonempty3 in Hall.
    repeat split; try apply Hall; try assumption.
    + apply rstrip_slash_no_trailing.
    + apply rstrip_slash_decompose.
  - intros e H.
    destruct (forallb _ _) eqn:Hall.
    + right. destruct (new_async_client P _ _) eqn:Hnew; [| discriminate].
      injection H as <-. apply forallb_nonempty3 in Hall.
      split; [reflexivity | exact Hall].
    + left. injection H as <-. split; [reflexivity |].
      simpl in Hall.
      destruct (String.eqb (rstrip_slash _) "") eqn:E1;
        [apply String.eqb_eq in E1; auto |].
      destruct (String.eqb (arg_or_env P t _) "") eqn:E2;
        [apply String.eqb_eq in E2; auto |].
      destruct (String.eqb (arg_or_env P w _) "") eqn:E3;
        [apply String.eqb_eq in E3; auto |].
      simpl in Hall. discriminate.
Qed.

Lemma client_init_shape_witness :
  host sample_client = rstrip_slash "https://dbx.example/"
  /\ ends_with_slash (host sample_client) = false.
Proof.
  pose proof (proj1 (client_init_shape
                       (sample_platform sample_environ (NoReply
                          (Raised OtherException "down")))
                       None None None) sample_client eq_refl)
    as (Hh & _ & _ & Hs & _).
  split; [exact Hh | exact Hs].
Defined.

(** X2: once [get_databricks_client] has returned a client, the process
    holds it, and every later call returns that same client and leaves the
    process as it is, whatever the environment has become. *)
Theorem singleton_is_created_once (P : platform) (p p1 : process)
    (c : DatabricksClient) :
  get_databricks_client P p = (inr c, p1) ->
  _client p1 = Some c
  /\ forall P', get_databricks_client P' p1 = (inr c, p1).
Proof.
  unfold get_databricks_client. intros H.
  assert (Hc : _client p1 = Some c).
  { destruct (_client p) as [c0 |] eqn:E.
    - injection H as <- <-. exact E.
    - destruct (DatabricksClient_init P None None None); [discriminate |].
      injection H as <- <-. reflexivity. }
  split; [exact Hc |].
  intros P'. now rewrite Hc.
Qed.

Lemma singleton_is_created_once_witness :
  get_databricks_client (sample_platform [] (NoReply
                           (Raised OtherException "down")))
    (mkProcess (Some sample_client) [] [])
  = (inr sample_client, mkProcess (Some sample_client) [] []).
Proof.
  exact (proj2 (singleton_is_created_once
                  (sample_platform sample_environ
                     (NoReply (Raised OtherException "down")))
                  fresh_process (mkProcess (Some sample_client) [] [])
                  sample_client eq_refl)
           (sample_platform [] (NoReply (Raised OtherException "down")))).
Defined.

(* ===================================================================== *)
(** ** Submit with parameters, and how the client fails *)
(* ===================================================================== *)

Lemma execute_statement_run_with (P : platform) (self : DatabricksClient)
    (statement parameters : json) (p : process) :
  execute_statement P self statement parameters p =
    match parameters_entry P parameters with
    | inl e => (inl e, p)
    | inr extra =>
        (rbind (decoded self statements_path
                  (remote P (sent p)
                     (submit_request_with self statement extra)))
           _parse_statement_response,
         after_request p (submit_request_with self statement extra))
    end.
Proof.
  unfold execute_statement, parameters_entry, bind.
  assert (Hsend : forall extra,
    (let (r, p') :=
       request P self POST statements_path
         (Some (JObj ([("warehouse_id", JStr (warehouse_id self));
                       ("statement", statement);
                       ("wait_timeout", JStr "50s");
                       ("on_wait_timeout", JStr "CONTINUE");
                       ("format", JStr "JSON_ARRAY")] ++ extra)%list)) p in
     match r with
     | inl e => (inl e, p')
     | inr a =>
         let (r0, p'0) := lift (raise_for_status self statements_path (fst a)) p' in
         match r0 with
         | inl e => (inl e, p'0)
         | inr _ =>
             let (r1, p'1) := lift (snd a) p'0 in
             match r1 with
             | inl e => (inl e, p'1)
             | inr a1 => lift (_parse_statement_response a1) p'1
             end
         end
     end)
    = (rbind (decoded self statements_path
                (remote P (sent p) (submit_request_with self statement extra)))
         _parse_statement_response,
       after_request p (submit_request_with self statement extra))).
  { intros extra. unfold request, lift, decoded.
    fold (submit_request_with self statement extra).
    destruct (remote P (sent p) (submit_request_with self statement extra))
      as [code body | e]; simpl; [| reflexivity].
    destruct (raise_for_status self _ code); simpl; [reflexivity |].
    destruct body; reflexivity. }
  destruct (truthy parameters).
  - unfold lift at 1. destruct (parameter_list P parameters) as [e | ps].
    + reflexivity.
    + unfold ret. apply (Hsend [("parameters", ps)]).
  - unfold ret. rewrite <- (Hsend []). now rewrite app_nil_r.
Qed.

Lemma parameters_entry_cases (P : platform) (parameters : json) :
  (truthy parameters = false /\ parameters_entry P parameters = inr [])
  \/ (exists fields,
        parameters = JObj fields /\ fields <> []
        /\ parameters_entry P parameters
           = inr [("parameters",
                   JArr (map (fun kv =>
                                JObj [("name", JStr (fst kv));
                                      ("value", JStr (py_str P (snd kv)))])
                           fields))])
  \/ (truthy parameters = true /\ is_obj parameters = false
      /\ parameters_entry P parameters
         = inl (Fault (NoAttribute parameters "items"))).
Proof.
  unfold parameters_entry.
  destruct (truthy parameters) eqn:Ht; [| left; auto].
  right. destruct parameters as [| | | | | fields];
    try (right; repeat split; reflexivity).
  left. exists fields. repeat split.
  intros ->. discriminate.
Qed.

(** X3: [execute_statement] sends nothing exactly when [parameters] is
    truthy but not a dict: then it raises the AttributeError of [.items]
    and the process is as before.  In every other case it sends one POST
    to the statements path whose payload names the client's warehouse, the
    statement, a wait of "50s", the policy "CONTINUE" on timeout and the
    format "JSON_ARRAY"; the payload has no [parameters] entry for falsy
    parameters, and for a non-empty dict it lists every parameter in
    order as a name and a string value. *)
Theorem submit_payload (P : platform) (self : DatabricksClient)
    (statement parameters : json) (p p' : process)
    (r : result StatementResult) :
  execute_statement P self statement parameters p = (r, p') ->
  (truthy parameters = true -> is_obj parameters = false ->
   p' = p /\ r = inl (Fault (NoAttribute parameters "items")))
  /\ (truthy parameters = false \/ is_obj parameters = true ->
      exists payload,
        p' = after_request p
               (mkOutbound POST (host self) (token self) statements_path
                  (Some (JObj payload)))
        /\ sent p' <> sent p
        /\ lookup "warehouse_id" payload = Some (JStr (warehouse_id self))
        /\ lookup "statement" payload = Some statement
        /\ lookup "wait_timeout" payload = Some (JStr "50s")
        /\ lookup "on_wait_timeout" payload = Some (JStr "CONTINUE")
        /\ lookup "format" payload = Some (JStr "JSON_ARRAY")
        /\ (truthy parameters = false -> lookup "parameters" payload = None)
        /\ (forall fields,
              parameters = JObj fields -> fields <> [] ->
              lookup "parameters" payload
              = Some (JArr (map (fun kv =>
                                   JObj [("name", JStr (fst kv));
                                         ("value", JStr (py_str P (snd kv)))])
                              fields))))%list.
Proof.
  rewrite execute_statement_run_with.
  assert (Hgrow : forall q, sent (after_request p q) <> sent p).
  { intros q H. simpl in H.
    apply (f_equal (@List.length outbound)) in H.
    rewrite length_app in H. simpl in H. lia. }
  destruct (parameters_entry_cases P parameters)
    as [[Ht He] | [(fields & Hp & Hne & He) | (Ht & Hobj & He)]];
    rewrite He; intros H; injection H as <- <-.
  - split.
    + intros Ht'. rewrite Ht in Ht'. discriminate.
    + intros _. eexists. split; [reflexivity |]. split; [apply Hgrow |].
      simpl. repeat split; try reflexivity.
      intros fields Hp Hne. subst parameters.
      destruct fields; [contradiction | discriminate].
  - split.
    + intros _ Hobj. subst parameters. discriminate.
    + intros _. eexists. split; [reflexivity |]. split; [apply Hgrow |].
      simpl. repeat split; try reflexivity.
      * intros Ht. subst parameters. destruct fields;
          [contradiction | discriminate].
      * intros fields' Hp' _. subst parameters. now injection Hp' as <-.
  - split.
    + auto.
    + intros [Hf | Ho]; [rewrite Hf in Ht | rewrite Ho in Hobj];
        discriminate.
Qed.

Lemma submit_payload_witness :
  exists payload,
    snd (execute_statement
           (sample_platform sample_environ (Reply 200 (inr running_body)))
           sample_client (JStr "SELECT :n")
           (JObj [("n", JNum 5); ("s", JStr "x")])
           (mkProcess (Some sample_client) [] []))
    = after_request (mkProcess (Some sample_client) [] [])
        (mkOutbound POST "https://dbx.example" "secret" statements_path
           (Some (JObj payload)))
    /\ lookup "on_wait_timeout" payload = Some (JStr "CONTINUE")
    /\ lookup "parameters" payload
       = Some (JArr [JObj [("name", JStr "n"); ("value", JStr "?")];
                     JObj [("name", JStr "s"); ("value", JStr "x")]]).
Proof.
  destruct (proj2 (submit_payload
              (sample_platform sample_environ (Reply 200 (inr running_body)))
              sample_client (JStr "SELECT :n")
              (JObj [("n", JNum 5); ("s", JStr "x")])
              (mkProcess (Some sample_client) [] []) _ _ eq_refl)
              (or_intror eq_refl))
    as (payload & Hp & _ & _ & _ & _ & Hc & _ & _ & Hps).
  exists payload. split; [exact Hp |]. split; [exact Hc |].
  apply (Hps _ eq_refl). discriminate.
Defined.

Section ClientFailures.
Variable P : platform.
Variable self : DatabricksClient.

(** X4: a reply whose status code is outside 200..299 makes Submit, Poll
    and FetchChunk raise the HTTPStatusError that carries that code and
    the full URL, whatever the body says; the one request stays sent and
    no second one follows. *)
Theorem http_error_is_surfaced (p : process) (code : Z) (b : result json) :
  is_success code = false ->
  (forall sid,
     remote P (sent p) (poll_request self sid) = Reply code b ->
     get_statement_status P self sid p
     = (inl (Fault (BadStatus code
                      (host self ++ statements_path ++ "/" ++ sid))),
        after_request p (poll_request self sid)))
  /\ (forall sid idx,
        remote P (sent p) (fetch_request self sid idx) = Reply code b ->
        get_chunk P self sid idx p
        = (inl (Fault (BadStatus code (host self ++ chunk_path sid idx))),
           after_request p (fetch_request self sid idx)))
  /\ (forall statement parameters extra,
        parameters_entry P parameters = inr extra ->
        remote P (sent p) (submit_request_with self statement extra)
          = Reply code b ->
        execute_statement P self statement parameters p
        = (inl (Fault (BadStatus code (host self ++ statements_path))),
           after_request p (submit_request_with self statement extra)))
  /\ class_of (Fault (BadStatus code "")) = HTTPStatusError.
Proof.
  intros Hcode. unfold is_success in Hcode.
  split; [| split; [| split; [| reflexivity]]].
  - intros sid Hr. rewrite get_statement_status_run, Hr.
    unfold decoded, raise_for_status. now rewrite Hcode.
  - intros sid idx Hr. rewrite get_chunk_run, Hr.
    unfold decoded, raise_for_status. now rewrite Hcode.
  - intros statement parameters extra He Hr.
    rewrite execute_statement_run_with, He, Hr.
    unfold decoded, raise_for_status. now rewrite Hcode.
Qed.

(** X5: when the transport raises instead of replying, each of the four
    client operations raises that same exception, with the request
    recorded as sent; and for Cancel this is the only way to raise. *)
Theorem transport_failure_propagates (p : process) (e : exn) :
  (forall sid,
     remote P (sent p) (poll_request self sid) = NoReply e ->
     get_statement_status P self sid p
     = (inl e, after_request p (poll_request self sid)))
  /\ (forall sid idx,
        remote P (sent p) (fetch_request self sid idx) = NoReply e ->
        get_chunk P self sid idx p
        = (inl e, after_request p (fetch_request self sid idx)))
  /\ (forall statement parameters extra,
        parameters_entry P parameters = inr extra ->
        remote P (sent p) (submit_request_with self statement extra)
          = NoReply e ->
        execute_statement P self statement parameters p
        = (inl e, after_request p (submit_request_with self statement extra)))
  /\ (forall sid p',
        cancel_statement P self sid p = (inl e, p') <->
        remote P (sent p) (cancel_request self sid) = NoReply e
        /\ p' = after_request p (cancel_request self sid)).
Proof.
  split; [| split; [| split]].
  - intros sid Hr. now rewrite get_statement_status_run, Hr.
  - intros sid idx Hr. now rewrite get_chunk_run, Hr.
  - intros statement parameters extra He Hr.
    now rewrite execute_statement_run_with, He, Hr.
  - intros sid p'. rewrite cancel_statement_run.
    destruct (remote P (sent p) (cancel_request self sid)) as [code b | e'].
    + split; [discriminate | intros [H _]; discriminate].
    + split.
      * intros H. injection H as -> <-. auto.
      * intros [H ->]. now injection H as ->.
Qed.

End ClientFailures.

Lemma http_error_is_surfaced_witness :
  get_statement_status
    (sample_platform sample_environ (Reply 503 (inr running_body)))
    sample_client "s1" fresh_process
  = (inl (Fault (BadStatus 503
                   ("https://dbx.example" ++ statements_path ++ "/" ++ "s1"))),
     after_request fresh_process (poll_request sample_client "s1")).
Proof.
  exact (proj1 (http_error_is_surfaced
                  (sample_platform sample_environ
                     (Reply 503 (inr running_body)))
                  sample_client fresh_process 503 (inr running_body) eq_refl)
           "s1" eq_refl).
Defined.

Lemma transport_failure_propagates_witness :
  cancel_statement
    (sample_platform sample_environ (NoReply (Raised OtherException "timeout")))
    sample_client "s1" fresh_process
  = (inl (Raised OtherException "timeout"),
     after_request fresh_process (cancel_request sample_client "s1")).
Proof.
  apply (proj2 (proj2 (proj2 (proj2 (transport_failure_propagates
           (sample_platform sample_environ
              (NoReply (Raised OtherException "timeout")))
           sample_client fresh_process (Raised OtherException "timeout"))))
           "s1" _)).
  split; reflexivity.
Defined.

(* ===================================================================== *)
(** ** More on normalization *)
(* ===================================================================== *)

Lemma py_get_inr_obj (v : json) (k : string) (d x : json) :
  py_get v k d = inr x -> is_obj v = true.
Proof. intros H. now apply py_get_inr in H. Qed.

Lemma field_or_obj (k : string) (v : json) :
  is_obj (field_or k v (JObj [])) = true -> obj_or_absent (field k v) = true.
Proof.
  unfold field_or. destruct (field k v); simpl; [trivial | reflexivity].
Qed.

(** X6: whenever normalization returns, the statement id (default ""),
    the two manifest counts, the inline rows and the chunk index of the
    result are the values the body carries at [statement_id],
    [manifest.total_chunk_count], [manifest.total_row_count],
    [result.data_array] and [result.chunk_index], null when absent, and
    the state is the enumerant named by [status.state] (PENDING when
    absent). *)
Theorem normalization_carries_verbatim (doc : json) (r : StatementResult) :
  _parse_statement_response doc = inr r ->
  statement_id r = field_or "statement_id" doc (JStr "")
  /\ total_chunk_count r = field_or "total_chunk_count" (manifest_of doc) JNull
  /\ total_row_count r = field_or "total_row_count" (manifest_of doc) JNull
  /\ data r = field_or "data_array" (result_of doc) JNull
  /\ chunk_index r = field_or "chunk_index" (result_of doc) JNull
  /\ field_or "state" (status_of doc) (JStr "PENDING")
     = JStr (state_value (state r)).
Proof.
  intros H. apply parse_inr in H.
  destruct H as (Hs & Hid & Hc & Hr & Hd & Hi & _).
  apply StatementState_of_inr in Hs. auto 10.
Qed.

Lemma normalization_carries_verbatim_witness :
  exists r,
    _parse_statement_response untyped_column = inr r
    /\ total_chunk_count r = JNum 1
    /\ statement_id r = JStr "".
Proof.
  eexists. split; [reflexivity |].
  pose proof (normalization_carries_verbatim untyped_column _ eq_refl)
    as (Hid & Hc & _).
  split; [exact Hc | exact Hid].
Defined.

(** X7: normalization reads only the top-level keys [status],
    [manifest], [result] and [statement_id]: two bodies that agree on
    these four are normalized alike, whatever else they carry and in
    whatever order. *)
Theorem normalization_reads_four_keys (f g : list (string * json)) :
  lookup "status" f = lookup "status" g ->
  lookup "manifest" f = lookup "manifest" g ->
  lookup "result" f = lookup "result" g ->
  lookup "statement_id" f = lookup "statement_id" g ->
  _parse_statement_response (JObj f) = _parse_statement_response (JObj g).
Proof.
  intros Hs Hm Hr Hi. unfold _parse_statement_response. simpl py_get.
  now rewrite Hs, Hm, Hr, Hi.
Qed.

Lemma normalization_reads_four_keys_witness :
  _parse_statement_response
    (JObj [("trace_id", JStr "t"); ("status", JObj [("state", JStr "RUNNING")]);
           ("statement_id", JStr "s1")])
  = _parse_statement_response running_body.
Proof.
  apply normalization_reads_four_keys; reflexivity.
Defined.

(** X8: normalization returns only for a body that is an object and in
    which [status], [manifest] and [result], when present, are objects
    as well (and, for a FAILED state, [status.error]); a present null or
    list in one of these places makes it raise instead of falling back to
    the default. *)
Theorem normalization_needs_objects (doc : json) (r : StatementResult) :
  _parse_statement_response doc = inr r ->
  is_obj doc = true
  /\ obj_or_absent (field "status" doc) = true
  /\ obj_or_absent (field "manifest" doc) = true
  /\ obj_or_absent (field "result" doc) = true
  /\ (state r = FAILED ->
      obj_or_absent (field "error" (status_of doc)) = true).
Proof.
  unfold _parse_statement_response. intros H.
  rinv H. rinv H. rinv H. rinv H. rinv H. rinv H. rinv H. rinv H.
  rinv H. rinv H. rinv H. rinv H. rinv H.
  injection H as <-. simpl state.
  pose proof (py_get_inr_obj _ _ _ _ Hv) as Hdoc.
  pose proof (py_get_inr_obj _ _ _ _ Hv0) as Hstatus.
  pose proof (py_get_inr_obj _ _ _ _ Hv8) as Hmanifest.
  pose proof (py_get_inr_obj _ _ _ _ Hv10) as Hresult.
  apply py_get_inr in Hv, Hv2, Hv3.
  destruct Hv as [_ ->], Hv2 as [_ ->], Hv3 as [_ ->].
  split; [exact Hdoc |].
  split; [now apply field_or_obj |].
  split; [now apply field_or_obj |].
  split; [now apply field_or_obj |].
  intros Hf. rewrite Hf in Hv4. simpl in Hv4.
  rinv Hv4. pose proof (py_get_inr_obj _ _ _ _ Hv4) as Herr.
  apply py_get_inr in Hv. destruct Hv as [_ ->].
  now apply field_or_obj.
Qed.

Lemma normalization_needs_objects_witness :
  obj_or_absent (field "status" failed_no_error) = true
  /\ obj_or_absent (field "error" (status_of failed_no_error)) = true.
Proof.
  pose proof (normalization_needs_objects failed_no_error _ eq_refl)
    as (_ & Hs & _ & _ & He).
  split; [exact Hs | exact (He eq_refl)].
Defined.

Lemma traverse_columns_unnamed (cs : list json) :
  forallb is_obj cs = true ->
  forallb is_column cs = false ->
  traverse parse_column cs = inl (Fault (MissingKey "name")).
Proof.
  induction cs as [| c cs IH]; simpl; [discriminate |].
  intros Hobj Hcol.
  apply andb_true_iff in Hobj. destruct Hobj as [Hc Hcs].
  destruct c as [| | | | | fields]; try discriminate.
  unfold parse_column at 1. simpl. simpl in Hcol. unfold has_key in Hcol.
  destruct (lookup "name" fields); simpl; [| reflexivity].
  simpl in Hcol. now rewrite (IH Hcs Hcol).
Qed.

(** X9: on a list of column objects the columns comprehension returns
    exactly when every column has a [name]; then it yields one
    [{name, type}] entry per column, in order, the type being the
    column's [type_name] or "string"; otherwise it raises the KeyError
    for [name]. *)
Theorem columns_need_names (cs : list json) :
  forallb is_obj cs = true ->
  (forallb is_column cs = true ->
   traverse parse_column cs = inr (map column_of cs))
  /\ (forallb is_column cs = false ->
      traverse parse_column cs = inl (Fault (MissingKey "name")))
  /\ (forall out, traverse parse_column cs = inr out ->
                  List.length out = List.length cs).
Proof.
  intros Hobj. split; [apply traverse_columns |].
  split; [now apply traverse_columns_unnamed |].
  intros out Hout.
  destruct (forallb is_column cs) eqn:E.
  - rewrite (traverse_columns cs E) in Hout. injection Hout as <-.
    apply length_map.
  - rewrite (traverse_columns_unnamed cs Hobj E) in Hout. discriminate.
Qed.

Lemma columns_need_names_witness :
  traverse parse_column
    [JObj [("name", JStr "id"); ("type_name", JStr "LONG")];
     JObj [("name", JStr "label")]]
  = inr [JObj [("name", JStr "id"); ("type", JStr "LONG")];
         JObj [("name", JStr "label"); ("type", JStr "string")]].
Proof.
  exact (proj1 (columns_need_names
                  [JObj [("name", JStr "id"); ("type_name", JStr "LONG")];
                   JObj [("name", JStr "label")]] eq_refl) eq_refl).
Defined.

(** X10: [StatementState(v)] returns a member exactly when [v] is the
    string that is the member's value, so reading back the value of a
    member gives the member, distinct members have distinct values, and
    every other value raises the enumeration's ValueError. *)
Theorem state_value_round_trip :
  (forall v s, StatementState_of v = inr s <-> v = JStr (state_value s))
  /\ (forall a b, state_value a = state_value b -> a = b)
  /\ (forall v e, StatementState_of v = inl e ->
                  e = Fault (NotAStatementState v)
                  /\ class_of e = ValueError).
Proof.
  split; [| split].
  - intros v s. split.
    + apply StatementState_of_inr.
    + intros ->. apply StatementState_of_value.
  - intros a b H. apply state_eqb_eq. unfold state_eqb.
    rewrite H. apply String.eqb_refl.
  - intros v e H. apply StatementState_of_inl in H. subst e. auto.
Qed.

Lemma state_value_round_trip_witness :
  StatementState_of (JStr "CLOSED") = inr CLOSED.
Proof.
  apply (proj1 state_value_round_trip). reflexivity.
Defined.

(* ===================================================================== *)
(** ** The four handlers in one shape *)
(* ===================================================================== *)

Lemma get_client_inl (P : platform) (p p0 : process) (e : exn) :
  get_databricks_client P p = (inl e, p0) -> p0 = p.
Proof.
  unfold get_databricks_client.
  destruct (_client p); [discriminate |].
  destruct (DatabricksClient_init P None None None); [| discriminate].
  now intros H; injection H as _ <-.
Qed.

Lemma get_client_step (P : platform) (p p1 : process) (c : DatabricksClient) :
  get_databricks_client P p = (inr c, p1) -> client_step P p p1.
Proof.
  unfold get_databricks_client, client_step.
  destruct (_client p) as [c0 |] eqn:E.
  - intros H. injection H as _ <-. auto.
  - destruct (DatabricksClient_init P None None None) as [e | c0];
      [discriminate |].
    intros H. injection H as _ <-. simpl.
    repeat split; try reflexivity. right. split; [reflexivity |].
    exists c0. auto.
Qed.

Lemma guarded_outcome {A : Type} (P : platform) (op : DatabricksClient -> M A)
    (answer : A -> result HttpResponse) (on_error : exn -> HttpResponse)
    (line : string) (p p' : process) (r : result HttpResponse) :
  guarded P op answer on_error line p = (r, p') ->
  exists resp, r = inr resp /\ outcome P op answer on_error line p resp p'.
Proof.
  unfold guarded, try_except, bind.
  destruct (get_databricks_client P p) as [[e | c] p1] eqn:Hc.
  - pose proof (get_client_inl P p p1 e Hc) as ->.
    unfold log_exception, ret. intros H. injection H as <- <-.
    eexists. split; [reflexivity |]. now apply (no_client _ _ _ _ _ _ _ _ e).
  - destruct (op c p1) as [[e | a] p2] eqn:Hop.
    + unfold log_exception, ret. intros H. injection H as <- <-.
      eexists. split; [reflexivity |].
      now apply (op_raised _ _ _ _ _ _ _ _ c p1 p2 e).
    + unfold lift. destruct (answer a) as [e | resp] eqn:Ha.
      * unfold log_exception, ret. intros H. injection H as <- <-.
        eexists. split; [reflexivity |].
        now apply (answer_raised _ _ _ _ _ _ _ _ c p1 p2 a e).
      * intros H. injection H as <- <-.
        eexists. split; [reflexivity |].
        now apply (answered _ _ _ _ _ _ _ _ c p1 p2 a).
Qed.

Lemma try_except_ext {A : Type} (m m' : M A) (h h' : exn -> M A)
    (p : process) :
  (forall q, m q = m' q) -> (forall e q, h e q = h' e q) ->
  try_except m h p = try_except m' h' p.
Proof.
  intros Hm Hh. unfold try_except. rewrite Hm.
  destruct (m' p) as [[e | a] q]; [apply Hh | reflexivity].
Qed.

Lemma bind_ext {A B : Type} (m : M A) (k k' : A -> M B) (p : process) :
  (forall a q, k a q = k' a q) -> bind m k p = bind m k' p.
Proof.
  intros Hk. unfold bind. destruct (m p) as [[e | a] q]; [reflexivity | apply Hk].
Qed.

Lemma get_status_shape (P : platform) (req : HttpRequest) (p : process) :
  get_status P req p =
    match route_get "statementId" (route_params req) with
    | Some sid =>
        if String.eqb sid ""
        then (inr (error_response "Missing statementId" BAD_REQUEST), p)
        else guarded P (fun c => get_statement_status P c sid) status_answer
               (server_error P) (log_line Status) p
    | None => (inr (error_response "Missing statementId" BAD_REQUEST), p)
    end.
Proof.
  unfold get_status.
  destruct (route_get "statementId" (route_params req)) as [sid |];
    [| reflexivity].
  destruct (String.eqb sid ""); [reflexivity |].
  unfold guarded. apply try_except_ext; [| reflexivity].
  intros q. unfold get_status_try. apply bind_ext. intros c q1.
  apply bind_ext. intros r q2.
  unfold status_answer, status_payload, base_payload, lift, ret.
  now rewrite status_of_state_table.
Qed.

Lemma cancel_query_shape (P : platform) (req : HttpRequest) (p : process) :
  cancel_query P req p =
    match route_get "statementId" (route_params req) with
    | Some sid =>
        if String.eqb sid ""
        then (inr (error_response "Missing statementId" BAD_REQUEST), p)
        else guarded P (fun c => cancel_statement P c sid) cancel_answer
               (server_error P) (log_line Cancel) p
    | None => (inr (error_response "Missing statementId" BAD_REQUEST), p)
    end.
Proof.
  unfold cancel_query.
  destruct (route_get "statementId" (route_params req)) as [sid |];
    [| reflexivity].
  destruct (String.eqb sid ""); [reflexivity |].
  unfold guarded. apply try_except_ext; [| reflexivity].
  intros q. apply bind_ext. intros c q1. apply bind_ext. intros b q2.
  unfold cancel_answer, lift, ret. destruct b; reflexivity.
Qed.

Lemma get_chunk_handler_shape (P : platform) (req : HttpRequest)
    (p : process) :
  get_chunk_handler P req p =
    match route_get "statementId" (route_params req) with
    | Some sid =>
        if String.eqb sid ""
        then (inr (error_response "Missing statementId" BAD_REQUEST), p)
        else
          match py_int (route_get "chunkIndex" (route_params req)) with
          | inl _ => (inr (error_response "Invalid chunkIndex" BAD_REQUEST), p)
          | inr idx =>
              guarded P (fun c => get_chunk P c sid idx) chunk_answer
                (chunk_error P) (log_line Chunk) p
          end
    | None => (inr (error_response "Missing statementId" BAD_REQUEST), p)
    end.
Proof.
  unfold get_chunk_handler.
  destruct (route_get "statementId" (route_params req)) as [sid |];
    [| reflexivity].
  destruct (String.eqb sid ""); [reflexivity |].
  unfold py_int.
  destruct (route_get "chunkIndex" (route_params req)) as [s |];
    [| reflexivity].
  destruct (int_of_string s) as [idx |]; [| reflexivity].
  unfold guarded. apply try_except_ext.
  - intros q. unfold get_chunk_try. apply bind_ext. intros c q1.
    apply bind_ext. intros r q2.
    unfold chunk_answer, bind, lift, ret.
    destruct (truthy (data r)); [| reflexivity].
    destruct (py_len (data r)); reflexivity.
  - intros e q. unfold get_chunk_except, chunk_error, server_error, bind,
      log_exception, ret.
    destruct (contains "404" (str_exn P e)
              || contains "not found" (lower (str_exn P e)))%bool;
      reflexivity.
Qed.

Lemma execute_query_shape (P : platform) (req : HttpRequest) (p : process) :
  execute_query P req p =
    match req_json req with
    | None => (inr (error_response "Invalid JSON body" BAD_REQUEST), p)
    | Some body =>
        match body with
        | JObj fields =>
            if truthy (field_or "statement" body JNull)
            then guarded P
                   (fun c => execute_statement P c
                               (field_or "statement" body JNull)
                               (field_or "parameters" body JNull))
                   execute_answer (server_error P) (log_line Execute) p
            else (inr (error_response "Missing 'statement' field" BAD_REQUEST),
                  p)
        | _ => (inl (Fault (NoAttribute body "get")), p)
        end
    end.
Proof.
  unfold execute_query.
  destruct (req_json req) as [body |]; [| reflexivity].
  destruct body as [| | | | | fields]; try reflexivity.
  rewrite bind_lift_inr
    with (a := field_or "statement" (JObj fields) JNull) by reflexivity.
  destruct (truthy (field_or "statement" (JObj fields) JNull));
    [| reflexivity].
  cbn [negb].
  rewrite bind_lift_inr
    with (a := field_or "parameters" (JObj fields) JNull) by reflexivity.
  unfold guarded. apply try_except_ext; [| reflexivity].
  intros q. unfold execute_query_try. apply bind_ext. intros c q1.
  apply bind_ext. intros r q2.
  unfold execute_answer, base_payload, bind, lift, ret.
  rewrite status_of_state_table.
  destruct (state_eqb (state r) FAILED); [reflexivity |].
  destruct (negb (is_none (data r)) && state_eqb (state r) SUCCEEDED)%bool;
    [| reflexivity].
  destruct (py_len (data r)); reflexivity.
Qed.

Lemma guarded_returns {A : Type} (P : platform) (op : DatabricksClient -> M A)
    (answer : A -> result HttpResponse) (on_error : exn -> HttpResponse)
    (line : string) (p : process) :
  exists resp p',
    guarded P op answer on_error line p = (inr resp, p')
    /\ outcome P op answer on_error line p resp p'.
Proof.
  destruct (guarded P op answer on_error line p) as [r p'] eqn:H.
  destruct (guarded_outcome P op answer on_error line p p' r H)
    as (resp & -> & Ho).
  exists resp, p'. auto.
Qed.

(** X11: the Status, Chunk and Cancel handlers answer every request: they
    never raise.  The Execute handler raises in one case only, a JSON
    body that is not an object, and then it raises the AttributeError of
    [body.get] before anything else has happened. *)
Theorem handlers_always_answer (P : platform) (req : HttpRequest)
    (p : process) :
  (forall ep, ep <> Execute ->
              exists resp p', handler P ep req p = (inr resp, p'))
  /\ (forall e p',
        execute_query P req p = (inl e, p') <->
        exists body,
          req_json req = Some body /\ is_obj body = false
          /\ e = Fault (NoAttribute body "get") /\ p' = p).
Proof.
  split.
  - intros ep Hep. destruct ep; [contradiction | | |]; simpl.
    + rewrite get_status_shape.
      destruct (route_get "statementId" (route_params req)) as [sid |];
        [| eauto].
      destruct (String.eqb sid ""); [eauto |].
      destruct (guarded_returns P (fun c => get_statement_status P c sid)
                  status_answer (server_error P) (log_line Status) p)
        as (resp & p' & H & _). eauto.
    + rewrite get_chunk_handler_shape.
      destruct (route_get "statementId" (route_params req)) as [sid |];
        [| eauto].
      destruct (String.eqb sid ""); [eauto |].
      destruct (py_int _) as [e | idx]; [eauto |].
      destruct (guarded_returns P (fun c => get_chunk P c sid idx)
                  chunk_answer (chunk_error P) (log_line Chunk) p)
        as (resp & p' & H & _). eauto.
    + rewrite cancel_query_shape.
      destruct (route_get "statementId" (route_params req)) as [sid |];
        [| eauto].
      destruct (String.eqb sid ""); [eauto |].
      destruct (guarded_returns P (fun c => cancel_statement P c sid)
                  cancel_answer (server_error P) (log_line Cancel) p)
        as (resp & p' & H & _). eauto.
  - intros e p'. rewrite execute_query_shape.
    destruct (req_json req) as [body |].
    + destruct body as [| | | | | fields];
        try (split;
             [ intros H; injection H as <- <-; eexists; repeat split
             | intros (bd & Hb & _ & -> & ->); now injection Hb as <- ]).
      split.
      * intros H. exfalso.
        destruct (truthy (field_or "statement" (JObj fields) JNull));
          [| discriminate].
        apply guarded_outcome in H. destruct H as (resp & Hr & _).
        discriminate.
      * intros (bd & Hb & Hobj & _). injection Hb as <-. discriminate.
    + split; [discriminate | intros (bd & Hb & _); discriminate].
Qed.

Lemma handlers_always_answer_witness :
  execute_query (sample_platform sample_environ (Reply 200 (inr running_body)))
    (execute_request (JArr [JStr "SELECT 1"])) fresh_process
  = (inl (Fault (NoAttribute (JArr [JStr "SELECT 1"]) "get")), fresh_process).
Proof.
  apply (proj2 (handlers_always_answer
                  (sample_platform sample_environ
                     (Reply 200 (inr running_body)))
                  (execute_request (JArr [JStr "SELECT 1"])) fresh_process)).
  exists (JArr [JStr "SELECT 1"]). repeat split.
Defined.

(* --------------------------------------------------------------------- *)
(** *** What a request does to the process *)

Lemma op_step_poll (P : platform) (c : DatabricksClient) (sid : string)
    (p1 p2 : process) (x : result StatementResult) :
  get_statement_status P c sid p1 = (x, p2) -> op_step p1 p2.
Proof.
  rewrite get_statement_status_run. intros H. injection H as _ <-.
  right. eauto.
Qed.

Lemma op_step_fetch (P : platform) (c : DatabricksClient) (sid : string)
    (idx : Z) (p1 p2 : process) (x : result StatementResult) :
  get_chunk P c sid idx p1 = (x, p2) -> op_step p1 p2.
Proof.
  rewrite get_chunk_run. intros H. injection H as _ <-. right. eauto.
Qed.

Lemma op_step_cancel (P : platform) (c : DatabricksClient) (sid : string)
    (p1 p2 : process) (x : result bool) :
  cancel_statement P c sid p1 = (x, p2) -> op_step p1 p2.
Proof.
  rewrite cancel_statement_run. intros H. injection H as _ <-. right. eauto.
Qed.

Lemma op_step_submit (P : platform) (c : DatabricksClient)
    (statement parameters : json) (p1 p2 : process)
    (x : result StatementResult) :
  execute_statement P c statement parameters p1 = (x, p2) -> op_step p1 p2.
Proof.
  rewrite execute_statement_run_with.
  destruct (parameters_entry P parameters); intros H; injection H as _ <-.
  - left. reflexivity.
  - right. eauto.
Qed.

Lemma steps_footprint (P : platform) (ep : endpoint) (p p1 p2 p' : process) :
  client_step P p p1 -> op_step p1 p2 ->
  p' = p2 \/ p' = after_log p2 (log_line ep) ->
  footprint P ep p p'.
Proof.
  intros (Hs & Hl & Hc) Hop Hp'. unfold footprint.
  assert (H2 : _client p2 = _client p1
               /\ logged p2 = logged p1
               /\ exists reqs, sent p2 = (sent p1 ++ reqs)%list
                               /\ (List.length reqs <= 1)%nat).
  { destruct Hop as [-> | [q ->]]; simpl.
    - repeat split. exists []. rewrite app_nil_r. auto.
    - repeat split. exists [q]. auto. }
  destruct H2 as (Hc2 & Hl2 & reqs & Hs2 & Hlen).
  assert (H' : _client p' = _client p2 /\ sent p' = sent p2
               /\ (logged p' = logged p2
                   \/ logged p' = (logged p2 ++ [log_line ep])%list)).
  { destruct Hp' as [-> | ->]; simpl; auto. }
  destruct H' as (Hc' & Hs' & Hl').
  rewrite Hc', Hc2, Hs', Hs2, Hs. rewrite Hl2, Hl in Hl'.
  split; [exists reqs; auto |]. split; assumption.
Qed.

Lemma outcome_footprint {A : Type} (P : platform) (ep : endpoint)
    (op : DatabricksClient -> M A) (answer : A -> result HttpResponse)
    (on_error : exn -> HttpResponse) (p p' : process) (resp : HttpResponse) :
  (forall c p1 x p2, op c p1 = (x, p2) -> op_step p1 p2) ->
  outcome P op answer on_error (log_line ep) p resp p' ->
  footprint P ep p p'.
Proof.
  intros Hop Ho.
  destruct Ho as [e Hc _ Hp | c p1 p2 e Hc Hrun _ Hp
                  | c p1 p2 a e Hc Hrun _ _ Hp | c p1 p2 a Hc Hrun _ Hp].
  - apply (steps_footprint P ep p p p p').
    + unfold client_step. auto.
    + left. reflexivity.
    + right. exact Hp.
  - apply (steps_footprint P ep p p1 p2 p');
      [now apply get_client_step in Hc | now apply Hop in Hrun | now right].
  - apply (steps_footprint P ep p p1 p2 p');
      [now apply get_client_step in Hc | now apply Hop in Hrun | now right].
  - apply (steps_footprint P ep p p1 p2 p');
      [now apply get_client_step in Hc | now apply Hop in Hrun | now left].
Qed.

Lemma footprint_refl (P : platform) (ep : endpoint) (p : process) :
  footprint P ep p p.
Proof.
  unfold footprint. split; [exists []; rewrite app_nil_r; auto | auto].
Qed.

Lemma handler_footprint (P : platform) (ep : endpoint)
    (req : HttpRequest) (p p' : process) (r : result HttpResponse) :
  handler P ep req p = (r, p') -> footprint P ep p p'.
Proof.
  destruct ep; simpl.
  - rewrite execute_query_shape.
    destruct (req_json req) as [body |];
      [| intros H; injection H as _ <-; apply footprint_refl].
    destruct body as [| | | | | fields];
      try (intros H; injection H as _ <-; apply footprint_refl).
    destruct (truthy _);
      [| intros H; injection H as _ <-; apply footprint_refl].
    intros H. apply guarded_outcome in H. destruct H as (resp & _ & Ho).
    refine (outcome_footprint P Execute _ _ _ p p' resp _ Ho).
    intros c p1 x p2. apply op_step_submit.
  - rewrite get_status_shape.
    destruct (route_get "statementId" (route_params req)) as [sid |];
      [| intros H; injection H as _ <-; apply footprint_refl].
    destruct (String.eqb sid "");
      [intros H; injection H as _ <-; apply footprint_refl |].
    intros H. apply guarded_outcome in H. destruct H as (resp & _ & Ho).
    refine (outcome_footprint P Status _ _ _ p p' resp _ Ho).
    intros c p1 x p2. apply op_step_poll.
  - rewrite get_chunk_handler_shape.
    destruct (route_get "statementId" (route_params req)) as [sid |];
      [| intros H; injection H as _ <-; apply footprint_refl].
    destruct (String.eqb sid "");
      [intros H; injection H as _ <-; apply footprint_refl |].
    destruct (py_int _) as [e | idx];
      [intros H; injection H as _ <-; apply footprint_refl |].
    intros H. apply guarded_outcome in H. destruct H as (resp & _ & Ho).
    refine (outcome_footprint P Chunk _ _ _ p p' resp _ Ho).
    intros c p1 x p2. apply op_step_fetch.
  - rewrite cancel_query_shape.
    destruct (route_get "statementId" (route_params req)) as [sid |];
      [| intros H; injection H as _ <-; apply footprint_refl].
    destruct (String.eqb sid "");
      [intros H; injection H as _ <-; apply footprint_refl |].
    intros H. apply guarded_outcome in H. destruct H as (resp & _ & Ho).
    refine (outcome_footprint P Cancel _ _ _ p p' resp _ Ho).
    intros c p1 x p2. apply op_step_cancel.
Qed.

(** X12: serving one inbound request, on any route and with any outcome,
    sends at most one request to the remote service (so nothing is ever
    retried) and removes none from the record, writes at most one line to
    the log (the route's own), and leaves the singleton client as it was
    unless it was unset and is now the one built from the environment. *)
Theorem one_request_per_call (P : platform) (ep : endpoint)
    (req : HttpRequest) (p p' : process) (r : result HttpResponse) :
  handler P ep req p = (r, p') -> footprint P ep p p'.
Proof. apply handler_footprint. Qed.

Lemma one_request_per_call_witness :
  footprint (sample_platform sample_environ (Reply 404 (inr (JObj []))))
    Chunk fresh_process
    (after_log (after_request (mkProcess (Some sample_client) [] [])
                  (fetch_request sample_client "s1" 0))
       "Error fetching chunk").
Proof.
  exact (one_request_per_call
           (sample_platform sample_environ (Reply 404 (inr (JObj []))))
           Chunk (chunk_request "s1" "0") fresh_process _ _ eq_refl).
Defined.

(* --------------------------------------------------------------------- *)
(** *** What an answer looks like *)

Lemma outcome_answer {A : Type} (P : platform) (op : DatabricksClient -> M A)
    (answer : A -> result HttpResponse) (on_error : exn -> HttpResponse)
    (line : string) (p p' : process) (resp : HttpResponse)
    (Q : HttpResponse -> Prop) :
  (forall e, Q (on_error e)) ->
  (forall a x, answer a = inr x -> Q x) ->
  outcome P op answer on_error line p resp p' -> Q resp.
Proof.
  intros He Ha Ho.
  destruct Ho as [e _ -> _ | c p1 p2 e _ _ -> _
                  | c p1 p2 a e _ _ _ -> _ | c p1 p2 a _ _ Hans _].
  - apply He.
  - apply He.
  - apply He.
  - apply (Ha a resp Hans).
Qed.

Lemma well_formed_error (msg : string) (st : HTTPStatus) :
  st = BAD_REQUEST \/ st = GONE \/ st = INTERNAL_SERVER_ERROR ->
  well_formed_response (error_response msg st).
Proof.
  unfold well_formed_response.
  intros [-> | [-> | ->]]; simpl; repeat split; auto 10; eauto.
Qed.

Lemma well_formed_server_error (P : platform) (e : exn) :
  well_formed_response (server_error P e)
  /\ status_code (server_error P e) <> 202.
Proof.
  split; [apply well_formed_error; auto | discriminate].
Qed.

Lemma well_formed_chunk_error (P : platform) (e : exn) :
  well_formed_response (chunk_error P e)
  /\ status_code (chunk_error P e) <> 202.
Proof.
  unfold chunk_error.
  destruct (contains "404" (str_exn P e)
            || contains "not found" (lower (str_exn P e)))%bool.
  - split; [apply well_formed_error; auto | discriminate].
  - apply well_formed_server_error.
Qed.

Lemma well_formed_status_answer (r : StatementResult) (x : HttpResponse) :
  status_answer r = inr x -> well_formed_response x.
Proof.
  unfold status_answer. intros H. injection H as <-.
  unfold well_formed_response, status_payload. simpl.
  repeat split.
  - destruct (state r); simpl; auto 10.
  - intros Hcode. rewrite add_metadata_other by discriminate.
    destruct (state r) eqn:Es; simpl in Hcode;
      try (destruct Hcode; discriminate).
    simpl. eauto.
Qed.

Lemma well_formed_execute_answer (r : StatementResult) (x : HttpResponse) :
  execute_answer r = inr x -> well_formed_response x.
Proof.
  unfold execute_answer.
  destruct (state_eqb (state r) FAILED) eqn:Ef.
  - intros H. injection H as <-.
    unfold well_formed_response. simpl. repeat split; auto 10. eauto.
  - assert (Hcode : forall payload,
              well_formed_response
                (json_response payload (status_of_state (state r)))).
    { intros payload. unfold well_formed_response. simpl. repeat split.
      - destruct (state r); simpl; auto 10.
      - intros Hc. destruct (state r); simpl in Hc;
          destruct Hc; discriminate. }
    destruct (negb (is_none (data r)) && state_eqb (state r) SUCCEEDED)%bool.
    + destruct (py_len (data r)); [discriminate |].
      intros H. injection H as <-. apply Hcode.
    + intros H. injection H as <-. apply Hcode.
Qed.

Lemma well_formed_chunk_answer (r : StatementResult) (x : HttpResponse) :
  chunk_answer r = inr x ->
  well_formed_response x /\ status_code x <> 202.
Proof.
  unfold chunk_answer.
  destruct (if truthy (data r) then py_len (data r) else inr 0);
    [discriminate |].
  intros H. injection H as <-. unfold well_formed_response. simpl.
  repeat split; auto; try discriminate.
  intros [Hc | Hc]; discriminate.
Qed.

Lemma well_formed_cancel_answer (b : bool) (x : HttpResponse) :
  cancel_answer b = inr x ->
  well_formed_response x /\ status_code x <> 202.
Proof.
  unfold cancel_answer. intros H. injection H as <-. destruct b.
  - unfold well_formed_response. simpl.
    repeat split; auto; try discriminate.
    intros [Hc | Hc]; discriminate.
  - split; [apply well_formed_error; auto | discriminate].
Qed.

(** X13: every answer of the four handlers is JSON whose payload is an
    object, has one of the status codes 200, 202, 400, 410, 500, and
    carries an [error] field whenever the code is 400 or 500; and 202 is
    only ever answered by Execute and Status. *)
Theorem answers_are_well_formed (P : platform) (ep : endpoint)
    (req : HttpRequest) (p p' : process) (resp : HttpResponse) :
  handler P ep req p = (inr resp, p') ->
  well_formed_response resp
  /\ (ep = Chunk \/ ep = Cancel -> status_code resp <> 202).
Proof.
  assert (Hbad : forall msg,
            well_formed_response (error_response msg BAD_REQUEST)
            /\ (ep = Chunk \/ ep = Cancel ->
                status_code (error_response msg BAD_REQUEST) <> 202)).
  { intros msg. split; [apply well_formed_error; auto | discriminate]. }
  destruct ep; simpl.
  - rewrite execute_query_shape.
    destruct (req_json req) as [body |];
      [| intros H; injection H as <- _; apply Hbad].
    destruct body as [| | | | | fields]; try discriminate.
    destruct (truthy _); [| intros H; injection H as <- _; apply Hbad].
    intros H. apply guarded_outcome in H. destruct H as (x & Hx & Ho).
    injection Hx as <-.
    split; [| intros [F | F]; discriminate].
    refine (outcome_answer P _ _ _ _ p p' resp well_formed_response _ _ Ho).
    + intros e. apply well_formed_server_error.
    + intros a x. apply well_formed_execute_answer.
  - rewrite get_status_shape.
    destruct (route_get "statementId" (route_params req)) as [sid |];
      [| intros H; injection H as <- _; apply Hbad].
    destruct (String.eqb sid "");
      [intros H; injection H as <- _; apply Hbad |].
    intros H. apply guarded_outcome in H. destruct H as (x & Hx & Ho).
    injection Hx as <-.
    split; [| intros [F | F]; discriminate].
    refine (outcome_answer P _ _ _ _ p p' resp well_formed_response _ _ Ho).
    + intros e. apply well_formed_server_error.
    + intros a x. apply well_formed_status_answer.
  - rewrite get_chunk_handler_shape.
    destruct (route_get "statementId" (route_params req)) as [sid |];
      [| intros H; injection H as <- _; apply Hbad].
    destruct (String.eqb sid "");
      [intros H; injection H as <- _; apply Hbad |].
    destruct (py_int _) as [e | idx];
      [intros H; injection H as <- _; apply Hbad |].
    intros H. apply guarded_outcome in H. destruct H as (x & Hx & Ho).
    injection Hx as <-.
    assert (Hq : well_formed_response resp /\ status_code resp <> 202).
    { refine (outcome_answer P _ _ _ _ p p' resp
                (fun x => well_formed_response x /\ status_code x <> 202)
                _ _ Ho).
      - intros e. apply well_formed_chunk_error.
      - intros a x. apply well_formed_chunk_answer. }
    destruct Hq. auto.
  - rewrite cancel_query_shape.
    destruct (route_get "statementId" (route_params req)) as [sid |];
      [| intros H; injection H as <- _; apply Hbad].
    destruct (String.eqb sid "");
      [intros H; injection H as <- _; apply Hbad |].
    intros H. apply guarded_outcome in H. destruct H as (x & Hx & Ho).
    injection Hx as <-.
    assert (Hq : well_formed_response resp /\ status_code resp <> 202).
    { refine (outcome_answer P _ _ _ _ p p' resp
                (fun x => well_formed_response x /\ status_code x <> 202)
                _ _ Ho).
      - intros e. apply well_formed_server_error.
      - intros a x. apply well_formed_cancel_answer. }
    destruct Hq. auto.
Qed.

Lemma answers_are_well_formed_witness :
  well_formed_response
    (mkResponse 202
       (JObj [("statementId", JStr "s1"); ("state", JStr "RUNNING")])
       "application/json").
Proof.
  exact (proj1 (answers_are_well_formed
                  (sample_platform sample_environ
                     (Reply 200 (inr running_body)))
                  Status (statement_request "s1") fresh_process _ _ eq_refl)).
Defined.

(* --------------------------------------------------------------------- *)
(** *** Status and Execute payloads *)

Lemma guarded_answered {A : Type} (P : platform) (op : DatabricksClient -> M A)
    (answer : A -> result HttpResponse) (on_error : exn -> HttpResponse)
    (line : string) (p p1 p2 : process) (c : DatabricksClient) (a : A)
    (resp : HttpResponse) :
  get_databricks_client P p = (inr c, p1) ->
  op c p1 = (inr a, p2) ->
  answer a = inr resp ->
  guarded P op answer on_error line p = (inr resp, p2).
Proof.
  intros Hc Hop Ha. unfold guarded, try_except.
  rewrite (bind_inr _ _ _ _ _ Hc), (bind_inr _ _ _ _ _ Hop).
  unfold lift. now rewrite Ha.
Qed.

Lemma guarded_op_raised {A : Type} (P : platform) (op : DatabricksClient -> M A)
    (answer : A -> result HttpResponse) (on_error : exn -> HttpResponse)
    (line : string) (p p1 p2 : process) (c : DatabricksClient) (e : exn) :
  get_databricks_client P p = (inr c, p1) ->
  op c p1 = (inl e, p2) ->
  guarded P op answer on_error line p = (inr (on_error e), after_log p2 line).
Proof.
  intros Hc Hop. unfold guarded, try_except.
  now rewrite (bind_inr _ _ _ _ _ Hc), (bind_inl _ _ _ _ _ Hop).
Qed.

Lemma add_metadata_own (r : StatementResult) (d : list (string * json)) :
  lookup "totalChunks" d = None ->
  lookup "totalRows" d = None ->
  lookup "columns" d = None ->
  lookup "totalChunks" (add_metadata r d)
    = (if is_none (total_chunk_count r) then None
       else Some (total_chunk_count r))
  /\ lookup "totalRows" (add_metadata r d)
     = (if is_none (total_row_count r) then None
        else Some (total_row_count r))
  /\ lookup "columns" (add_metadata r d)
     = (if truthy (columns r) then Some (columns r) else None).
Proof.
  intros H1 H2 H3. unfold add_metadata.
  destruct (is_none (total_chunk_count r));
    destruct (is_none (total_row_count r));
    destruct (truthy (columns r)); simpl;
    repeat split;
    repeat first [ rewrite lookup_set_item_same
                 | rewrite lookup_set_item_other by discriminate ];
    auto.
Qed.

(** X14: the Status payload carries a field only when it is known:
    [totalChunks] and [totalRows] exactly when the result's counts are
    not null, [columns] exactly when the column list is non-empty (an
    empty list is left out), [error] exactly when the state is FAILED,
    and never a [firstChunk]. *)
Theorem status_fields_only_when_known (P : platform) (req : HttpRequest)
    (p p1 p2 : process) (sid : string) (c : DatabricksClient)
    (r : StatementResult) :
  route_get "statementId" (route_params req) = Some sid ->
  sid <> "" ->
  get_databricks_client P p = (inr c, p1) ->
  get_statement_status P c sid p1 = (inr r, p2) ->
  exists payload,
    get_status P req p
    = (inr (mkResponse (status_value (status_of_state (state r)))
              (JObj payload) "application/json"), p2)
    /\ lookup "totalChunks" payload
       = (if is_none (total_chunk_count r) then None
          else Some (total_chunk_count r))
    /\ lookup "totalRows" payload
       = (if is_none (total_row_count r) then None
          else Some (total_row_count r))
    /\ lookup "columns" payload
       = (if truthy (columns r) then Some (columns r) else None)
    /\ lookup "error" payload
       = (if state_eqb (state r) FAILED then Some (error_message r) else None)
    /\ lookup "firstChunk" payload = None.
Proof.
  intros Hsid Hne Hc Hrun. apply String.eqb_neq in Hne.
  rewrite get_status_shape, Hsid, Hne.
  rewrite (guarded_answered P _ status_answer _ _ p p1 p2 c r _ Hc Hrun
             eq_refl).
  exists (status_payload r). split; [reflexivity |].
  unfold status_payload.
  assert (Hbase : forall k,
            k = "totalChunks" \/ k = "totalRows" \/ k = "columns" ->
            lookup k (if state_eqb (state r) FAILED
                      then set_item "error" (error_message r) (base_payload r)
                      else base_payload r) = None).
  { intros k [-> | [-> | ->]]; destruct (state_eqb (state r) FAILED);
      reflexivity. }
  destruct (add_metadata_own r _ (Hbase _ (or_introl eq_refl))
              (Hbase _ (or_intror (or_introl eq_refl)))
              (Hbase _ (or_intror (or_intror eq_refl))))
    as (H1 & H2 & H3).
  repeat split; try assumption.
  - rewrite add_metadata_other by discriminate.
    destruct (state_eqb (state r) FAILED); reflexivity.
  - rewrite add_metadata_other by discriminate.
    destruct (state_eqb (state r) FAILED); reflexivity.
Qed.

Lemma status_fields_only_when_known_witness :
  exists payload,
    get_status (sample_platform sample_environ (Reply 200 (inr untyped_column)))
      (statement_request "s1") fresh_process
    = (inr (mkResponse 202 (JObj payload) "application/json"),
       after_request (mkProcess (Some sample_client) [] [])
         (poll_request sample_client "s1"))
    /\ lookup "totalChunks" payload = Some (JNum 1)
    /\ lookup "totalRows" payload = None.
Proof.
  destruct (status_fields_only_when_known
              (sample_platform sample_environ (Reply 200 (inr untyped_column)))
              (statement_request "s1") fresh_process
              (mkProcess (Some sample_client) [] [])
              (after_request (mkProcess (Some sample_client) [] [])
                 (poll_request sample_client "s1"))
              "s1" sample_client
              (mkStatementResult (JStr "") PENDING (JNum 1) JNull
                 (JArr [JObj [("name", JStr "id"); ("type", JStr "string")]])
                 JNull JNull JNull)
              eq_refl ltac:(discriminate) eq_refl eq_refl)
    as (payload & Heq & H1 & H2 & _).
  exists payload. auto.
Defined.

Lemma answers_agree (r : StatementResult) :
  state r <> FAILED ->
  data r = JNull \/ state r <> SUCCEEDED ->
  execute_answer r = status_answer r.
Proof.
  intros Hf Hd. unfold execute_answer, status_answer, status_payload.
  destruct (state_eqb (state r) FAILED) eqn:Ef.
  - apply state_eqb_eq in Ef. contradiction.
  - assert (Hno : (negb (is_none (data r))
                   && state_eqb (state r) SUCCEEDED)%bool = false).
    { destruct Hd as [-> | Hs]; [reflexivity |].
      destruct (state_eqb (state r) SUCCEEDED) eqn:Es.
      - apply state_eqb_eq in Es. contradiction.
      - apply andb_false_r. }
    now rewrite Hno.
Qed.

(** X15: Execute and Status build the same answer from the same result
    whenever the state is not FAILED and there are no inline rows of a
    SUCCEEDED statement to embed; for a FAILED result Execute answers 500
    with exactly the statement id, the state and the error, leaving out
    the counts and columns that Status would add. *)
Theorem execute_and_status_agree (P : platform) (req req' : HttpRequest)
    (p p1 p2 q q1 q2 : process) (fields : list (string * json))
    (statement : json) (sid : string) (c c' : DatabricksClient)
    (r : StatementResult) :
  req_json req = Some (JObj fields) ->
  lookup "statement" fields = Some statement ->
  truthy statement = true ->
  get_databricks_client P p = (inr c, p1) ->
  execute_statement P c statement (field_or "parameters" (JObj fields) JNull) p1
    = (inr r, p2) ->
  route_get "statementId" (route_params req') = Some sid ->
  sid <> "" ->
  get_databricks_client P q = (inr c', q1) ->
  get_statement_status P c' sid q1 = (inr r, q2) ->
  (state r <> FAILED -> data r = JNull \/ state r <> SUCCEEDED ->
   fst (execute_query P req p) = fst (get_status P req' q))
  /\ (state r = FAILED ->
      fst (execute_query P req p)
      = inr (mkResponse 500
               (JObj [("statementId", statement_id r);
                      ("state", JStr "FAILED");
                      ("error", error_message r)])
               "application/json")).
Proof.
  intros Hb Hst Ht Hc Hrun Hsid Hne Hc' Hrun'.
  apply String.eqb_neq in Hne.
  assert (Hstatement : field_or "statement" (JObj fields) JNull = statement).
  { unfold field_or. simpl. now rewrite Hst. }
  rewrite execute_query_shape, Hb, Hstatement, Ht.
  rewrite get_status_shape, Hsid, Hne.
  split.
  - intros Hf Hd.
    rewrite (guarded_answered P _ execute_answer _ _ p p1 p2 c r _ Hc Hrun
               (answers_agree r Hf Hd)).
    now rewrite (guarded_answered P _ status_answer _ _ q q1 q2 c' r _
                   Hc' Hrun' eq_refl).
  - intros Hf.
    assert (Ha : execute_answer r
                 = inr (mkResponse 500
                          (JObj [("statementId", statement_id r);
                                 ("state", JStr "FAILED");
                                 ("error", error_message r)])
                          "application/json")).
    { unfold execute_answer, base_payload. rewrite Hf. reflexivity. }
    now rewrite (guarded_answered P _ execute_answer _ _ p p1 p2 c r _
                   Hc Hrun Ha).
Qed.

Lemma execute_and_status_agree_witness :
  fst (execute_query
         (sample_platform sample_environ (Reply 200 (inr running_body)))
         select_one_request fresh_process)
  = fst (get_status
           (sample_platform sample_environ (Reply 200 (inr running_body)))
           (statement_request "s1") fresh_process).
Proof.
  refine (proj1 (execute_and_status_agree
            (sample_platform sample_environ (Reply 200 (inr running_body)))
            select_one_request (statement_request "s1")
            fresh_process (mkProcess (Some sample_client) [] []) _
            fresh_process (mkProcess (Some sample_client) [] []) _
            _ (JStr "SELECT 1") "s1" sample_client sample_client
            (mkStatementResult (JStr "s1") RUNNING JNull JNull JNull JNull
               JNull JNull)
            eq_refl eq_refl eq_refl eq_refl eq_refl eq_refl _ eq_refl eq_refl)
            _ _).
  - discriminate.
  - discriminate.
  - left. reflexivity.
Defined.

(* --------------------------------------------------------------------- *)
(** *** Refusals and failures at the router *)

(** X16: Status and Cancel refuse a missing or empty [statementId] with
    400 "Missing statementId" and leave the process as it was: no client
    is created, nothing is sent, nothing is logged. *)
Theorem missing_statement_id_is_refused (P : platform) (req : HttpRequest)
    (p : process) :
  blank (route_get "statementId" (route_params req)) = true ->
  get_status P req p
  = (inr (error_response "Missing statementId" BAD_REQUEST), p)
  /\ cancel_query P req p
     = (inr (error_response "Missing statementId" BAD_REQUEST), p).
Proof.
  intros Hblank. rewrite get_status_shape, cancel_query_shape.
  destruct (route_get "statementId" (route_params req)) as [sid |];
    [| auto].
  simpl in Hblank. rewrite Hblank. auto.
Qed.

Lemma missing_statement_id_is_refused_witness :
  cancel_query (sample_platform sample_environ (Reply 200 (inr (JObj []))))
    (statement_request "") fresh_process
  = (inr (error_response "Missing statementId" BAD_REQUEST), fresh_process).
Proof.
  exact (proj2 (missing_statement_id_is_refused
                  (sample_platform sample_environ (Reply 200 (inr (JObj []))))
                  (statement_request "") fresh_process eq_refl)).
Defined.

(** X17: an Execute request whose [parameters] is truthy but not an
    object (a list, a string, a number, true) is not refused at
    validation: the client is fetched, building the payload raises, and
    the request is answered 500 with the text of that AttributeError,
    logged once, with nothing sent to the remote service. *)
Theorem bad_parameters_answer_500 (P : platform) (req : HttpRequest)
    (p p1 : process) (fields : list (string * json))
    (statement parameters : json) (c : DatabricksClient) :
  req_json req = Some (JObj fields) ->
  lookup "statement" fields = Some statement ->
  truthy statement = true ->
  lookup "parameters" fields = Some parameters ->
  truthy parameters = true ->
  is_obj parameters = false ->
  get_databricks_client P p = (inr c, p1) ->
  execute_query P req p
  = (inr (error_response (str_fault P (NoAttribute parameters "items"))
            INTERNAL_SERVER_ERROR),
     after_log p1 "Error executing query")
  /\ sent (after_log p1 "Error executing query") = sent p.
Proof.
  intros Hb Hst Ht Hps Htp Hobj Hc.
  assert (Hstatement : field_or "statement" (JObj fields) JNull = statement).
  { unfold field_or. simpl. now rewrite Hst. }
  assert (Hparams : field_or "parameters" (JObj fields) JNull = parameters).
  { unfold field_or. simpl. now rewrite Hps. }
  split.
  - rewrite execute_query_shape, Hb, Hstatement, Ht, Hparams.
    apply (guarded_op_raised P _ execute_answer (server_error P) _ p p1 p1 c
             (Fault (NoAttribute parameters "items")) Hc).
    rewrite execute_statement_run_with.
    destruct (parameters_entry_cases P parameters)
      as [[Hf _] | [(fs & -> & _) | (_ & _ & He)]].
    + rewrite Hf in Htp. discriminate.
    + discriminate.
    + now rewrite He.
  - simpl. apply get_client_step in Hc. destruct Hc as [Hs _]. exact Hs.
Qed.

Lemma bad_parameters_answer_500_witness :
  execute_query (sample_platform sample_environ (Reply 200 (inr running_body)))
    (execute_request (JObj [("statement", JStr "SELECT ?");
                            ("parameters", JArr [JNum 1])]))
    fresh_process
  = (inr (error_response "error" INTERNAL_SERVER_ERROR),
     mkProcess (Some sample_client) [] ["Error executing query"]).
Proof.
  exact (proj1 (bad_parameters_answer_500
                  (sample_platform sample_environ
                     (Reply 200 (inr running_body)))
                  (execute_request (JObj [("statement", JStr "SELECT ?");
                                          ("parameters", JArr [JNum 1])]))
                  fresh_process (mkProcess (Some sample_client) [] [])
                  _ (JStr "SELECT ?") (JArr [JNum 1]) sample_client
                  eq_refl eq_refl eq_refl eq_refl eq_refl eq_refl eq_refl)).
Defined.

Lemma append_assoc (a b c : string) : (a ++ b) ++ c = a ++ (b ++ c).
Proof. induction a as [| x a IH]; simpl; [reflexivity | now rewrite IH]. Qed.

Lemma is_prefix_app (a r : string) : is_prefix a (a ++ r) = true.
Proof.
  induction a as [| x a IH]; simpl; [reflexivity |].
  now rewrite Ascii.eqb_refl, IH.
Qed.

Lemma is_prefix_inv (a s : string) :
  is_prefix a s = true -> exists r, s = a ++ r.
Proof.
  revert s. induction a as [| x a IH]; intros s; simpl.
  - intros _. exists s. reflexivity.
  - destruct s as [| y s]; [discriminate |].
    intros H. apply andb_true_iff in H. destruct H as [Hx Ha].
    apply Ascii.eqb_eq in Hx. subst y.
    destruct (IH s Ha) as [r ->]. exists r. reflexivity.
Qed.

Lemma contains_app (l a r : string) : contains a (l ++ a ++ r) = true.
Proof.
  induction l as [| x l IH]; simpl.
  - destruct (a ++ r) eqn:E; simpl; rewrite <- E, is_prefix_app; reflexivity.
  - rewrite IH. apply orb_true_r.
Qed.

Lemma contains_inv (a s : string) :
  contains a s = true -> exists l r, s = l ++ a ++ r.
Proof.
  induction s as [| y s IH]; simpl.
  - rewrite orb_false_r. intros H. apply is_prefix_inv in H.
    destruct H as [r ->]. exists "", r. reflexivity.
  - intros H. apply orb_true_iff in H. destruct H as [H | H].
    + apply is_prefix_inv in H. destruct H as [r ->].
      exists "", r. reflexivity.
    + destruct (IH H) as (l & r & ->). exists (String y l), r. reflexivity.
Qed.

Lemma contains_trans (a b c : string) :
  contains a b = true -> contains b c = true -> contains a c = true.
Proof.
  intros Hab Hbc.
  apply contains_inv in Hab. destruct Hab as (l & r & ->).
  apply contains_inv in Hbc. destruct Hbc as (l' & r' & ->).
  replace (l' ++ (l ++ a ++ r) ++ r') with ((l' ++ l) ++ a ++ (r ++ r')).
  - apply contains_app.
  - now rewrite !append_assoc.
Qed.

(** X18: the chunk handler tells "gone" from "server error" by the text
    of the exception alone: whatever the client raises, the answer is 410
    with the re-execute message when the text contains "404" or, in any
    letter case, "not found", and 500 with the text otherwise.  So an
    HTTP error of any status code is answered 410 when its text shows the
    request URL and the statement id contains "404". *)
Theorem gone_is_decided_by_text (P : platform) (req : HttpRequest)
    (p p1 : process) (sid : string) (idx : Z) (c : DatabricksClient) :
  route_get "statementId" (route_params req) = Some sid ->
  sid <> "" ->
  py_int (route_get "chunkIndex" (route_params req)) = inr idx ->
  get_databricks_client P p = (inr c, p1) ->
  (forall e p2,
     get_chunk P c sid idx p1 = (inl e, p2) ->
     get_chunk_handler P req p
     = (inr (if (contains "404" (str_exn P e)
                 || contains "not found" (lower (str_exn P e)))%bool
             then error_response resubmit_message GONE
             else error_response (str_exn P e) INTERNAL_SERVER_ERROR),
        after_log p2 "Error fetching chunk"))
  /\ (forall code b,
        is_success code = false ->
        remote P (sent p1) (fetch_request c sid idx) = Reply code b ->
        contains "404" sid = true ->
        contains (host c ++ chunk_path sid idx)
          (str_fault P (BadStatus code (host c ++ chunk_path sid idx)))
          = true ->
        get_chunk_handler P req p
        = (inr (error_response resubmit_message GONE),
           after_log (after_request p1 (fetch_request c sid idx))
             "Error fetching chunk")).
Proof.
  intros Hsid Hne Hidx Hc.
  apply String.eqb_neq in Hne.
  assert (Hraised : forall e p2,
            get_chunk P c sid idx p1 = (inl e, p2) ->
            get_chunk_handler P req p
            = (inr (chunk_error P e), after_log p2 "Error fetching chunk")).
  { intros e p2 Hrun. rewrite get_chunk_handler_shape, Hsid, Hne, Hidx.
    apply (guarded_op_raised P _ chunk_answer (chunk_error P) _ p p1 p2 c e
             Hc Hrun). }
  split; [exact Hraised |].
  intros code b Hcode Hr Hid Htext.
  rewrite (Hraised (Fault (BadStatus code (host c ++ chunk_path sid idx)))
             (after_request p1 (fetch_request c sid idx))).
  - unfold chunk_error. simpl str_exn.
    assert (Hurl : contains "404"
                     (str_fault P
                        (BadStatus code (host c ++ chunk_path sid idx)))
                   = true).
    { apply (contains_trans _ _ _ Hid).
      refine (contains_trans _ _ _ _ Htext).
      unfold chunk_path.
      replace (host c ++ statements_path ++ "/" ++ sid ++ "/result/chunks/"
               ++ str_int idx)
        with ((host c ++ statements_path ++ "/") ++ sid
              ++ ("/result/chunks/" ++ str_int idx))
        by now rewrite !append_assoc.
      apply contains_app. }
    now rewrite Hurl.
  - rewrite get_chunk_run, Hr. unfold decoded, raise_for_status.
    unfold is_success in Hcode. now rewrite Hcode.
Qed.

Lemma gone_is_decided_by_text_witness :
  get_chunk_handler
    (sample_platform sample_environ (Reply 500 (inr (JObj []))))
    (chunk_request "job404" "0") fresh_process
  = (inr (error_response resubmit_message GONE),
     after_log (after_request (mkProcess (Some sample_client) [] [])
                  (fetch_request sample_client "job404" 0))
       "Error fetching chunk").
Proof.
  refine (proj2 (gone_is_decided_by_text
                   (sample_platform sample_environ
                      (Reply 500 (inr (JObj []))))
                   (chunk_request "job404" "0") fresh_process
                   (mkProcess (Some sample_client) [] [])
                   "job404" 0 sample_client eq_refl _ eq_refl eq_refl)
            500 (inr (JObj [])) eq_refl eq_refl eq_refl eq_refl).
  discriminate.
Defined.

(* ===================================================================== *)
(** ** Requests do not depend on one another *)
(* ===================================================================== *)

(** X20: Submit and Poll normalize a reply in the same way: when the
    remote service gives both the same successful reply, both return the
    same result (or raise the same exception). *)
Theorem submit_and_poll_normalize_alike (P : platform)
    (self : DatabricksClient) (p q : process) (statement parameters : json)
    (extra : list (string * json)) (sid : string) (code code' : Z)
    (doc : json) :
  parameters_entry P parameters = inr extra ->
  remote P (sent p) (submit_request_with self statement extra)
    = Reply code (inr doc) ->
  remote P (sent q) (poll_request self sid) = Reply code' (inr doc) ->
  is_success code = true -> is_success code' = true ->
  fst (execute_statement P self statement parameters p)
    = _parse_statement_response doc
  /\ fst (get_statement_status P self sid q) = _parse_statement_response doc.
Proof.
  intros He Hs Hp Hc Hc'. unfold is_success in Hc, Hc'.
  rewrite execute_statement_run_with, He, Hs, get_statement_status_run, Hp.
  unfold decoded, raise_for_status. rewrite Hc, Hc'. split; reflexivity.
Qed.

Lemma submit_and_poll_normalize_alike_witness :
  fst (execute_statement
         (sample_platform sample_environ (Reply 200 (inr running_body)))
         sample_client (JStr "SELECT 1") JNull fresh_process)
  = _parse_statement_response running_body.
Proof.
  exact (proj1 (submit_and_poll_normalize_alike
                  (sample_platform sample_environ
                     (Reply 200 (inr running_body)))
                  sample_client fresh_process fresh_process
                  (JStr "SELECT 1") JNull [] "s1" 200 200 running_body
                  eq_refl eq_refl eq_refl eq_refl eq_refl)).
Defined.

Lemma guarded_fst {A : Type} (P : platform) (op : DatabricksClient -> M A)
    (answer : A -> result HttpResponse) (on_error : exn -> HttpResponse)
    (line : string) (p q : process) :
  (forall c p1 q1, fst (op c p1) = fst (op c q1)) ->
  fst (get_databricks_client P p) = fst (get_databricks_client P q) ->
  fst (guarded P op answer on_error line p)
  = fst (guarded P op answer on_error line q).
Proof.
  intros Hop Hget. unfold guarded, try_except, bind.
  destruct (get_databricks_client P p) as [[e | c] p1];
    destruct (get_databricks_client P q) as [[e' | c'] q1];
    simpl in Hget; try discriminate.
  - now injection Hget as ->.
  - injection Hget as <-. specialize (Hop c p1 q1).
    destruct (op c p1) as [[e | a] p2];
      destruct (op c q1) as [[e' | a'] q2];
      simpl in Hop; try discriminate.
    + now injection Hop as ->.
    + injection Hop as <-. unfold lift.
      destruct (answer a); reflexivity.
Qed.

Lemma footprint_same_client (P : platform) (ep : endpoint) (p p' : process) :
  footprint P ep p p' ->
  fst (get_databricks_client P p') = fst (get_databricks_client P p).
Proof.
  intros (_ & _ & Hc). unfold get_databricks_client.
  destruct Hc as [-> | (Hn & c & Hi & Hs)].
  - destruct (_client p); [reflexivity |].
    destruct (DatabricksClient_init P None None None); reflexivity.
  - rewrite Hn, Hs, Hi. reflexivity.
Qed.

Lemma handler_fst (P : platform) (ep : endpoint) (req : HttpRequest)
    (p q : process) :
  (forall h h' x, remote P h x = remote P h' x) ->
  fst (get_databricks_client P p) = fst (get_databricks_client P q) ->
  fst (handler P ep req p) = fst (handler P ep req q).
Proof.
  intros Hr Hget. destruct ep; simpl.
  - rewrite !execute_query_shape.
    destruct (req_json req) as [body |]; [| reflexivity].
    destruct body as [| | | | | fields]; try reflexivity.
    destruct (truthy _); [| reflexivity].
    apply guarded_fst; [| exact Hget].
    intros c p1 q1. rewrite !execute_statement_run_with.
    destruct (parameters_entry P _) as [e | extra]; [reflexivity |].
    simpl. now rewrite (Hr (sent p1) (sent q1)).
  - rewrite !get_status_shape.
    destruct (route_get "statementId" (route_params req)) as [sid |];
      [| reflexivity].
    destruct (String.eqb sid ""); [reflexivity |].
    apply guarded_fst; [| exact Hget].
    intros c p1 q1. rewrite !get_statement_status_run. simpl.
    now rewrite (Hr (sent p1) (sent q1)).
  - rewrite !get_chunk_handler_shape.
    destruct (route_get "statementId" (route_params req)) as [sid |];
      [| reflexivity].
    destruct (String.eqb sid ""); [reflexivity |].
    destruct (py_int _) as [e | idx]; [reflexivity |].
    apply guarded_fst; [| exact Hget].
    intros c p1 q1. rewrite !get_chunk_run. simpl.
    now rewrite (Hr (sent p1) (sent q1)).
  - rewrite !cancel_query_shape.
    destruct (route_get "statementId" (route_params req)) as [sid |];
      [| reflexivity].
    destruct (String.eqb sid ""); [reflexivity |].
    apply guarded_fst; [| exact Hget].
    intros c p1 q1. rewrite !cancel_statement_run. simpl.
    now rewrite (Hr (sent p1) (sent q1)).
Qed.

(** X21: the router keeps nothing of a request that could change the
    answer to the next one: if the remote service answers by the request
    alone, then after any request has been served, on any route and with
    any outcome, every request is answered exactly as it would have been
    before. *)
Theorem answers_do_not_depend_on_history (P : platform)
    (ep0 ep : endpoint) (req0 req : HttpRequest) (p p' : process)
    (r0 : result HttpResponse) :
  (forall h h' x, remote P h x = remote P h' x) ->
  handler P ep0 req0 p = (r0, p') ->
  fst (handler P ep req p') = fst (handler P ep req p).
Proof.
  intros Hr H0. apply (handler_fst P ep req p' p Hr).
  apply (footprint_same_client P ep0).
  exact (handler_footprint P ep0 req0 p p' r0 H0).
Qed.

Lemma answers_do_not_depend_on_history_witness :
  fst (get_status
         (sample_platform sample_environ (Reply 200 (inr running_body)))
         (statement_request "s1")
         (after_request (mkProcess (Some sample_client) [] [])
            (fetch_request sample_client "s1" 0)))
  = fst (get_status
           (sample_platform sample_environ (Reply 200 (inr running_body)))
           (statement_request "s1") fresh_process).
Proof.
  refine (answers_do_not_depend_on_history
            (sample_platform sample_environ (Reply 200 (inr running_body)))
            Chunk Status (chunk_request "s1" "0") (statement_request "s1")
            fresh_process
            (after_request (mkProcess (Some sample_client) [] [])
               (fetch_request sample_client "s1" 0))
            _ _ eq_refl).
  reflexivity.
Defined.

(* ===================================================================== *)
(** ** Which request each route sends *)
(* ===================================================================== *)

Lemma guarded_sent {A : Type} (P : platform) (op : DatabricksClient -> M A)
    (answer : A -> result HttpResponse) (on_error : exn -> HttpResponse)
    (line : string) (p p1 : process) (c : DatabricksClient) :
  get_databricks_client P p = (inr c, p1) ->
  sent (snd (guarded P op answer on_error line p)) = sent (snd (op c p1)).
Proof.
  intros Hc. unfold guarded, try_except. rewrite (bind_inr _ _ _ _ _ Hc).
  unfold bind. destruct (op c p1) as [[e | a] p2]; [reflexivity |].
  unfold lift. destruct (answer a); reflexivity.
Qed.

(** X22: once validation has passed and the client is there, Status,
    Chunk and Cancel each send exactly one request, to the client's host
    and with its token: Status a GET of [/api/2.0/sql/statements/{id}],
    Chunk a GET of [/api/2.0/sql/statements/{id}/result/chunks/{index}]
    with the index in decimal, Cancel a POST to
    [/api/2.0/sql/statements/{id}/cancel], all three without a body.
    Execute sends one POST of the payload to [/api/2.0/sql/statements]
    when [parameters] is falsy or a dict, and sends nothing when it is
    truthy but not a dict. *)
Theorem routes_reach_their_endpoints (P : platform) (req : HttpRequest)
    (p p1 : process) (c : DatabricksClient) :
  get_databricks_client P p = (inr c, p1) ->
  (forall sid,
     route_get "statementId" (route_params req) = Some sid -> sid <> "" ->
     sent (snd (get_status P req p))
     = (sent p ++ [mkOutbound GET (host c) (token c)
                     ("/api/2.0/sql/statements/" ++ sid) None])%list
     /\ sent (snd (cancel_query P req p))
        = (sent p ++ [mkOutbound POST (host c) (token c)
                        ("/api/2.0/sql/statements/" ++ sid ++ "/cancel")
                        None])%list
     /\ forall idx,
          py_int (route_get "chunkIndex" (route_params req)) = inr idx ->
          sent (snd (get_chunk_handler P req p))
          = (sent p ++ [mkOutbound GET (host c) (token c)
                          ("/api/2.0/sql/statements/" ++ sid
                           ++ "/result/chunks/" ++ str_int idx) None])%list)
  /\ (forall fields statement parameters,
        req_json req = Some (JObj fields) ->
        lookup "statement" fields = Some statement ->
        truthy statement = true ->
        field_or "parameters" (JObj fields) JNull = parameters ->
        (truthy parameters = true -> is_obj parameters = false ->
         sent (snd (execute_query P req p)) = sent p)
        /\ (truthy parameters = false \/ is_obj parameters = true ->
            exists extra,
              parameters_entry P parameters = inr extra
              /\ sent (snd (execute_query P req p))
                 = (sent p
                    ++ [mkOutbound POST (host c) (token c)
                          "/api/2.0/sql/statements"
                          (Some (JObj ([("warehouse_id",
                                         JStr (warehouse_id c));
                                        ("statement", statement);
                                        ("wait_timeout", JStr "50s");
                                        ("on_wait_timeout", JStr "CONTINUE");
                                        ("format", JStr "JSON_ARRAY")]
                                       ++ extra)))])%list)).
Proof.
  intros Hc.
  assert (Hs : sent p1 = sent p).
  { apply get_client_step in Hc. now destruct Hc. }
  split.
  - intros sid Hsid Hne. apply String.eqb_neq in Hne.
    split; [| split].
    + rewrite get_status_shape, Hsid, Hne.
      rewrite (guarded_sent P _ _ _ _ p p1 c Hc), get_statement_status_run.
      simpl. now rewrite Hs.
    + rewrite cancel_query_shape, Hsid, Hne.
      rewrite (guarded_sent P _ _ _ _ p p1 c Hc), cancel_statement_run.
      simpl. now rewrite Hs.
    + intros idx Hidx.
      rewrite get_chunk_handler_shape, Hsid, Hne, Hidx.
      rewrite (guarded_sent P _ _ _ _ p p1 c Hc), get_chunk_run.
      simpl. now rewrite Hs.
  - intros fields statement parameters Hb Hst Ht Hps.
    assert (Hstatement : field_or "statement" (JObj fields) JNull = statement).
    { unfold field_or. simpl. now rewrite Hst. }
    assert (Hsent : sent (snd (execute_query P req p))
                    = sent (snd (execute_statement P c statement
                                   parameters p1))).
    { rewrite execute_query_shape, Hb, Hstatement, Ht, Hps.
      apply (guarded_sent P
               (fun c0 => execute_statement P c0 statement parameters)
               _ _ _ p p1 c Hc). }
    rewrite Hsent, execute_statement_run_with.
    destruct (parameters_entry_cases P parameters)
      as [[Hf He] | [(fs & Hp & Hne & He) | (Htp & Hobj & He)]];
      rewrite He.
    + split.
      * intros Htp. rewrite Hf in Htp. discriminate.
      * intros _. eexists. split; [reflexivity |]. simpl. now rewrite Hs.
    + split.
      * intros _ Hobj. rewrite Hp in Hobj. discriminate.
      * intros _. eexists. split; [reflexivity |]. simpl. now rewrite Hs.
    + split.
      * intros _ _. simpl. exact Hs.
      * intros [Hf | Ho]; [rewrite Hf in Htp | rewrite Ho in Hobj];
          discriminate.
Qed.

Lemma routes_reach_their_endpoints_witness :
  sent (snd (cancel_query
               (sample_platform sample_environ (Reply 200 (inr (JObj []))))
               (statement_request "s1") fresh_process))
  = [mkOutbound POST "https://dbx.example" "secret"
       "/api/2.0/sql/statements/s1/cancel" None].
Proof.
  refine (proj1 (proj2 (proj1 (routes_reach_their_endpoints
            (sample_platform sample_environ (Reply 200 (inr (JObj []))))
            (statement_request "s1") fresh_process
            (mkProcess (Some sample_client) [] []) sample_client eq_refl)
            "s1" eq_refl _))).
  discriminate.
Defined.

(* ===================================================================== *)
(** ** Normalization: exactly when it raises *)
(* ===================================================================== *)

Lemma envelope_parts (doc : json) :
  envelope_well_shaped doc = true ->
  is_obj doc = true
  /\ is_obj (status_of doc) = true
  /\ is_obj (manifest_of doc) = true
  /\ is_obj (result_of doc) = true
  /\ is_obj (field_or "error" (status_of doc) (JObj [])) = true
  /\ obj_or_absent (field "status" doc) = true.
Proof.
  unfold envelope_well_shaped. intros H.
  apply andb_true_iff in H. destruct H as [H He].
  apply andb_true_iff in H. destruct H as [H Hr].
  apply andb_true_iff in H. destruct H as [H Hm].
  apply andb_true_iff in H. destruct H as [Hd Hs].
  repeat split; try assumption; now apply obj_or_absent_field_or.
Qed.

Lemma parse_unnamed_column (doc : json) (s : StatementState) :
  envelope_well_shaped doc = true ->
  has_unnamed_column (manifest_of doc) = true ->
  StatementState_of (field_or "state" (status_of doc) (JStr "PENDING"))
    = inr s ->
  _parse_statement_response doc = inl (Fault (MissingKey "name")).
Proof.
  intros Henv Hcol Hstate.
  destruct (envelope_parts doc Henv) as (Hd & Hs & Hm & Hr & He & _).
  unfold _parse_statement_response.
  rewrite (py_get_obj doc "status" _ Hd). simpl rbind.
  fold (status_of doc).
  rewrite (py_get_obj (status_of doc) "state" _ Hs). simpl rbind.
  rewrite Hstate. simpl rbind.
  rewrite (py_get_obj doc "manifest" _ Hd),
          (py_get_obj doc "result" _ Hd). simpl rbind.
  fold (manifest_of doc) (result_of doc).
  assert (Herr : exists m,
    (if state_eqb s FAILED
     then (let? error := py_get (status_of doc) "error" (JObj []) in
           py_get error "message" (JStr "Unknown error"))%result
     else inr JNull) = inr m).
  { destruct (state_eqb s FAILED); [| eauto].
    rewrite (py_get_obj (status_of doc) "error" _ Hs). simpl rbind.
    rewrite py_get_obj by exact He. eauto. }
  destruct Herr as [m Herr]. rewrite Herr. simpl rbind.
  unfold has_unnamed_column in Hcol.
  destruct (manifest_of doc) as [| | | | | mf]; try discriminate.
  simpl in Hcol. simpl py_in. unfold has_key.
  destruct (lookup "schema" mf) as [schema |] eqn:Hschema;
    [| discriminate].
  destruct schema as [| | | | | sf]; try discriminate.
  simpl rbind. simpl py_getitem. rewrite Hschema. simpl rbind.
  simpl py_get.
  destruct (lookup "columns" sf) as [cols |]; [| discriminate].
  destruct cols as [| | | | cs |]; try discriminate.
  simpl rbind. simpl py_iter. simpl rbind.
  apply andb_true_iff in Hcol. destruct Hcol as [Hobj Hnamed].
  apply negb_true_iff in Hnamed.
  now rewrite (traverse_columns_unnamed cs Hobj Hnamed).
Qed.

(** C3 (amended): on every response body whose present fields have the
    documented shape (the body, [status], [status.error], [manifest],
    [manifest.schema] and [result] are objects, [columns] is a list of
    objects that each have a [name]), normalization returns whenever
    [status.state] is absent or one of the six enumerants, whatever other
    field is absent: an absent state gives PENDING, a FAILED state with no
    error object gives "Unknown error", an untyped column gets type
    "string"; and it raises exactly when the state is present and is not
    an enumerant, with the ValueError of the enumeration.  When the
    containers have that shape and the state is absent or an enumerant,
    but some column object has no [name], it raises the KeyError for
    [name]. *)
Theorem normalization_total_on_well_shaped (doc : json) :
  (well_shaped doc = true ->
   (field "state" (status_of doc) = None ->
    exists r, _parse_statement_response doc = inr r /\ state r = PENDING)
   /\ (forall s, field "state" (status_of doc) = Some (JStr (state_value s)) ->
       exists r, _parse_statement_response doc = inr r /\ state r = s)
   /\ (forall v, field "state" (status_of doc) = Some v -> unrecognized v ->
       _parse_statement_response doc = inl (Fault (NotAStatementState v)))
   /\ (forall r, _parse_statement_response doc = inr r ->
       columns r = columns_of (manifest_of doc)
       /\ (state r = FAILED -> field "error" (status_of doc) = None ->
           error_message r = JStr "Unknown error"))
   /\ (forall name fields,
         lookup "name" fields = Some name ->
         lookup "type_name" fields = None ->
         parse_column (JObj fields)
         = inr (JObj [("name", name); ("type", JStr "string")]))
   /\ (forall e, _parse_statement_response doc = inl e ->
       exists v, field "state" (status_of doc) = Some v
                 /\ unrecognized v
                 /\ e = Fault (NotAStatementState v)))
  /\ (envelope_well_shaped doc = true ->
      has_unnamed_column (manifest_of doc) = true ->
      (field "state" (status_of doc) = None
       \/ exists s, field "state" (status_of doc)
                    = Some (JStr (state_value s))) ->
      _parse_statement_response doc = inl (Fault (MissingKey "name"))).
Proof.
  split.
  - intros Hws. pose proof (parse_well_shaped doc Hws) as Hp.
    assert (Henv : envelope_well_shaped doc = true).
    { unfold well_shaped in Hws. apply andb_true_iff in Hws.
      now destruct Hws. }
    destruct (envelope_parts doc Henv) as (Hd & _ & _ & _ & _ & Hst).
    split; [| split; [| split; [| split; [| split]]]].
    + intros Hnone. unfold field_or at 1 in Hp. rewrite Hnone in Hp.
      simpl in Hp. eexists. split; [exact Hp | reflexivity].
    + intros s Hs. unfold field_or at 1 in Hp. rewrite Hs in Hp.
      rewrite StatementState_of_value in Hp.
      eexists. split; [exact Hp | reflexivity].
    + intros v Hv Hun. apply (parse_unrecognized doc v Hd Hst Hv Hun).
    + intros r Hr. split.
      * rewrite Hr in Hp.
        destruct (StatementState_of _); [discriminate |].
        injection Hp as ->. reflexivity.
      * intros Hs Hn.
        apply (proj1 (proj2 (proj2 (proj2
                 (error_message_of_failed_core doc r Hr)))) Hs Hn).
    + intros name fields Hname Htype. unfold parse_column. simpl.
      rewrite Hname, Htype. reflexivity.
    + intros e He. rewrite He in Hp.
      destruct (StatementState_of _) as [e' | st] eqn:Hst'; [| discriminate].
      injection Hp as ->.
      unfold field_or at 1 in Hst'.
      destruct (field "state" (status_of doc)) as [v |] eqn:Hv;
        [| discriminate].
      exists v. split; [reflexivity |]. split.
      * intros s ->. rewrite StatementState_of_value in Hst'. discriminate.
      * now apply StatementState_of_inl.
  - intros Henv Hcol [Hnone | [s Hs]].
    + apply (parse_unnamed_column doc PENDING Henv Hcol).
      unfold field_or. now rewrite Hnone.
    + apply (parse_unnamed_column doc s Henv Hcol).
      unfold field_or. rewrite Hs. apply StatementState_of_value.
Qed.

Lemma normalization_total_on_well_shaped_witness :
  (exists r,
     _parse_statement_response untyped_column = inr r /\ state r = PENDING)
  /\ _parse_statement_response unnamed_column
     = inl (Fault (MissingKey "name")).
Proof.
  split.
  - exact (proj1 (proj1 (normalization_total_on_well_shaped untyped_column)
                    eq_refl) eq_refl).
  - apply (proj2 (normalization_total_on_well_shaped unnamed_column));
      [reflexivity | reflexivity |].
    right. exists SUCCEEDED. reflexivity.
Defined.

(* ===================================================================== *)
(** ** Cancel, on every path *)
(* ===================================================================== *)

Lemma cancel_answer_kinds (b : bool) (x : HttpResponse) :
  cancel_answer b = inr x ->
  (body x = JObj [("cancelled", JBool true)] /\ status_code x = 200)
  \/ (exists msg, body x = JObj [("error", JStr msg)])
     /\ (status_code x = 400 \/ status_code x = 500).
Proof.
  unfold cancel_answer. intros H. injection H as <-.
  destruct b; simpl; [left; auto | right; eauto].
Qed.

(** C8 (amended): whenever the remote service answers the cancel request,
    with whatever status code, the client's Cancel returns without
    raising, and returns true exactly when the code is 200; the router
    reports true as a 200 with [{cancelled: true}] and false as a 500
    with the error "Failed to cancel"; when the transport raises it
    answers 500 with the text of the exception.  On every path the Cancel
    handler answers without raising, and its payload is either
    [{cancelled: true}] with 200 or a single [error] with 400 or 500: it
    never sends [cancelled: false]. *)
Theorem cancel_is_best_effort (P : platform) :
  (forall c sid p code b,
     remote P (sent p) (cancel_request c sid) = Reply code b ->
     cancel_statement P c sid p
     = (inr (code =? 200), after_request p (cancel_request c sid)))
  /\ (forall req p p1 sid c code b,
        route_get "statementId" (route_params req) = Some sid ->
        sid <> "" ->
        get_databricks_client P p = (inr c, p1) ->
        remote P (sent p1) (cancel_request c sid) = Reply code b ->
        cancel_query P req p
        = (inr (if code =? 200
                then json_response [("cancelled", JBool true)] OK
                else error_response "Failed to cancel" INTERNAL_SERVER_ERROR),
           after_request p1 (cancel_request c sid)))
  /\ (forall req p p1 sid c e,
        route_get "statementId" (route_params req) = Some sid ->
        sid <> "" ->
        get_databricks_client P p = (inr c, p1) ->
        remote P (sent p1) (cancel_request c sid) = NoReply e ->
        cancel_query P req p
        = (inr (error_response (str_exn P e) INTERNAL_SERVER_ERROR),
           after_log (after_request p1 (cancel_request c sid))
             "Error cancelling query"))
  /\ (forall req p,
        exists resp p',
          cancel_query P req p = (inr resp, p')
          /\ ((body resp = JObj [("cancelled", JBool true)]
               /\ status_code resp = 200)
              \/ (exists msg, body resp = JObj [("error", JStr msg)])
                 /\ (status_code resp = 400 \/ status_code resp = 500))
          /\ field "cancelled" (body resp) <> Some (JBool false)).
Proof.
  split; [| split; [| split]].
  - intros c sid p code b Hr. rewrite cancel_statement_run, Hr. reflexivity.
  - intros req p p1 sid c code b Hsid Hne Hc Hr.
    apply String.eqb_neq in Hne.
    unfold cancel_query. rewrite Hsid, Hne. unfold try_except.
    rewrite (bind_inr _ _ _ _ _ Hc). unfold bind.
    rewrite cancel_statement_run, Hr.
    destruct (code =? 200); reflexivity.
  - intros req p p1 sid c e Hsid Hne Hc Hr.
    apply String.eqb_neq in Hne.
    rewrite cancel_query_shape, Hsid, Hne.
    apply (guarded_op_raised P (fun c0 => cancel_statement P c0 sid)
             cancel_answer (server_error P) _ p p1 _ c e Hc).
    rewrite cancel_statement_run, Hr. reflexivity.
  - intros req p.
    assert (Hkinds : exists resp p',
              cancel_query P req p = (inr resp, p')
              /\ ((body resp = JObj [("cancelled", JBool true)]
                   /\ status_code resp = 200)
                  \/ (exists msg, body resp = JObj [("error", JStr msg)])
                     /\ (status_code resp = 400 \/ status_code resp = 500))).
    { rewrite cancel_query_shape.
      destruct (route_get "statementId" (route_params req)) as [sid |];
        [| eexists; eexists; split; [reflexivity |]; right; simpl; eauto].
      destruct (String.eqb sid "");
        [eexists; eexists; split; [reflexivity |]; right; simpl; eauto |].
      destruct (guarded_returns P (fun c => cancel_statement P c sid)
                  cancel_answer (server_error P) (log_line Cancel) p)
        as (resp & p' & Heq & Ho).
      exists resp, p'. split; [exact Heq |].
      refine (outcome_answer P _ _ _ _ p p' resp
                (fun x => (body x = JObj [("cancelled", JBool true)]
                           /\ status_code x = 200)
                          \/ (exists msg, body x = JObj [("error", JStr msg)])
                             /\ (status_code x = 400 \/ status_code x = 500))
                _ _ Ho).
      - intros e. right. simpl. eauto.
      - intros a x. apply cancel_answer_kinds. }
    destruct Hkinds as (resp & p' & Heq & Hk).
    exists resp, p'. split; [exact Heq |]. split; [exact Hk |].
    destruct Hk as [[Hb _] | [[msg Hb] _]]; rewrite Hb; discriminate.
Qed.

Lemma cancel_is_best_effort_witness :
  cancel_query (sample_platform sample_environ (Reply 200 (inr (JObj []))))
    (statement_request "s1") fresh_process
  = (inr (json_response [("cancelled", JBool true)] OK),
     after_request (mkProcess (Some sample_client) [] [])
       (cancel_request sample_client "s1")).
Proof.
  refine (proj1 (proj2 (cancel_is_best_effort
                   (sample_platform sample_environ
                      (Reply 200 (inr (JObj []))))))
            (statement_request "s1") fresh_process
            (mkProcess (Some sample_client) [] []) "s1" sample_client
            200 (inr (JObj [])) eq_refl _ eq_refl eq_refl).
  discriminate.
Defined.

(* ===================================================================== *)
(** ** A chunk answered with 200 *)
(* ===================================================================== *)

Lemma guarded_answer_raised {A : Type} (P : platform)
    (op : DatabricksClient -> M A) (answer : A -> result HttpResponse)
    (on_error : exn -> HttpResponse) (line : string) (p p1 p2 : process)
    (c : DatabricksClient) (a : A) (e : exn) :
  get_databricks_client P p = (inr c, p1) ->
  op c p1 = (inr a, p2) ->
  answer a = inl e ->
  guarded P op answer on_error line p = (inr (on_error e), after_log p2 line).
Proof.
  intros Hc Hop Ha. unfold guarded, try_except.
  rewrite (bind_inr _ _ _ _ _ Hc), (bind_inr _ _ _ _ _ Hop).
  unfold lift. now rewrite Ha.
Qed.

(** C10, as stated, fails: a chunk request that the remote service
    answers with HTTP 200 and the body [null], which carries no
    [data_array], is not answered 200 with [rowCount] 0: reading the body
    raises, and the answer is the 500 of the [except] block. *)
Lemma chunk_200_null_body_is_an_error :
  get_chunk_handler (sample_platform sample_environ null_body_reply)
    (chunk_request "s1" "0") fresh_process
  = (inr (mkResponse 500 (JObj [("error", JStr "error")]) "application/json"),
     mkProcess (Some sample_client)
       [fetch_request sample_client "s1" 0] ["Error fetching chunk"]).
Proof. reflexivity. Qed.

(** C10 (amended): when the remote service answers a valid chunk request
    with HTTP 200 and a JSON object, then: if [data_array] is a list, the
    answer is 200 with [rowCount] the number of its rows and [data] that
    list; if [data_array] is absent or null, the answer is still 200, with
    [rowCount] 0 and [data] null; [chunkIndex] is the reply's
    [chunk_index], null when the reply has none.  A 200 whose body does
    not decode, or decodes to something that is not an object, or whose
    [data_array] is truthy and has no length, is answered by the [except]
    block: 410 or 500 with an [error]. *)
Theorem chunk_row_count (P : platform) (req : HttpRequest) (p p1 : process)
    (sid : string) (idx : Z) (c : DatabricksClient) :
  route_get "statementId" (route_params req) = Some sid ->
  sid <> "" ->
  py_int (route_get "chunkIndex" (route_params req)) = inr idx ->
  get_databricks_client P p = (inr c, p1) ->
  let sent1 := after_request p1 (fetch_request c sid idx) in
  let failed e :=
    (inr (chunk_error P e), after_log sent1 "Error fetching chunk") in
  (forall fields,
     remote P (sent p1) (fetch_request c sid idx)
       = Reply 200 (inr (JObj fields)) ->
     let chunkIndex := field_or "chunk_index" (JObj fields) JNull in
     let answer n rows :=
       (inr (mkResponse 200
               (JObj [("chunkIndex", chunkIndex);
                      ("rowCount", JNum n);
                      ("data", rows)])
               "application/json"),
        sent1) in
     (forall rows, lookup "data_array" fields = Some (JArr rows) ->
        get_chunk_handler P req p
        = answer (Z.of_nat (List.length rows)) (JArr rows))
     /\ (lookup "data_array" fields = None
         \/ lookup "data_array" fields = Some JNull ->
         get_chunk_handler P req p = answer 0 JNull)
     /\ (lookup "chunk_index" fields = None -> chunkIndex = JNull)
     /\ (forall v e, lookup "data_array" fields = Some v ->
                     truthy v = true -> py_len v = inl e ->
                     get_chunk_handler P req p = failed e))
  /\ (forall doc,
        remote P (sent p1) (fetch_request c sid idx) = Reply 200 (inr doc) ->
        is_obj doc = false ->
        get_chunk_handler P req p = failed (Fault (NoAttribute doc "get")))
  /\ (forall e,
        remote P (sent p1) (fetch_request c sid idx) = Reply 200 (inl e) ->
        get_chunk_handler P req p = failed e)
  /\ (forall e,
        (status_code (chunk_error P e) = 410
         \/ status_code (chunk_error P e) = 500)
        /\ exists msg, body (chunk_error P e) = JObj [("error", JStr msg)]).
Proof.
  intros Hsid Hne Hidx Hc sent1 failed.
  apply String.eqb_neq in Hne.
  assert (Hshape :
    get_chunk_handler P req p
    = guarded P (fun c0 => get_chunk P c0 sid idx) chunk_answer
        (chunk_error P) (log_line Chunk) p).
  { now rewrite get_chunk_handler_shape, Hsid, Hne, Hidx. }
  split; [| split; [| split]].
  - intros fields Hremote chunkIndex answer.
    assert (Hrun : get_chunk P c sid idx p1 =
              (inr (mkStatementResult (JStr sid) SUCCEEDED JNull JNull JNull
                      (field_or "data_array" (JObj fields) JNull)
                      chunkIndex JNull),
               sent1)).
    { rewrite get_chunk_run, Hremote. reflexivity. }
    assert (Hok : forall rows n,
              field_or "data_array" (JObj fields) JNull = rows ->
              (if truthy rows then py_len rows else inr 0) = inr n ->
              get_chunk_handler P req p = answer n rows).
    { intros rows n Hrows Hn. rewrite Hshape.
      apply (guarded_answered P (fun c0 => get_chunk P c0 sid idx)
               chunk_answer _ _ p p1 sent1 c _ _ Hc Hrun).
      unfold chunk_answer. simpl data. rewrite Hrows, Hn.
      simpl chunk_index. reflexivity. }
    split; [| split; [| split]].
    + intros rows Hrows. apply Hok.
      * unfold field_or. simpl. now rewrite Hrows.
      * destruct rows; reflexivity.
    + intros Hnone. apply Hok; [| reflexivity].
      unfold field_or. simpl. destruct Hnone as [-> | ->]; reflexivity.
    + intros Hnone. unfold chunkIndex, field_or. simpl. now rewrite Hnone.
    + intros v e Hv Htruthy Hlen. rewrite Hshape.
      apply (guarded_answer_raised P (fun c0 => get_chunk P c0 sid idx)
               chunk_answer _ _ p p1 sent1 c _ e Hc Hrun).
      unfold chunk_answer. simpl data.
      assert (Hrows : field_or "data_array" (JObj fields) JNull = v).
      { unfold field_or. simpl. now rewrite Hv. }
      now rewrite Hrows, Htruthy, Hlen.
  - intros doc Hremote Hobj. rewrite Hshape.
    apply (guarded_op_raised P (fun c0 => get_chunk P c0 sid idx)
             chunk_answer (chunk_error P) _ p p1 sent1 c _ Hc).
    rewrite get_chunk_run, Hremote.
    destruct doc; try discriminate; reflexivity.
  - intros e Hremote. rewrite Hshape.
    apply (guarded_op_raised P (fun c0 => get_chunk P c0 sid idx)
             chunk_answer (chunk_error P) _ p p1 sent1 c _ Hc).
    rewrite get_chunk_run, Hremote. reflexivity.
  - intros e. unfold chunk_error, server_error.
    destruct (contains "404" (str_exn P e)
              || contains "not found" (lower (str_exn P e)))%bool;
      simpl; eauto.
Qed.

Lemma chunk_row_count_witness :
  get_chunk_handler (sample_platform sample_environ
                       (Reply 200 (inr chunk_body)))
    (chunk_request "s1" "2") fresh_process
  = (inr (mkResponse 200
            (JObj [("chunkIndex", JNum 2);
                   ("rowCount", JNum 2);
                   ("data", JArr [JArr [JNum 1]; JArr [JNum 2]])])
            "application/json"),
     after_request (mkProcess (Some sample_client) [] [])
       (fetch_request sample_client "s1" 2)).
Proof.
  refine (proj1 (proj1 (chunk_row_count
                   (sample_platform sample_environ (Reply 200 (inr chunk_body)))
                   (chunk_request "s1" "2") fresh_process
                   (mkProcess (Some sample_client) [] [])
                   "s1" 2 sample_client eq_refl _ eq_refl eq_refl)
                  _ eq_refl)
            _ eq_refl).
  discriminate.
Defined.
